(** * rampwf: likelihood score types and the ranking prediction type

    A shallow embedding of
    - [rampwf/score_types/negative_log_likelihood.py]
      ([NegativeLogLikelihoodReg], [LikelihoodRatio], [normpdf],
      [NegativeLogLikelihoodRegGaussian], [LikelihoodRatioGaussian]) and
    - [rampwf/prediction_types/ranking.py]
      ([_ranking_init], [_init_from_pred_labels], [y_pred_label_index],
      [_combine]).

    Numbers.  numpy's [float64] is embedded as the real numbers extended
    with [NaN] and the two infinities: every special-value rule the code
    relies on ([log 0 = -inf], [0/0 = nan], NaN absorbing, comparisons with
    NaN false) is written out, rounding and overflow of finite values are
    not modelled, and zero carries no sign.  A property that would not
    survive rounding, overflow or underflow is stated on inputs in a range
    where binary64 agrees with the real numbers (exactly, or up to the
    rounding of the closed form it is compared with); where rounding or
    overflow decides the outcome, the lines concerned are embedded over
    binary64 itself, in [Binary64].

    Arrays.  A numpy array is a shape together with an index function;
    entries outside the shape are never read by the definitions below.
    What numpy raises on an index outside the shape is written out as
    an [IndexError] result. *)

From Stdlib Require Import String.
From Stdlib Require Import Reals Lra Lia List Bool Arith ZArith Permutation.
From Stdlib Require Import FunctionalExtensionality.
From Stdlib Require Floats.
Import ListNotations.
Open Scope R_scope.

(** ** Exceptions and fallible results *)

Inductive exception : Type :=
| ValueError (msg : string)
| IndexError
| AssertionError
| OverflowError
| ZeroDivisionError
| AttributeError.

Inductive result (A : Type) : Type :=
| Ok (a : A)
| Raise (e : exception).
Arguments Ok {A} a.
Arguments Raise {A} e.

Definition bind {A B : Type} (m : result A) (k : A -> result B) : result B :=
  match m with
  | Ok a => k a
  | Raise e => Raise e
  end.

Notation "x <- m ;; k" := (bind m (fun x => k))
  (at level 61, m at next level, right associativity).
Notation "m ;;; k" := (bind m (fun _ => k))
  (at level 61, right associativity).

(** [raise_if b e] raises [e] when [b] holds. *)
Definition raise_if (b : bool) (e : exception) : result unit :=
  if b then Raise e else Ok tt.

(** Runs a fallible check over a list, left to right; the first
    exception wins, as in a Python [for] loop. *)
Fixpoint for_each {A : Type} (f : A -> result unit) (l : list A) : result unit :=
  match l with
  | [] => Ok tt
  | a :: l' => f a ;;; for_each f l'
  end.

(** ** Floating-point values *)

Inductive float : Type :=
| NaN
| PInf
| NInf
| Fin (r : R).

Definition Rltb (x y : R) : bool := if Rlt_dec x y then true else false.
Definition Rleb (x y : R) : bool := if Rle_dec x y then true else false.
Definition Reqb (x y : R) : bool := if Req_dec_T x y then true else false.

Definition isnan (x : float) : bool :=
  match x with NaN => true | _ => false end.

(** [x < y], false as soon as one side is NaN. *)
Definition flt (x y : float) : bool :=
  match x, y with
  | NaN, _ | _, NaN => false
  | _, NInf => false
  | PInf, _ => false
  | NInf, _ => true
  | Fin _, PInf => true
  | Fin a, Fin b => Rltb a b
  end.

(** [x <= y], false as soon as one side is NaN. *)
Definition fle (x y : float) : bool :=
  match x, y with
  | NaN, _ | _, NaN => false
  | NInf, _ => true
  | _, PInf => true
  | PInf, _ => false
  | Fin _, NInf => false
  | Fin a, Fin b => Rleb a b
  end.

Definition fgt (x y : float) : bool := flt y x.
Definition fge (x y : float) : bool := fle y x.

(** [x == y]. *)
Definition feq (x y : float) : bool :=
  match x, y with
  | PInf, PInf | NInf, NInf => true
  | Fin a, Fin b => Reqb a b
  | _, _ => false
  end.

Definition fneg (x : float) : float :=
  match x with
  | NaN => NaN
  | PInf => NInf
  | NInf => PInf
  | Fin a => Fin (- a)
  end.

Definition fadd (x y : float) : float :=
  match x, y with
  | NaN, _ | _, NaN => NaN
  | PInf, NInf | NInf, PInf => NaN
  | PInf, _ | _, PInf => PInf
  | NInf, _ | _, NInf => NInf
  | Fin a, Fin b => Fin (a + b)
  end.

Definition fsub (x y : float) : float := fadd x (fneg y).

(** The value of [inf * r] or [r / 0] according to the sign of [r]. *)
Definition by_sign (r : R) (pos neg : float) : float :=
  if Rlt_dec 0 r then pos else if Rlt_dec r 0 then neg else NaN.

Definition fmul (x y : float) : float :=
  match x, y with
  | NaN, _ | _, NaN => NaN
  | Fin a, Fin b => Fin (a * b)
  | PInf, PInf | NInf, NInf => PInf
  | PInf, NInf | NInf, PInf => NInf
  | PInf, Fin b | Fin b, PInf => by_sign b PInf NInf
  | NInf, Fin b | Fin b, NInf => by_sign b NInf PInf
  end.

Definition fdiv (x y : float) : float :=
  match x, y with
  | NaN, _ | _, NaN => NaN
  | Fin a, Fin b => if Req_dec_T b 0 then by_sign a PInf NInf else Fin (a / b)
  | Fin _, PInf | Fin _, NInf => Fin 0
  | PInf, PInf | PInf, NInf | NInf, PInf | NInf, NInf => NaN
  | PInf, Fin b => if Rlt_dec b 0 then NInf else PInf
  | NInf, Fin b => if Rlt_dec b 0 then PInf else NInf
  end.

(** [np.exp]. *)
Definition fexp (x : float) : float :=
  match x with
  | NaN => NaN
  | PInf => PInf
  | NInf => Fin 0
  | Fin a => Fin (exp a)
  end.

(** [np.log]: [-inf] at zero, NaN below. *)
Definition flog (x : float) : float :=
  match x with
  | NaN | NInf => NaN
  | PInf => PInf
  | Fin a => if Rlt_dec 0 a then Fin (ln a)
             else if Rlt_dec a 0 then NaN else NInf
  end.

(** [np.sqrt]. *)
Definition fsqrt (x : float) : float :=
  match x with
  | NaN | NInf => NaN
  | PInf => PInf
  | Fin a => if Rlt_dec a 0 then NaN else Fin (sqrt a)
  end.

(** [x ** 2]. *)
Definition fsquare (x : float) : float := fmul x x.

(** [x ** .5]: as [np.sqrt] on the finite values, [+inf] at both
    infinities. *)
Definition fpow_half (x : float) : float :=
  match x with
  | NInf => PInf
  | _ => fsqrt x
  end.

(** [np.clip(x, lo, None)]: the maximum of [x] and [lo], NaN kept. *)
Definition clip_low (x lo : float) : float :=
  if isnan x then NaN else if flt x lo then lo else x.

Definition of_nat (n : nat) : float := Fin (INR n).

(** Truncation toward zero of a real number. *)
Definition Rtrunc (r : R) : Z :=
  if Rle_dec 0 r then Int_part r else (- Int_part (- r))%Z.

(** Python's [int(x)] on a float. *)
Definition int (x : float) : result Z :=
  match x with
  | NaN => Raise (ValueError "cannot convert float NaN to integer")
  | PInf | NInf => Raise OverflowError
  | Fin r => Ok (Rtrunc r)
  end.

(** Left-to-right sum of [f 0 .. f (n-1)], starting from [0.0]. *)
Definition fsum (n : nat) (f : nat -> float) : float :=
  fold_left fadd (map f (seq 0 n)) (Fin 0).

(** ** Arrays *)

Record array1 : Type := mk1 { len1 : nat; get1 : nat -> float }.
Record array2 : Type := mk2 { rows2 : nat; cols2 : nat; get2 : nat -> nat -> float }.
Record array3 : Type :=
  mk3 { dim0 : nat; dim1 : nat; dim2 : nat; get3 : nat -> nat -> nat -> float }.

Definition of_list1 (l : list float) : array1 :=
  mk1 (length l) (fun i => nth i l NaN).

(** A list of rows of width [m]. *)
Definition of_list2 (m : nat) (l : list (list float)) : array2 :=
  mk2 (length l) m (fun i j => nth j (nth i l []) NaN).

(** A list of planes, each a list of rows of width [m], [n] rows a plane. *)
Definition of_list3 (n m : nat) (l : list (list (list float))) : array3 :=
  mk3 (length l) n m (fun i j k => nth k (nth j (nth i l []) []) NaN).

Definition to_list1 (a : array1) : list float :=
  map (get1 a) (seq 0 (len1 a)).

(** [a.swapaxes(0, 1)] on a matrix. *)
Definition swapaxes2 (a : array2) : array2 :=
  mk2 (cols2 a) (rows2 a) (fun i j => get2 a j i).

(** [a.swapaxes(1, 0)] on a 3-d array. *)
Definition swapaxes3 (a : array3) : array3 :=
  mk3 (dim1 a) (dim0 a) (dim2 a) (fun i j k => get3 a j i k).

(** A fresh array given by its entries inside the shape; what lies
    outside is never read and set to [NaN]. *)
Definition build3 (d0 d1 d2 : nat) (f : nat -> nat -> nat -> float) : array3 :=
  mk3 d0 d1 d2
      (fun i j k => if ((i <? d0) && (j <? d1) && (k <? d2))%nat then f i j k else NaN).

(** [a[:, :, lo:hi]] for non-negative bounds: numpy clips both to the
    axis length. *)
Definition slice3 (a : array3) (lo hi : nat) : array3 :=
  let lo' := Nat.min lo (dim2 a) in
  let hi' := Nat.min hi (dim2 a) in
  build3 (dim0 a) (dim1 a) (hi' - lo') (fun i j k => get3 a i j (lo' + k)).

Definition size2 (a : array2) : nat := (rows2 a * cols2 a)%nat.

(** All index pairs of an [n x m] grid, row by row. *)
Definition cells (n m : nat) : list (nat * nat) :=
  list_prod (seq 0 n) (seq 0 m).

Definition all2 (p : float -> bool) (a : array2) : bool :=
  forallb (fun ij => p (get2 a (fst ij) (snd ij))) (cells (rows2 a) (cols2 a)).
Definition any3 (p : float -> bool) (a : array3) : bool :=
  existsb (fun ij => existsb (fun k => p (get3 a (fst ij) (snd ij) k)) (seq 0 (dim2 a)))
          (cells (dim0 a) (dim1 a)).

(** [np.sum(a)] over a whole matrix. *)
Definition sum2 (a : array2) : float :=
  fold_left fadd (map (fun ij => get2 a (fst ij) (snd ij)) (cells (rows2 a) (cols2 a)))
            (Fin 0).

(** The ground truth handed to a scorer: a vector of samples, or a
    (samples x dimensions) matrix. *)
Inductive truth : Type :=
| Truth1 (v : array1)
| Truth2 (m : array2).

(** The first lines of every [__call__]:
    [y_true = np.array([y_true])] for a vector, [y_true.swapaxes(0, 1)]
    otherwise. *)
Definition by_dimension (y_true : truth) : array2 :=
  match y_true with
  | Truth1 v => mk2 1 (len1 v) (fun _ j => get1 v j)
  | Truth2 m => swapaxes2 m
  end.

(** Python's [a[i]] on an axis of length [len]: negative indices count
    from the end. *)
Definition py_index (len : nat) (i : Z) : result nat :=
  if ((0 <=? i) && (i <? Z.of_nat len))%Z then Ok (Z.to_nat i)
  else if ((- Z.of_nat len <=? i) && (i <? 0))%Z then Ok (Z.to_nat (i + Z.of_nat len))
  else Raise IndexError.

(** ** Score types *)

Definition WORST_LK : float := Fin (-50).

(** ** [class NegativeLogLikelihoodReg] *)

Module NegativeLogLikelihoodReg.

Definition is_lower_the_better : bool := true.
Definition minimum : float := fneg PInf.
Definition maximum : float := PInf.

Definition nan_message : string :=
  "The output of the regressor contains nans, or isof the wrong shape. 
                It should be (time_step, dim_step, bins+probas)".

Definition order_message : string := "Bins must be ordered and non empty".

(** [bins = y_pred[:, :, :self.n_bins + 1].swapaxes(1, 0)] *)
Definition bins_of (n_bins : nat) (y_pred : array3) : array3 :=
  swapaxes3 (slice3 y_pred 0 (n_bins + 1)).

(** [prob = y_pred[:, :, self.n_bins + 1: 2 * self.n_bins + 1].swapaxes(1, 0)] *)
Definition prob_of (n_bins : nat) (y_pred : array3) : array3 :=
  swapaxes3 (slice3 y_pred (n_bins + 1) (2 * n_bins + 1)).

(** [np.sum(prob, axis=2, keepdims=True)] *)
Definition summed_prob (prob : array3) : array2 :=
  mk2 (dim0 prob) (dim1 prob) (fun i j => fsum (dim2 prob) (get3 prob i j)).

(** [if not np.all(summed_prob == 1): prob = (prob / summed_prob)] *)
Definition renormalise (prob : array3) : array3 :=
  if all2 (fun s => feq s (Fin 1)) (summed_prob prob) then prob
  else build3 (dim0 prob) (dim1 prob) (dim2 prob)
              (fun i j k => fdiv (get3 prob i j k) (get2 (summed_prob prob) i j)).

(** [any([time_step[i] >= time_step[i + 1] for dim_bin in bins
          for time_step in dim_bin for i in range(len(time_step) - 1)])] *)
Definition unordered (bins : array3) : bool :=
  existsb (fun ij =>
             existsb (fun i => fge (get3 bins (fst ij) (snd ij) i)
                                   (get3 bins (fst ij) (snd ij) (i + 1)))
                     (seq 0 (dim2 bins - 1)))
          (cells (dim0 bins) (dim1 bins)).

(** The inner [for k in range(1, len(dim))] loop; [cell] is the current
    content of [classes_matrix[i, j]], [None] standing for the NaN it
    was filled with. *)
Fixpoint class_scan (dim : nat -> float) (len : nat) (t : float)
         (ks : list nat) (cell : option Z) : option Z :=
  match ks with
  | [] => cell
  | k :: ks' =>
      if fgt (dim k) t then Some (Z.of_nat k - 1)%Z
      else class_scan dim len t ks'
                      (if (k =? len - 1)%nat then Some (-1)%Z else cell)
  end.

(** The body of the two outer loops for one (dimension, sample). *)
Definition class_of (dim : nat -> float) (len : nat) (t : float) : option Z :=
  if fgt (dim 0%nat) t then Some (-1)%Z
  else class_scan dim len t (seq 1 (len - 1)) None.

(** [classes_matrix]: shaped like [y_true], filled by the loops over
    [bins].  Reading [y_true[i, j]] or [dim[0]] outside the shape raises. *)
Definition classes_matrix (y_true : array2) (bins : array3)
  : result (nat -> nat -> option Z) :=
  for_each (fun ij =>
              raise_if (negb ((fst ij <? rows2 y_true) && (snd ij <? cols2 y_true))%nat
                        || (dim2 bins =? 0)%nat) IndexError)
           (cells (dim0 bins) (dim1 bins)) ;;;
  Ok (fun i j => if ((i <? dim0 bins) && (j <? dim1 bins))%nat
                 then class_of (get3 bins i j) (dim2 bins) (get2 y_true i j)
                 else None).

(** [bins_sliding]: shaped like [prob], holding the bin widths.  Writing
    [bins_sliding[i, j, k]] outside the shape raises. *)
Definition bins_sliding (prob bins : array3) : result array3 :=
  for_each (fun ij : nat * nat =>
              for_each (fun k => raise_if (negb (k <? dim2 prob)%nat) IndexError)
                       (seq 0 (dim2 bins - 1)))
           (cells (dim0 bins) (dim1 bins)) ;;;
  Ok (mk3 (dim0 prob) (dim1 prob) (dim2 prob)
          (fun i j k => if (k <? dim2 bins - 1)%nat
                        then fsub (get3 bins i j (k + 1)) (get3 bins i j k)
                        else NaN)).

(** The column a class selects; the integer cast of a NaN class is
    outside every axis. *)
Definition column (width : nat) (c : option Z) : result nat :=
  match c with
  | Some z => py_index width z
  | None => Raise IndexError
  end.

(** [a_dim[range(len(classes)), classes]] on row [r] of [a]: the index
    check numpy makes before gathering. *)
Definition gather_check (a : array3) (n : nat) (classes : nat -> option Z) : result unit :=
  for_each (fun j => raise_if (negb (j <? dim1 a)%nat) IndexError ;;;
                     column (dim2 a) (classes j) ;;; Ok tt)
           (seq 0 n).

Definition gather (a : array3) (r : nat) (classes : nat -> option Z) (j : nat) : float :=
  match column (dim2 a) (classes j) with
  | Ok k => get3 a r j k
  | Raise _ => NaN
  end.

Definition is_outside (c : option Z) : bool :=
  match c with Some z => (z =? -1)%Z | None => false end.

(** [preds], after [preds[classes == -1] = 0]. *)
Definition preds_row (prob : array3) (r : nat) (classes : nat -> option Z) (j : nat) : float :=
  if is_outside (classes j) then Fin 0 else gather prob r classes j.

(** [bins], after [bins[classes == -1] = -1]. *)
Definition selected_row (sliding : array3) (r : nat) (classes : nat -> option Z) (j : nat)
  : float :=
  if is_outside (classes j) then Fin (-1) else gather sliding r classes j.

(** [preds_matrix / selected_bins]: the density of every cell. *)
Definition density (prob sliding : array3) (classes : nat -> nat -> option Z)
           (r j : nat) : float :=
  fdiv (preds_row prob r (classes r) j) (selected_row sliding r (classes r) j).

(** Everything up to [lk = np.clip(lk, WORST_LK, None, out=lk)]. *)
Definition lk_matrix (n_bins : nat) (y_true0 : truth) (y_pred : array3) : result array2 :=
  let y_true := by_dimension y_true0 in
  let bins := bins_of n_bins y_pred in
  let prob := prob_of n_bins y_pred in
  raise_if (any3 isnan bins || any3 isnan prob) (ValueError nan_message) ;;;
  let prob := renormalise prob in
  raise_if (unordered bins) (ValueError order_message) ;;;
  classes <- classes_matrix y_true bins ;;
  sliding <- bins_sliding prob bins ;;
  let rows := Nat.min (rows2 y_true) (dim0 prob) in
  for_each (fun r => gather_check prob (cols2 y_true) (classes r)) (seq 0 rows) ;;;
  Ok (mk2 rows (cols2 y_true)
          (fun r j => clip_low (flog (density prob sliding classes r j)) WORST_LK)).

(** [return np.sum(-lk) / lk.size] *)
Definition mean_neg (lk : array2) : float :=
  fdiv (sum2 (mk2 (rows2 lk) (cols2 lk) (fun i j => fneg (get2 lk i j))))
       (of_nat (size2 lk)).

Definition call (n_bins : nat) (y_true : truth) (y_pred : array3) : result float :=
  lk <- lk_matrix n_bins y_true y_pred ;;
  Ok (mean_neg lk).

End NegativeLogLikelihoodReg.

(** ** The Gaussian baseline shared by both ratio scorers *)

(** [scipy.stats.norm.logpdf(x, loc, scale)], a library function: the
    log-density [-z**2/2 - log(sqrt(2 pi)) - log(scale)] of the Gaussian at
    [z = (x - loc)/scale], and NaN unless [scale > 0]. *)
Definition norm_logpdf (x loc scale : float) : float :=
  if fgt scale (Fin 0)
  then fsub (fsub (fdiv (fneg (fsquare (fdiv (fsub x loc) scale))) (Fin 2))
                  (Fin (ln (sqrt (2 * PI)))))
            (flog scale)
  else NaN.

(** [np.mean(y_true, axis=1)] *)
Definition means (y_true : array2) (i : nat) : float :=
  fdiv (fsum (cols2 y_true) (get2 y_true i)) (of_nat (cols2 y_true)).

(** [np.std(y_true, axis=1)]: the root of the mean squared deviation. *)
Definition stds (y_true : array2) (i : nat) : float :=
  fsqrt (fdiv (fsum (cols2 y_true)
                    (fun j => fsquare (fsub (get2 y_true i j) (means y_true i))))
              (of_nat (cols2 y_true))).

(** [baseline_lls = np.array([norm.logpdf(y, loc=mean, scale=std)
                              for y, mean, std in zip(y_true, means, stds)])] *)
Definition baseline_lls (y_true : array2) : array2 :=
  mk2 (rows2 y_true) (cols2 y_true)
      (fun i j => norm_logpdf (get2 y_true i j) (means y_true i) (stds y_true i)).

(** [np.sum(baseline_lls) / baseline_lls.size] *)
Definition mean_baseline (y_true : array2) : float :=
  fdiv (sum2 (baseline_lls y_true)) (of_nat (size2 (baseline_lls y_true))).

(** The lines both ratio scorers share after the wrapped scorer
    returned [nll_reg]:
    [np.exp(-nll_reg - np.sum(baseline_lls) / baseline_lls.size)]. *)
Definition ratio (nll_reg : float) (y_true0 : truth) : float :=
  let y_true := by_dimension y_true0 in
  fexp (fsub (fneg nll_reg) (mean_baseline y_true)).

(** ** [class LikelihoodRatio] *)

Module LikelihoodRatio.

Definition is_lower_the_better : bool := false.
Definition minimum : float := Fin 0.
Definition maximum : float := PInf.

Definition call (n_bins : nat) (y_true : truth) (y_pred : array3) : result float :=
  nll_reg <- NegativeLogLikelihoodReg.call n_bins y_true y_pred ;;
  Ok (ratio nll_reg y_true).

End LikelihoodRatio.

(** ** [normpdf] *)

Definition normpdf (x mean sd : float) : float :=
  let var := fsquare sd in
  let denom := fpow_half (fmul (fmul (Fin 2) (Fin PI)) var) in
  let diff := fsub x mean in
  let num := fexp (fdiv (fneg (fsquare diff)) (fmul (Fin 2) var)) in
  fdiv num denom.

(** ** [class NegativeLogLikelihoodRegGaussian] *)

(** The bound of a Python slice on an axis of length [len]. *)
Definition py_bound (len : nat) (i : Z) : nat :=
  if (i <? 0)%Z then Z.to_nat (Z.max 0 (i + Z.of_nat len))
  else Nat.min (Z.to_nat i) len.

(** [a[:, lo:hi]] *)
Definition slice_cols (a : array2) (lo hi : Z) : array2 :=
  let lo' := py_bound (cols2 a) lo in
  let hi' := py_bound (cols2 a) hi in
  mk2 (rows2 a) (hi' - lo') (fun i k => get2 a i (lo' + k)).

Module NegativeLogLikelihoodRegGaussian.

Definition is_lower_the_better : bool := true.
Definition minimum : float := Fin 0.
Definition maximum : float := PInf.

(** One entry of [np.allclose(a, 1.0)], with numpy's default
    [rtol=1e-05] and [atol=1e-08]. *)
Definition close_to_one (a : float) : bool :=
  match a with
  | Fin r => Rleb (Rabs (r - 1)) (1 / 100000000 + 1 / 100000 * Rabs 1)
  | _ => false
  end.

(** The row of a length-[rows] operand that meets sample [j]: numpy
    broadcasts a single row over all samples. *)
Definition broadcast_row (rows j : nat) : nat :=
  if (rows =? 1)%nat then 0%nat else j.

(** The index and shape checks of iteration [i] of
    [for i in range(nb_gaussians)], in the order the interpreter meets
    them; [n] is [len(y_true_dim)]. *)
Definition component_check (mus sigmas weights : array2) (n i : nat) : result unit :=
  let rows := rows2 mus in
  raise_if (negb (i <? cols2 mus)%nat) IndexError ;;;
  raise_if (negb (i <? cols2 sigmas)%nat) IndexError ;;;
  raise_if (negb ((n =? rows) || (rows =? 1) || (n =? 1))%nat)
           (ValueError "operands could not be broadcast together") ;;;
  raise_if (negb (i <? cols2 weights)%nat) IndexError ;;;
  raise_if (negb ((n =? rows) || (rows =? 1))%nat)
           (ValueError "non-broadcastable output operand").

(** [weighted_probs] for sample [j] after the loop over the components. *)
Definition weighted_probs (mus sigmas weights : array2) (nb : nat)
           (y_true_dim : nat -> float) (j : nat) : float :=
  let r := broadcast_row (rows2 mus) j in
  fold_left (fun acc i =>
               fadd acc (fmul (get2 weights r i)
                              (normpdf (y_true_dim j) (get2 mus r i) (get2 sigmas r i))))
            (seq 0 nb) (Fin 0).

(** The body of [for y_true_dim in y_true]: from the read cursor
    [currIdx] to this dimension's [np.sum(-partial_lk)] and the next
    cursor. *)
Definition dimension (max_gauss : Z) (y_pred : array2)
           (n : nat) (y_true_dim : nat -> float) (currIdx : Z) : result (float * Z) :=
  raise_if (rows2 y_pred =? 0)%nat IndexError ;;;
  c <- py_index (cols2 y_pred) currIdx ;;
  nb_gaussians <- int (get2 y_pred 0 c) ;;
  raise_if (max_gauss <? nb_gaussians)%Z AssertionError ;;;
  let currIdx := (currIdx + 1)%Z in
  let mus := slice_cols y_pred currIdx (currIdx + nb_gaussians) in
  let sigmas :=
    slice_cols y_pred (currIdx + nb_gaussians) (currIdx + nb_gaussians * 2) in
  let weights :=
    slice_cols y_pred (currIdx + nb_gaussians * 2) (currIdx + nb_gaussians * 3) in
  let currIdx := (currIdx + 3 * nb_gaussians)%Z in
  raise_if (negb (all2 (fun s => fge s (Fin 0)) sigmas)) AssertionError ;;;
  raise_if (negb (forallb (fun i => close_to_one (fsum (cols2 weights) (get2 weights i)))
                          (seq 0 (rows2 weights))))
           AssertionError ;;;
  for_each (component_check mus sigmas weights n) (seq 0 (Z.to_nat nb_gaussians)) ;;;
  let partial_lk j :=
    clip_low (flog (weighted_probs mus sigmas weights (Z.to_nat nb_gaussians) y_true_dim j))
             WORST_LK in
  Ok (fsum n (fun j => fneg (partial_lk j)), currIdx).

(** The loop over the dimensions, threading [logLK] and [currIdx]. *)
Fixpoint dimensions (max_gauss : Z) (y_true : array2) (y_pred : array2)
         (dims : list nat) (logLK : float) (currIdx : Z) : result float :=
  match dims with
  | [] => Ok logLK
  | d :: dims' =>
      step <- dimension max_gauss y_pred (cols2 y_true) (get2 y_true d) currIdx ;;
      dimensions max_gauss y_true y_pred dims' (fadd logLK (fst step)) (snd step)
  end.

(** [logLK] starts as the integer [0]: with no dimension at all the
    final division is an integer division by zero. *)
Definition call (max_gauss : Z) (y_true0 : truth) (y_pred : array2) : result float :=
  let y_true := by_dimension y_true0 in
  logLK <- dimensions max_gauss y_true y_pred (seq 0 (rows2 y_true)) (Fin 0) 0%Z ;;
  raise_if (rows2 y_true =? 0)%nat ZeroDivisionError ;;;
  Ok (fdiv logLK (of_nat (size2 y_true))).

End NegativeLogLikelihoodRegGaussian.

(** ** [class LikelihoodRatioGaussian] *)

Module LikelihoodRatioGaussian.

Definition is_lower_the_better : bool := false.
Definition minimum : float := Fin 0.
Definition maximum : float := PInf.

Definition call (max_gauss : Z) (y_true : truth) (y_pred : array2) : result float :=
  nll_reg <- NegativeLogLikelihoodRegGaussian.call max_gauss y_true y_pred ;;
  Ok (ratio nll_reg y_true).

End LikelihoodRatioGaussian.

(** ** Ranking predictions ([rampwf/prediction_types/ranking.py]) *)

(** The arrays a prediction can hold: 0-, 1- or 2-dimensional. *)
Inductive ndarray : Type :=
| Array0 (x : float)
| Array1 (v : array1)
| Array2 (m : array2).

(** A [Predictions] object: the attributes [__init__] has set so far. *)
Record instance : Type := mk_instance { y_pred : option ndarray }.

(** The object [__init__] receives. *)
Definition blank : instance := mk_instance None.

(** One entry of the ground truth handed to [_init_from_pred_labels]:
    a single label or a list of labels. *)
Inductive labels : Type :=
| Single (l : string)
| Several (ls : list string).

(** The number of entries of [v] that satisfy [p]. *)
Definition count (p : float -> bool) (v : array1) : nat :=
  List.length (filter p (to_list1 v)).

(** [scipy.stats.rankdata(v)], a library function, with its default
    [method='average'] and [nan_policy='propagate']: a value's rank is the
    mean of the positions its ties occupy in sorted order, and one NaN makes
    every rank NaN. *)
Definition rankdata (v : array1) : array1 :=
  mk1 (len1 v)
      (fun j =>
         if existsb isnan (to_list1 v) then NaN
         else Fin (INR (count (fun x => flt x (get1 v j)) v)
                   + (INR (count (fun x => feq x (get1 v j)) v) + 1) / 2)).

(** [a[:, c]] *)
Definition column_of (a : array2) (c : nat) : array1 :=
  mk1 (rows2 a) (fun j => get2 a j c).

(** [l.index(x)] *)
Fixpoint index (l : list string) (x : string) : result nat :=
  match l with
  | [] => Raise (ValueError "is not in list")
  | y :: l' => if String.eqb y x then Ok 0%nat
               else i <- index l' x ;; Ok (S i)
  end.

(** [np.nanmean] of the values one cell takes across the models: NaN
    counts as zero in the total and not at all in the count; a cell that
    is NaN for every model divides [0.0] by [0]. *)
Definition nanmean (xs : list float) : float :=
  fdiv (fold_left fadd (map (fun x => if isnan x then Fin 0 else x) xs) (Fin 0))
       (of_nat (List.length (filter (fun x => negb (isnan x)) xs))).

(** [np.array([rankdata(p.y_pred[:, 0]),
               len(p.y_pred) - rankdata(p.y_pred[:, 1])]).T]:
    reading column 0, then column 1, of an array without it raises, as
    does [[:, 0]] on an array of fewer than two dimensions. *)
Definition rank_transform (p : instance) : result array2 :=
  match y_pred p with
  | None => Raise AttributeError
  | Some (Array2 a) =>
      raise_if (cols2 a <? 1)%nat IndexError ;;;
      raise_if (cols2 a <? 2)%nat IndexError ;;;
      let r0 := rankdata (column_of a 0) in
      let r1 := rankdata (column_of a 1) in
      Ok (mk2 (rows2 a) 2
              (fun j c => if (c =? 0)%nat then get1 r0 j
                          else fsub (of_nat (rows2 a)) (get1 r1 j)))
  | Some _ => Raise IndexError
  end.

(** [np.array([...])] over the per-model arrays followed by
    [np.nanmean(y_comb_list, axis=0)]: an empty list is a 1-d array of
    length zero, whose mean is the scalar NaN; arrays of different length
    do not stack. *)
Definition stack_nanmean (ts : list array2) : result ndarray :=
  match ts with
  | [] => Ok (Array0 NaN)
  | t :: _ =>
      raise_if (negb (forallb (fun t' => (rows2 t' =? rows2 t)%nat) ts))
               (ValueError "setting an array element with a sequence") ;;;
      Ok (Array2 (mk2 (rows2 t) 2
                      (fun j c => nanmean (map (fun t' => get2 t' j c) ts))))
  end.

(** [[f(x) for x in l]] where [f] may raise. *)
Fixpoint comprehension {A B : Type} (f : A -> result B) (l : list A) : result (list B) :=
  match l with
  | [] => Ok []
  | a :: l' => b <- f a ;; bs <- comprehension f l' ;; Ok (b :: bs)
  end.

(** [predictions_list[i]] *)
Definition item (predictions_list : list instance) (i : Z) : result instance :=
  k <- py_index (List.length predictions_list) i ;;
  match nth_error predictions_list k with
  | Some p => Ok p
  | None => Raise IndexError
  end.

(** [_combine] up to [y_comb]. *)
Definition y_comb (predictions_list : list instance) (index_list : option (list Z))
  : result ndarray :=
  let index_list :=
    match index_list with
    | None => map Z.of_nat (seq 0 (List.length predictions_list))
    | Some l => l
    end in
  y_comb_list <-
    comprehension (fun i => p <- item predictions_list i ;; rank_transform p) index_list ;;
  stack_nanmean y_comb_list.

(** The prediction class [make_ranking(label_names)] builds.
    [check_y_pred_dimensions] is inherited from [BasePrediction], whose
    source is not part of the files embedded here: it is a parameter. *)
Section Predictions.

Variable label_names : list string.
Variable check_y_pred_dimensions : instance -> result unit.

Definition n_columns : nat := List.length label_names.

(** The inner loop of [_init_from_pred_labels] on one row [ps_i]:
    every label sets its column to [1.0 / len(label_list)]. *)
Fixpoint fill_row (k : nat) (label_list : list string) (ps_i : nat -> float)
  : (nat -> float) * result unit :=
  match label_list with
  | [] => (ps_i, Ok tt)
  | label :: rest =>
      match index label_names label with
      | Raise e => (ps_i, Raise e)
      | Ok c =>
          fill_row k rest
                   (fun c' => if (c' =? c)%nat then fdiv (Fin 1) (of_nat k) else ps_i c')
      end
  end.

Definition label_list_of (l : labels) : list string :=
  match l with
  | Single x => [x]
  | Several xs => xs
  end.

(** The outer loop, over [zip(self.y_pred, y_pred_labels)]; [i] is the
    row being filled. *)
Fixpoint fill_rows (i : nat) (y_pred_labels : list labels) (a : nat -> nat -> float)
  : (nat -> nat -> float) * result unit :=
  match y_pred_labels with
  | [] => (a, Ok tt)
  | l :: rest =>
      let label_list := label_list_of l in
      let (row, r) := fill_row (List.length label_list) label_list (a i) in
      let a' := fun i' => if (i' =? i)%nat then row else a i' in
      match r with
      | Raise e => (a', Raise e)
      | Ok _ => fill_rows (S i) rest a'
      end
  end.

Definition _init_from_pred_labels (self : instance) (y_pred_labels : list labels)
  : instance * result unit :=
  match label_names with
  | [] => (self, Raise IndexError)
  | _ :: _ =>
      let (a, r) := fill_rows 0 y_pred_labels (fun _ _ => Fin 0) in
      (mk_instance (Some (Array2 (mk2 (List.length y_pred_labels) n_columns a))), r)
  end.

Definition _ranking_init (self : instance)
           (y_pred : option ndarray) (y_true : option (list labels)) (n_samples : option nat)
  : instance * result unit :=
  let checked (st : instance * result unit) : instance * result unit :=
    match snd st with
    | Raise e => st
    | Ok _ => (fst st, check_y_pred_dimensions (fst st))
    end in
  match y_pred, y_true, n_samples with
  | Some a, _, _ => checked (mk_instance (Some a), Ok tt)
  | None, Some y, _ => checked (_init_from_pred_labels self y)
  | None, None, Some n =>
      checked (mk_instance (Some (Array2 (mk2 n n_columns (fun _ _ => NaN)))), Ok tt)
  | None, None, None =>
      (self, Raise (ValueError "Missing init argument: y_pred, y_true, or n_samples"))
  end.

(** [cls(y_pred=..., y_true=..., n_samples=...)]: the caller gets the
    object only when [__init__] returns. *)
Definition Predictions
           (y_pred : option ndarray) (y_true : option (list labels)) (n_samples : option nat)
  : result instance :=
  let (self, r) := _ranking_init blank y_pred y_true n_samples in
  r ;;; Ok self.

Definition _combine (predictions_list : list instance) (index_list : option (list Z))
  : result instance :=
  y <- y_comb predictions_list index_list ;;
  Predictions (Some y) None None.

End Predictions.

(** [np.argmax] along one row, a library function: the index of the
    first largest value, a NaN counting as the largest.  [mp] is the
    largest value met so far and [max_ind] its index. *)
Fixpoint argmax_scan (row : nat -> float) (ks : list nat) (mp : float) (max_ind : nat)
  : nat :=
  match ks with
  | [] => max_ind
  | k :: ks' =>
      if negb (fle (row k) mp)
      then if isnan (row k) then k else argmax_scan row ks' (row k) k
      else argmax_scan row ks' mp max_ind
  end.

Definition argmax (n : nat) (row : nat -> float) : nat :=
  if isnan (row 0%nat) then 0%nat
  else argmax_scan row (seq 1 (n - 1)) (row 0%nat) 0%nat.

(** The property [y_pred_label_index]: [np.argmax(self.y_pred, axis=1)].
    numpy refuses an axis of length zero, and an array that has no
    axis 1. *)
Definition _y_pred_label_index (self : instance) : result (list nat) :=
  match y_pred self with
  | None => Raise AttributeError
  | Some (Array2 a) =>
      if (cols2 a =? 0)%nat
      then Raise (ValueError "attempt to get argmax of an empty sequence")
      else Ok (map (fun i => argmax (cols2 a) (get2 a i)) (seq 0 (rows2 a)))
  | Some _ => Raise (ValueError "axis 1 is out of bounds")
  end.

(** ** Transformations and predicates the properties are stated with *)

(** The prediction whose bin probabilities, in every (sample [s],
    dimension [d]) row, are multiplied by [c s d]; the edges and whatever
    follows the probabilities are left alone. *)
Definition scale_probabilities (n_bins : nat) (c : nat -> nat -> R) (y_pred : array3)
  : array3 :=
  mk3 (dim0 y_pred) (dim1 y_pred) (dim2 y_pred)
      (fun s d k => if ((n_bins + 1 <=? k) && (k <? 2 * n_bins + 1))%nat
                    then fmul (Fin (c s d)) (get3 y_pred s d k)
                    else get3 y_pred s d k).

(** The cell (dimension [d], sample [s]) of a binned prediction has
    edges that are not strictly increasing. *)
Definition offending (n_bins : nat) (y_pred : array3) (d s : nat) : Prop :=
  (s < dim0 y_pred)%nat /\ (d < dim1 y_pred)%nat
  /\ exists k, (k + 1 < Nat.min (n_bins + 1) (dim2 y_pred))%nat
               /\ flt (get3 y_pred s d k) (get3 y_pred s d (k + 1)%nat) = false.

(** The Gaussian fitted to one dimension of the ground truth, in the
    words of the description: the sample mean, the sample standard
    deviation (the root of the mean squared deviation) and the density of
    the Gaussian they determine. *)
Definition sample_mean (ys : list R) : R :=
  fold_right Rplus 0 ys / INR (List.length ys).

Definition sample_std (ys : list R) : R :=
  sqrt (fold_right Rplus 0 (map (fun y => (y - sample_mean ys) * (y - sample_mean ys)) ys)
        / INR (List.length ys)).

Definition gaussian_density (mu sigma y : R) : R :=
  exp (- ((y - mu) * (y - mu)) / (2 * (sigma * sigma))) / (sigma * sqrt (2 * PI)).

(** The rank transform the combiner applies to one model, in the
    words of its description: column 0 replaced by its ranks, column 1 by
    the number of samples minus its ranks. *)
Definition rank_columns (a : array2) : array2 :=
  mk2 (rows2 a) 2
      (fun j c => if (c =? 0)%nat then get1 (rankdata (column_of a 0)) j
                  else fsub (of_nat (rows2 a)) (get1 (rankdata (column_of a 1)) j)).

(** The average rank of [x] among the values [l]. *)
Definition rank_in (l : list float) (x : float) : R :=
  INR (List.length (filter (fun y => flt y x) l))
  + (INR (List.length (filter (fun y => feq y x) l)) + 1) / 2.

(** Two outcomes that are both results, related by [R], or both
    exceptions. *)
Definition alike {B : Type} (R : B -> B -> Prop) (r1 r2 : result B) : Prop :=
  match r1, r2 with
  | Ok b1, Ok b2 => R b1 b2
  | Raise _, Raise _ => True
  | _, _ => False
  end.

(** An array that holds [NaN] everywhere outside its shape. *)
Definition canonical (a : array3) : Prop :=
  forall i j k, ~ (i < dim0 a /\ j < dim1 a /\ k < dim2 a)%nat -> get3 a i j k = NaN.

(** Probabilities as the data model has them: finite and not negative. *)
Definition finite_nonneg (a : array3) : Prop :=
  forall i j k, (i < dim0 a)%nat -> (j < dim1 a)%nat -> (k < dim2 a)%nat ->
                exists r, get3 a i j k = Fin r /\ 0 <= r.

(** NaN, [-inf] or a finite value of at most [c]. *)
Definition capped (c : R) (x : float) : Prop :=
  x = NaN \/ x = NInf \/ exists r, x = Fin r /\ r <= c.

(** Whether [label] is found at column [c] of the vocabulary. *)
Definition names_column (label_names : list string) (c : nat) (label : string) : bool :=
  match index label_names label with
  | Ok c' => (c' =? c)%nat
  | Raise _ => false
  end.

(** ** Binary64 arithmetic of the renormalisation

    The embedding above takes the arithmetic of finite values as exact.
    Where rounding and overflow decide a property of the
    renormalisation, lines 49 to 51 of the binned scorer are embedded a
    second time, for one (sample, dimension) row, over the kernel's
    binary64 numbers. *)

(** The value of a binary64 number. *)
Definition of_binary64 (x : PrimFloat.float) : float :=
  match FloatOps.Prim2SF x with
  | SpecFloat.S754_nan => NaN
  | SpecFloat.S754_infinity false => PInf
  | SpecFloat.S754_infinity true => NInf
  | SpecFloat.S754_zero _ => Fin 0
  | SpecFloat.S754_finite s m e =>
      let z := if s then Z.neg m else Z.pos m in
      Fin (if (0 <=? e)%Z then IZR (z * 2 ^ e) else IZR z / IZR (2 ^ (- e)))
  end.

Module Binary64.
Import PrimFloat.

(** [np.sum(prob, axis=2)] on one row: numpy adds fewer than eight
    values from left to right. *)
Definition summed_prob (prob : list float) : float :=
  fold_left add prob 0%float.

(** [if not np.all(summed_prob == 1): prob = prob / summed_prob] *)
Definition renormalise (prob : list float) : list float :=
  if eqb (summed_prob prob) 1%float then prob
  else map (fun p => div p (summed_prob prob)) prob.

(** The row with every probability multiplied by [c]. *)
Definition scale (c : float) (prob : list float) : list float :=
  map (mul c) prob.

(** [lk] of the cell when the truth lies in bin [b], of width [width]:
    [np.log(preds / bins)], of which only the special values matter
    here, clipped at [WORST_LK]. *)
Definition lk (prob : list float) (b : nat) (width : float) :=
  clip_low (flog (of_binary64 (div (nth b (renormalise prob) nan) width))) WORST_LK.

(** Example rows and factors. *)
Definition ones : list float := [1%float; 1%float].
Definition two_to_1023 : float := 0x1p+1023%float.
Definition nine_to_one : list float := [0x1.ccccccccccccdp-1%float; 0x1.999999999999ap-4%float].
Definition three_tenths : float := 0x1.3333333333333p-2%float.
Definition quarters : list float := [0.25%float; 0.25%float].
Definition two : float := 2%float.

End Binary64.

(** ** Example inputs *)

(** One bin [[5, 6)], far above the truths used with it. *)
Definition beyond_bins : array3 := of_list3 1 3 [[[Fin 5; Fin 6; Fin 1]]].
Definition truth_zero : truth := Truth1 (of_list1 [Fin 0]).
Definition beyond_bins2 : array3 :=
  of_list3 1 3 [[[Fin 5; Fin 6; Fin 1]]; [[Fin 5; Fin 6; Fin 1]]].
Definition truth_0_2 : truth := Truth1 (of_list1 [Fin 0; Fin 2]).
(** One component of mean 1, deviation 1 and weight 1 per sample: the
    Gaussian fitted to the truths [0] and [2]. *)
Definition unit_gaussians : array2 :=
  of_list2 4 [[Fin 1; Fin 1; Fin 1; Fin 1]; [Fin 1; Fin 1; Fin 1; Fin 1]].
(** One component of mean 0 and deviation 0.1. *)
Definition narrow_mixture : array2 := of_list2 4 [[Fin 1; Fin 0; Fin (1 / 10); Fin 1]].
(** One component whose mean is NaN. *)
Definition nan_mean_mixture : array2 := of_list2 4 [[Fin 1; NaN; Fin 1; Fin 1]].
(** One bin [[0, 1)] of probability 1, followed by a NaN the layout
    does not reach. *)
Definition unit_bin_then_nan : array3 := of_list3 1 4 [[[Fin 0; Fin 1; Fin 1; NaN]]].
(** A NaN among the edges. *)
Definition nan_edge : array3 := of_list3 1 3 [[[Fin 0; NaN; Fin 1]]].
(** Two samples, one of them with its two edges in the wrong order. *)
Definition reversed_first : array3 :=
  of_list3 1 3 [[[Fin 1; Fin 0; Fin 1]]; [[Fin 0; Fin 1; Fin 1]]].
Definition reversed_second : array3 :=
  of_list3 1 3 [[[Fin 0; Fin 1; Fin 1]]; [[Fin 1; Fin 0; Fin 1]]].

(** One sample of one dimension, two bins [[0, 1)] and [[1, 2)] of
    probability a quarter each before renormalisation. *)
Definition two_bins : array3 :=
  of_list3 1 5 [[[Fin 0; Fin 1; Fin 2; Fin (1 / 4); Fin (1 / 4)]]].

Definition truth_half : truth := Truth1 (of_list1 [Fin (1 / 2)]).

(** Two ranking predictions of two samples, a label vocabulary and a
    shape check that accepts everything. *)
Definition two_rows : array2 := of_list2 2 [[Fin 1; Fin 1]; [Fin 2; Fin 2]].
Definition two_rows_crossed : array2 := of_list2 2 [[Fin 2; Fin 1]; [Fin 1; Fin 2]].
Definition model_a : instance := mk_instance (Some (Array2 two_rows)).
Definition model_b : instance := mk_instance (Some (Array2 two_rows_crossed)).
Definition two_labels : list string := ["a"%string; "b"%string].
Definition accept : instance -> result unit := fun _ => Ok tt.

(** One sample without any dimension. *)
Definition no_dimension : array3 := of_list3 0 3 [[]].
(** A mixture prediction that announces two components. *)
Definition two_components : array2 :=
  of_list2 7 [[Fin 2; Fin 0; Fin 1; Fin 1; Fin 1; Fin (1 / 2); Fin (1 / 2)]].
(** A component count that is no number. *)
Definition nan_count : array2 := of_list2 4 [[NaN; Fin 0; Fin 1; Fin 1]].
Definition inf_count : array2 := of_list2 4 [[PInf; Fin 0; Fin 1; Fin 1]].
(** One component of deviation [-1], one of weight a half, one of
    deviation [0]. *)
Definition negative_sigma : array2 := of_list2 4 [[Fin 1; Fin 0; Fin (-1); Fin 1]].
Definition half_weight : array2 := of_list2 4 [[Fin 1; Fin 0; Fin 1; Fin (1 / 2)]].
Definition zero_sigma : array2 := of_list2 4 [[Fin 1; Fin 0; Fin 0; Fin 1]].
(** A model of two samples without data, and a model of one sample. *)
Definition model_nan : instance :=
  mk_instance (Some (Array2 (of_list2 2 [[NaN; NaN]; [NaN; NaN]]))).
Definition model_short : instance :=
  mk_instance (Some (Array2 (of_list2 2 [[Fin 1; Fin 1]]))).

(** * Properties *)

(** ** Deciding comparisons of real numbers *)

Lemma Rltb_true (a b : R) : a < b -> Rltb a b = true.
Proof. intros H; unfold Rltb; destruct (Rlt_dec a b); [reflexivity | contradiction]. Qed.

Lemma Rltb_false (a b : R) : ~ a < b -> Rltb a b = false.
Proof. intros H; unfold Rltb; destruct (Rlt_dec a b); [contradiction | reflexivity]. Qed.

Lemma Rleb_true (a b : R) : a <= b -> Rleb a b = true.
Proof. intros H; unfold Rleb; destruct (Rle_dec a b); [reflexivity | contradiction]. Qed.

Lemma Reqb_true (a b : R) : a = b -> Reqb a b = true.
Proof. intros H; unfold Reqb; destruct (Req_dec_T a b); [reflexivity | contradiction]. Qed.

Lemma Reqb_false (a b : R) : a <> b -> Reqb a b = false.
Proof. intros H; unfold Reqb; destruct (Req_dec_T a b); [contradiction | reflexivity]. Qed.

Lemma Rtrunc_IZR (z : Z) : Rtrunc (IZR z) = z.
Proof.
  unfold Rtrunc. destruct (Rle_dec 0 (IZR z)).
  - symmetry. apply Int_part_spec. lra.
  - rewrite <- opp_IZR.
    rewrite <- (Int_part_spec (IZR (- z)) (- z)%Z); [lia | lra].
Qed.

Lemma PI_bounds : 3 < PI <= 4.
Proof. split; [pose proof PI2_3_2; lra | exact PI_4]. Qed.

(** ** Powers of two that bound the range of the inputs *)

Lemma pow2_pos (k : nat) : 0 < 2 ^ k.
Proof. apply pow_lt. lra. Qed.

Lemma in_range_pos (k : nat) (r : R) : / 2 ^ k <= r -> 0 < r.
Proof.
  intros H. pose proof (Rinv_0_lt_compat _ (pow2_pos k)). lra.
Qed.

Lemma one_in_range (k : nat) : / 2 ^ k <= 1 <= 2 ^ k.
Proof.
  assert (H : 1 <= 2 ^ k) by (apply pow_R1_Rle; lra).
  split; [| exact H].
  rewrite <- Rinv_1. apply Rinv_le_contravar; lra.
Qed.

Lemma power_of_two_pos (c : R) :
  (exists k : nat, (k <= 400)%nat /\ (c = 2 ^ k \/ c = / 2 ^ k)) -> 0 < c.
Proof.
  intros (k & _ & [-> | ->]); [apply pow2_pos | apply Rinv_0_lt_compat, pow2_pos].
Qed.

Lemma quarter_in_range : / 2 ^ 400 <= 1 / 4 <= 2 ^ 400.
Proof.
  assert (H : 4 <= 2 ^ 400).
  { replace 4 with (2 ^ 2) by (simpl; lra). apply Rle_pow; [lra | lia]. }
  split; [| lra].
  replace (1 / 4) with (/ 4) by lra. apply Rinv_le_contravar; lra.
Qed.

(** Evaluation of the embedding on concrete arrays: everything but the
    arithmetic of the real numbers is computed. *)
Ltac feval :=
  cbv -[Rplus Rminus Rmult Rdiv Rinv Ropp IZR INR PI exp ln sqrt Rabs
        Rlt_dec Rle_dec Req_dec_T Int_part Rtrunc Rlt Rle Rgt Rge].

(** Settles the first comparison left in the goal, with [solver] to
    prove which way it goes. *)
Ltac Rdecide1 solver :=
  match goal with
  | |- context [Rlt_dec ?a ?b] =>
      first
        [ let H := fresh in
          assert (H : a < b) by solver;
          destruct (Rlt_dec a b) as [_ | N]; [ | exfalso; exact (N H)]; clear H
        | let H := fresh in
          assert (H : ~ a < b) by solver;
          destruct (Rlt_dec a b) as [P | _]; [exfalso; exact (H P) | ]; clear H ]
  | |- context [Rle_dec ?a ?b] =>
      first
        [ let H := fresh in
          assert (H : a <= b) by solver;
          destruct (Rle_dec a b) as [_ | N]; [ | exfalso; exact (N H)]; clear H
        | let H := fresh in
          assert (H : ~ a <= b) by solver;
          destruct (Rle_dec a b) as [P | _]; [exfalso; exact (H P) | ]; clear H ]
  | |- context [Req_dec_T ?a ?b] =>
      first
        [ let H := fresh in
          assert (H : a = b) by solver;
          destruct (Req_dec_T a b) as [_ | N]; [ | exfalso; exact (N H)]; clear H
        | let H := fresh in
          assert (H : a <> b) by solver;
          destruct (Req_dec_T a b) as [P | _]; [exfalso; exact (H P) | ]; clear H ]
  end.

Ltac Rsolve :=
  simpl INR in *; unfold Rabs;
  repeat (match goal with
          | |- context [Rcase_abs ?x] => destruct (Rcase_abs x)
          end);
  lra.

Ltac Rdecide := repeat (Rdecide1 ltac:(Rsolve); feval).

(** ** Inversion of fallible steps *)

Lemma bind_Ok {A B : Type} (m : result A) (k : A -> result B) (b : B) :
  bind m k = Ok b -> exists a, m = Ok a /\ k a = Ok b.
Proof. destruct m as [a | e]; simpl; [eauto | discriminate]. Qed.

Lemma raise_if_Ok (b : bool) (e : exception) (u : unit) :
  raise_if b e = Ok u -> b = false.
Proof. destruct b; simpl; [discriminate | reflexivity]. Qed.

Lemma for_each_Ok {A : Type} (f : A -> result unit) (l : list A) (u : unit) :
  for_each f l = Ok u -> forall a, In a l -> f a = Ok tt.
Proof.
  induction l as [| x l IH]; simpl; intros H a Ha; [contradiction |].
  apply bind_Ok in H. destruct H as [[] [Hx Hl]].
  destruct Ha as [<- | Ha]; [exact Hx | exact (IH Hl a Ha)].
Qed.

Lemma in_cells (n m i j : nat) : In (i, j) (cells n m) <-> (i < n /\ j < m)%nat.
Proof.
  unfold cells. rewrite in_prod_iff, !in_seq. lia.
Qed.

Lemma existsb_false {A : Type} (p : A -> bool) (l : list A) :
  existsb p l = false -> forall a, In a l -> p a = false.
Proof.
  intros H a Ha. destruct (p a) eqn:E; [| reflexivity].
  assert (existsb p l = true) by (apply existsb_exists; eauto). congruence.
Qed.

Lemma any3_false (p : float -> bool) (a : array3) :
  any3 p a = false ->
  forall i j k, (i < dim0 a)%nat -> (j < dim1 a)%nat -> (k < dim2 a)%nat ->
                p (get3 a i j k) = false.
Proof.
  intros H i j k Hi Hj Hk. unfold any3 in H.
  assert (H' := existsb_false _ _ H (i, j) (proj2 (in_cells _ _ i j) (conj Hi Hj))).
  simpl in H'. apply (existsb_false _ _ H' k). apply in_seq. lia.
Qed.

(** ** The order on floats *)

Lemma flt_trans (a b c : float) : flt a b = true -> flt b c = true -> flt a c = true.
Proof.
  destruct a, b, c; simpl; try discriminate; try reflexivity.
  unfold Rltb. repeat destruct (Rlt_dec _ _); try discriminate; try reflexivity.
  lra.
Qed.

Lemma flt_fle_asym (a b : float) : fle a b = true -> flt b a = false.
Proof.
  destruct a, b; simpl; try discriminate; try reflexivity.
  unfold Rltb, Rleb. destruct (Rle_dec _ _), (Rlt_dec _ _); try discriminate; try reflexivity.
  lra.
Qed.

Lemma not_fge_flt (a b : float) :
  isnan a = false -> isnan b = false -> fge a b = false -> flt a b = true.
Proof.
  unfold fge. destruct a, b; simpl; try discriminate; try reflexivity.
  unfold Rltb, Rleb. destruct (Rle_dec _ _), (Rlt_dec _ _); try discriminate; try reflexivity.
  lra.
Qed.

Lemma increasing_edges (dim : nat -> float) (len : nat) :
  (forall k, (k + 1 < len)%nat -> flt (dim k) (dim (k + 1)%nat) = true) ->
  forall k m, (k < m)%nat -> (m < len)%nat -> flt (dim k) (dim m) = true.
Proof.
  intros H k m Hkm. induction m as [| m IH]; intros Hm; [lia |].
  destruct (Nat.eq_dec k m) as [-> | Hne].
  - replace (S m) with (m + 1)%nat by lia. apply H. lia.
  - apply flt_trans with (dim m).
    + apply IH; lia.
    + replace (S m) with (m + 1)%nat by lia. apply H. lia.
Qed.

(** ** Real-number facts used by the evaluations *)

Lemma ln_gt_0 (x : R) : 1 < x -> 0 < ln x.
Proof. intros H. rewrite <- ln_1. apply ln_increasing; lra. Qed.

Lemma sqrt_gt_1 (x : R) : 1 < x -> 1 < sqrt x.
Proof. intros H. rewrite <- sqrt_1 at 1. apply sqrt_lt_1; lra. Qed.

Ltac sqrt_of_one :=
  repeat match goal with
         | |- context [sqrt ?e] =>
             progress (replace e with 1 by (simpl INR; field))
         end;
  rewrite ?sqrt_1, ?ln_1.

Lemma gauss_density_pos (a b : R) : 0 < b -> 0 < exp a / sqrt b.
Proof.
  intros Hb. apply Rdiv_lt_0_compat; [apply exp_pos | apply sqrt_lt_R0; exact Hb].
Qed.

Lemma ln_gauss_density (a b : R) : 0 < b -> ln (exp a / sqrt b) = a - ln (sqrt b).
Proof.
  intros Hb. unfold Rdiv.
  rewrite ln_mult; [| apply exp_pos | apply Rinv_0_lt_compat, sqrt_lt_R0; exact Hb].
  rewrite ln_exp, ln_Rinv by (apply sqrt_lt_R0; exact Hb). reflexivity.
Qed.

Lemma ln_lt_self (x : R) : 0 < x -> ln x < x.
Proof.
  intros Hx. pose proof (exp_ineq1_le (ln x)) as H. rewrite exp_ln in H by exact Hx. lra.
Qed.

Lemma sqrt_lt_3 (x : R) : 0 <= x -> x < 9 -> sqrt x < 3.
Proof.
  intros H0 H9. replace 3 with (sqrt 9).
  - apply sqrt_lt_1; lra.
  - replace 9 with (3 * 3) by lra. apply sqrt_square. lra.
Qed.

(** Facts about the Gaussian densities left in the goal. *)
Ltac note_density :=
  repeat match goal with
         | |- context [exp ?a / sqrt ?b] =>
             lazymatch goal with
             | H : 0 < exp a / sqrt b |- _ => fail
             | _ => assert (0 < exp a / sqrt b) by (apply gauss_density_pos; lra)
             end
         end.

Ltac ln_of_density :=
  repeat match goal with
         | |- context [ln (0 + 1 * (exp ?a / sqrt ?b))] =>
             replace (0 + 1 * (exp a / sqrt b)) with (exp a / sqrt b) by ring;
             rewrite (ln_gauss_density a b) by lra
         end.

(** ** Arrays up to their entries inside the shape *)

Lemma array3_ext (a b : array3) :
  canonical a -> canonical b ->
  dim0 a = dim0 b -> dim1 a = dim1 b -> dim2 a = dim2 b ->
  (forall i j k, (i < dim0 a)%nat -> (j < dim1 a)%nat -> (k < dim2 a)%nat ->
                 get3 a i j k = get3 b i j k) ->
  a = b.
Proof.
  destruct a as [a0 a1 a2 f], b as [b0 b1 b2 g]. unfold canonical. simpl.
  intros Ca Cb -> -> -> H. f_equal.
  extensionality i. extensionality j. extensionality k.
  destruct (Nat.lt_ge_cases i b0) as [Hi | Hi];
    [destruct (Nat.lt_ge_cases j b1) as [Hj | Hj];
     [destruct (Nat.lt_ge_cases k b2) as [Hk | Hk] |] |];
    try (apply H; assumption);
    rewrite Ca, Cb by lia; reflexivity.
Qed.

Lemma canonical_build3 (d0 d1 d2 : nat) (f : nat -> nat -> nat -> float) :
  canonical (build3 d0 d1 d2 f).
Proof.
  intros i j k H. simpl in *.
  destruct (i <? d0)%nat eqn:Ei, (j <? d1)%nat eqn:Ej, (k <? d2)%nat eqn:Ek;
    try reflexivity.
  apply Nat.ltb_lt in Ei, Ej, Ek. tauto.
Qed.

Lemma canonical_swapaxes3 (a : array3) : canonical a -> canonical (swapaxes3 a).
Proof. intros C i j k H. simpl in *. apply C. tauto. Qed.

(** ** Scaling by a positive constant *)

Ltac float_cases :=
  repeat (simpl; unfold by_sign;
          match goal with
          | |- context [Rlt_dec ?a ?b] => destruct (Rlt_dec a b)
          | |- context [Req_dec_T ?a ?b] => destruct (Req_dec_T a b)
          end);
  simpl; try reflexivity; try discriminate; try (exfalso; nra); try (f_equal; nra).

Lemma isnan_fmul_pos (c : R) (x : float) : 0 < c -> isnan (fmul (Fin c) x) = isnan x.
Proof. intros Hc. destruct x; float_cases. Qed.

Lemma fadd_fmul_pos (c : R) (x y : float) :
  0 < c -> fadd (fmul (Fin c) x) (fmul (Fin c) y) = fmul (Fin c) (fadd x y).
Proof. intros Hc. destruct x, y; float_cases. Qed.

Lemma fold_fadd_fmul_pos (c : R) (f g : nat -> float) (l : list nat) (acc : float) :
  0 < c ->
  (forall k, In k l -> f k = fmul (Fin c) (g k)) ->
  fold_left fadd (map f l) (fmul (Fin c) acc)
  = fmul (Fin c) (fold_left fadd (map g l) acc).
Proof.
  intros Hc. revert acc.
  induction l as [| k l IH]; intros acc H; cbn [map fold_left]; [reflexivity |].
  rewrite (H k (or_introl eq_refl)), fadd_fmul_pos by exact Hc.
  apply IH. intros k' Hk'. apply H. right. exact Hk'.
Qed.

Lemma fsum_fmul_pos (c : R) (n : nat) (f g : nat -> float) :
  0 < c ->
  (forall k, (k < n)%nat -> f k = fmul (Fin c) (g k)) ->
  fsum n f = fmul (Fin c) (fsum n g).
Proof.
  intros Hc H. unfold fsum.
  rewrite <- fold_fadd_fmul_pos with (f := f).
  - f_equal. simpl. f_equal. ring.
  - exact Hc.
  - intros k Hk. apply H. apply in_seq in Hk. lia.
Qed.

Lemma fsum_ext (n : nat) (f g : nat -> float) :
  (forall k, (k < n)%nat -> f k = g k) -> fsum n f = fsum n g.
Proof.
  intros H. unfold fsum. f_equal. apply map_ext_in.
  intros k Hk. apply H. apply in_seq in Hk. lia.
Qed.

Lemma fdiv_fmul_pos (c : R) (p s : float) :
  0 < c -> fdiv (fmul (Fin c) p) (fmul (Fin c) s) = fdiv p s.
Proof.
  intros Hc. destruct p, s; float_cases.
  all: f_equal; field; split; lra.
Qed.

Lemma fdiv_one (p : float) : fdiv p (Fin 1) = p.
Proof. destruct p; float_cases. Qed.

Lemma fmul_one (p : float) : fmul (Fin 1) p = p.
Proof. destruct p; float_cases. Qed.

Lemma feq_true (x y : float) : feq x y = true -> x = y.
Proof.
  destruct x, y; simpl; try discriminate; try reflexivity.
  unfold Reqb. destruct (Req_dec_T _ _); [congruence | discriminate].
Qed.

Lemma feq_refl (x : float) : isnan x = false -> feq x x = true.
Proof.
  destruct x; simpl; try discriminate; try reflexivity.
  intros _. apply Reqb_true. reflexivity.
Qed.

(** The entry a row ends with after the optional division, scaled and
    unscaled: [A] and [A'] say whether the division was skipped. *)
Lemma renormalised_entry (c : R) (p s : float) (A A' : bool) :
  0 < c ->
  (A = true -> s = Fin 1) ->
  (A' = true -> fmul (Fin c) s = Fin 1) ->
  (if A' then fmul (Fin c) p else fdiv (fmul (Fin c) p) (fmul (Fin c) s))
  = (if A then p else fdiv p s).
Proof.
  intros Hc HA HA'. destruct A', A.
  - rewrite (HA eq_refl) in HA'. specialize (HA' eq_refl).
    simpl in HA'. injection HA' as HA'.
    replace c with 1 by lra. apply fmul_one.
  - specialize (HA' eq_refl). rewrite <- (fdiv_fmul_pos c p s Hc), HA'.
    symmetry. apply fdiv_one.
  - rewrite fdiv_fmul_pos by exact Hc. rewrite (HA eq_refl). apply fdiv_one.
  - apply fdiv_fmul_pos. exact Hc.
Qed.

(** ** Sums of finite values *)

Lemma fold_fadd_Fin (f : nat -> float) (r : nat -> R) (l : list nat) (acc : R) :
  (forall k, In k l -> f k = Fin (r k)) ->
  fold_left fadd (map f l) (Fin acc) = Fin (fold_left Rplus (map r l) acc).
Proof.
  revert acc. induction l as [| k l IH]; intros acc H; cbn [map fold_left]; [reflexivity |].
  rewrite (H k (or_introl eq_refl)). cbn [fadd].
  apply IH. intros k' Hk'. apply H. right. exact Hk'.
Qed.

Lemma fold_Rplus_div (r : nat -> R) (d : R) (l : list nat) (acc : R) :
  fold_left Rplus (map (fun k => r k / d) l) (acc / d)
  = fold_left Rplus (map r l) acc / d.
Proof.
  revert acc. induction l as [| k l IH]; intros acc; cbn [map fold_left]; [reflexivity |].
  replace (acc / d + r k / d) with ((acc + r k) / d) by (unfold Rdiv; ring).
  apply IH.
Qed.

Lemma fold_Rplus_nonneg (r : nat -> R) (l : list nat) (acc : R) :
  (forall k, In k l -> 0 <= r k) ->
  acc <= fold_left Rplus (map r l) acc
  /\ forall k, In k l -> acc + r k <= fold_left Rplus (map r l) acc.
Proof.
  revert acc. induction l as [| k l IH]; intros acc H; cbn [map fold_left].
  - split; [lra | intros k []].
  - assert (Hk : 0 <= r k) by (apply H; left; reflexivity).
    destruct (IH (acc + r k)) as [IH1 IH2]; [intros k' Hk'; apply H; right; exact Hk' |].
    split; [lra |].
    intros k' [<- | Hk']; [lra |].
    specialize (IH2 k' Hk'). lra.
Qed.

(** ** The binned scorer *)

Section Binned.

Import NegativeLogLikelihoodReg.


Lemma unordered_false (bins : array3) :
  unordered bins = false ->
  forall i j k, (i < dim0 bins)%nat -> (j < dim1 bins)%nat -> (k + 1 < dim2 bins)%nat ->
                fge (get3 bins i j k) (get3 bins i j (k + 1)%nat) = false.
Proof.
  intros H i j k Hi Hj Hk. unfold unordered in H.
  assert (H' := existsb_false _ _ H (i, j) (proj2 (in_cells _ _ i j) (conj Hi Hj))).
  simpl in H'. apply (existsb_false _ _ H' k). apply in_seq. lia.
Qed.




Lemma py_index_empty (z : Z) : py_index 0 z = Raise IndexError.
Proof.
  unfold py_index. simpl.
  destruct (0 <=? z)%Z eqn:E1, (z <? 0)%Z eqn:E2; simpl; try reflexivity; lia.
Qed.

Lemma classes_matrix_Ok (y_true : array2) (bins : array3) (classes : nat -> nat -> option Z) :
  classes_matrix y_true bins = Ok classes ->
  forall i j, (i < dim0 bins)%nat -> (j < dim1 bins)%nat ->
              classes i j = class_of (get3 bins i j) (dim2 bins) (get2 y_true i j).
Proof.
  unfold classes_matrix. intros H i j Hi Hj.
  apply bind_Ok in H. destruct H as [[] [_ H]]. injection H as <-.
  apply Nat.ltb_lt in Hi, Hj. rewrite Hi, Hj. reflexivity.
Qed.

Lemma renormalise_shape (prob : array3) :
  dim0 (renormalise prob) = dim0 prob
  /\ dim1 (renormalise prob) = dim1 prob
  /\ dim2 (renormalise prob) = dim2 prob.
Proof. unfold renormalise. destruct (all2 _ _); simpl; auto. Qed.



Lemma any3_true (p : float -> bool) (a : array3) (i j k : nat) :
  (i < dim0 a)%nat -> (j < dim1 a)%nat -> (k < dim2 a)%nat ->
  p (get3 a i j k) = true -> any3 p a = true.
Proof.
  intros Hi Hj Hk H. unfold any3. apply existsb_exists.
  exists (i, j). split; [apply in_cells; auto |].
  apply existsb_exists. exists k. split; [apply in_seq; lia | exact H].
Qed.

Lemma get3_build3 (d0 d1 d2 : nat) (f : nat -> nat -> nat -> float) (i j k : nat) :
  (i < d0)%nat -> (j < d1)%nat -> (k < d2)%nat -> get3 (build3 d0 d1 d2 f) i j k = f i j k.
Proof.
  intros Hi Hj Hk. simpl.
  apply Nat.ltb_lt in Hi, Hj, Hk. rewrite Hi, Hj, Hk. reflexivity.
Qed.

Lemma get3_slice3 (a : array3) (lo hi i j k : nat) :
  (i < dim0 a)%nat -> (j < dim1 a)%nat -> (lo + k < Nat.min hi (dim2 a))%nat ->
  get3 (slice3 a lo hi) i j k = get3 a i j (lo + k)%nat.
Proof.
  intros Hi Hj Hk. unfold slice3. rewrite get3_build3; try lia.
  f_equal. lia.
Qed.

(** Where an entry of the raw prediction lands in [bins] or [prob]. *)
Lemma get3_bins_of (n_bins : nat) (y_pred : array3) (s d k : nat) :
  (s < dim0 y_pred)%nat -> (d < dim1 y_pred)%nat ->
  (k < Nat.min (n_bins + 1) (dim2 y_pred))%nat ->
  get3 (bins_of n_bins y_pred) d s k = get3 y_pred s d k.
Proof.
  intros Hs Hd Hk.
  change (get3 (slice3 y_pred 0 (n_bins + 1)) s d k = get3 y_pred s d k).
  rewrite get3_slice3; auto.
Qed.

Lemma get3_prob_of (n_bins : nat) (y_pred : array3) (s d k : nat) :
  (s < dim0 y_pred)%nat -> (d < dim1 y_pred)%nat ->
  (n_bins + 1 + k < Nat.min (2 * n_bins + 1) (dim2 y_pred))%nat ->
  get3 (prob_of n_bins y_pred) d s k = get3 y_pred s d (n_bins + 1 + k)%nat.
Proof.
  intros Hs Hd Hk.
  change (get3 (slice3 y_pred (n_bins + 1) (2 * n_bins + 1)) s d k
          = get3 y_pred s d (n_bins + 1 + k)%nat).
  rewrite get3_slice3; auto.
Qed.

Lemma bins_of_shape (n_bins : nat) (y_pred : array3) :
  dim0 (bins_of n_bins y_pred) = dim1 y_pred
  /\ dim1 (bins_of n_bins y_pred) = dim0 y_pred
  /\ dim2 (bins_of n_bins y_pred) = Nat.min (n_bins + 1) (dim2 y_pred).
Proof. simpl. repeat split. lia. Qed.

Lemma prob_of_shape (n_bins : nat) (y_pred : array3) :
  dim0 (prob_of n_bins y_pred) = dim1 y_pred
  /\ dim1 (prob_of n_bins y_pred) = dim0 y_pred
  /\ dim2 (prob_of n_bins y_pred)
     = (Nat.min (2 * n_bins + 1) (dim2 y_pred) - Nat.min (n_bins + 1) (dim2 y_pred))%nat.
Proof. simpl. repeat split. Qed.

(** The NaN check sees every entry of the first [2 * n_bins + 1] columns. *)
Lemma nan_in_layout_seen (n_bins : nat) (y_pred : array3) (s d k : nat) :
  (s < dim0 y_pred)%nat -> (d < dim1 y_pred)%nat -> (k < dim2 y_pred)%nat ->
  (k < 2 * n_bins + 1)%nat ->
  get3 y_pred s d k = NaN ->
  any3 isnan (bins_of n_bins y_pred) || any3 isnan (prob_of n_bins y_pred) = true.
Proof.
  intros Hs Hd Hk Hk' Hnan. apply orb_true_iff.
  destruct (bins_of_shape n_bins y_pred) as (B0 & B1 & B2).
  destruct (prob_of_shape n_bins y_pred) as (P0 & P1 & P2).
  destruct (Nat.lt_ge_cases k (n_bins + 1)) as [Hlo | Hhi].
  - left. apply any3_true with (i := d) (j := s) (k := k); try lia.
    rewrite get3_bins_of, Hnan by lia. reflexivity.
  - right. apply any3_true with (i := d) (j := s) (k := (k - (n_bins + 1))%nat); try lia.
    rewrite get3_prob_of by lia.
    replace (n_bins + 1 + (k - (n_bins + 1)))%nat with k by lia.
    rewrite Hnan. reflexivity.
Qed.

(** C4 (as amended).  In the binned encoding a NaN among the first
    [2 * n_bins + 1] entries of any (sample, dimension) row makes the
    scorer, and the ratio scorer that wraps it, fail at once with the
    [ValueError] whose message ends in the expected layout. *)
Theorem nan_in_layout_fails :
  forall (n_bins : nat) (y_true : truth) (y_pred : array3) (s d k : nat),
    (s < dim0 y_pred)%nat -> (d < dim1 y_pred)%nat -> (k < dim2 y_pred)%nat ->
    (k < 2 * n_bins + 1)%nat ->
    get3 y_pred s d k = NaN ->
    call n_bins y_true y_pred = Raise (ValueError nan_message)
    /\ LikelihoodRatio.call n_bins y_true y_pred = Raise (ValueError nan_message)
    /\ exists head,
        nan_message
        = (head ++ "It should be (time_step, dim_step, bins+probas)")%string.
Proof.
  intros n_bins y_true y_pred s d k Hs Hd Hk Hk' Hnan.
  assert (H : call n_bins y_true y_pred = Raise (ValueError nan_message)).
  { unfold call, lk_matrix.
    rewrite (nan_in_layout_seen n_bins y_pred s d k) by assumption. reflexivity. }
  split; [exact H | split].
  - unfold LikelihoodRatio.call. rewrite H. reflexivity.
  - exists (substring 0 (String.length nan_message - 47) nan_message). reflexivity.
Qed.

(** A NaN edge is rejected. *)
Lemma nan_in_layout_fails_witness :
  get3 nan_edge 0 0 1 = NaN
  /\ call 1 truth_half nan_edge = Raise (ValueError nan_message).
Proof.
  split; [reflexivity |].
  apply (nan_in_layout_fails 1 truth_half nan_edge 0 0 1); simpl; try lia; reflexivity.
Defined.

(** C4 as stated fails twice over: the mixture scorer returns NaN for a
    mixture whose mean is NaN, and the binned scorer returns a score for a
    prediction with a NaN in a column past the probabilities. *)
Lemma nan_accepted :
  (get2 nan_mean_mixture 0 1 = NaN
   /\ NegativeLogLikelihoodRegGaussian.call 1 truth_zero nan_mean_mixture = Ok NaN)
  /\ (get3 unit_bin_then_nan 0 0 3 = NaN
      /\ call 1 truth_half unit_bin_then_nan = Ok (Fin 0)).
Proof.
  repeat split.
  - feval. rewrite !Rtrunc_IZR. feval. Rdecide. reflexivity.
  - feval. Rdecide.
    replace (1 / (1 + - 0)) with 1 by field. rewrite ln_1. Rdecide.
    do 2 f_equal. simpl INR. field.
Qed.

Lemma flt_false_fge (a b : float) :
  isnan a = false -> isnan b = false -> flt a b = false -> fge a b = true.
Proof.
  unfold fge. destruct a, b; simpl; try discriminate; try reflexivity.
  unfold Rltb, Rleb. destruct (Rle_dec _ _), (Rlt_dec _ _); try discriminate; try reflexivity.
  lra.
Qed.

(** C5 (as amended).  A bin-edge vector that is not strictly increasing
    makes the binned scorer fail with a [ValueError] and return no score;
    its message is one of two fixed strings, the NaN-or-shape message when
    the prediction also holds a NaN and the ordering message otherwise, and
    depends on nothing else. *)
Theorem unordered_edges_fail :
  forall (n_bins : nat) (y_true : truth) (y_pred : array3) (s d k : nat),
    (s < dim0 y_pred)%nat -> (d < dim1 y_pred)%nat ->
    (k + 1 < Nat.min (n_bins + 1) (dim2 y_pred))%nat ->
    flt (get3 y_pred s d k) (get3 y_pred s d (k + 1)%nat) = false ->
    call n_bins y_true y_pred
    = Raise (ValueError
               (if any3 isnan (bins_of n_bins y_pred) || any3 isnan (prob_of n_bins y_pred)
                then nan_message else order_message)).
Proof.
  intros n_bins y_true y_pred s d k Hs Hd Hk Hlt.
  unfold call, lk_matrix.
  destruct (any3 isnan (bins_of n_bins y_pred)) eqn:Hnan; [reflexivity |].
  destruct (any3 isnan (prob_of n_bins y_pred)); [reflexivity |]. simpl.
  destruct (bins_of_shape n_bins y_pred) as (B0 & B1 & B2).
  assert (Hun : unordered (bins_of n_bins y_pred) = true).
  { unfold unordered. apply existsb_exists. exists (d, s). split; [apply in_cells; lia |].
    apply existsb_exists. exists k. split; [apply in_seq; lia |].
    cbv [fst snd]. rewrite !get3_bins_of by lia.
    apply flt_false_fge; [| | exact Hlt].
    - rewrite <- (get3_bins_of n_bins) by lia. apply (any3_false _ _ Hnan); lia.
    - rewrite <- (get3_bins_of n_bins) by lia. apply (any3_false _ _ Hnan); lia. }
  rewrite Hun. reflexivity.
Qed.

(** Two edges in the wrong order, and no NaN: the ordering message. *)
Lemma unordered_edges_fail_witness :
  flt (get3 reversed_first 0 0 0) (get3 reversed_first 0 0 1) = false
  /\ call 1 truth_0_2 reversed_first = Raise (ValueError order_message).
Proof.
  assert (H : flt (get3 reversed_first 0 0 0) (get3 reversed_first 0 0 1) = false)
    by (feval; Rdecide; reflexivity).
  split; [exact H |].
  rewrite (unordered_edges_fail 1 truth_0_2 reversed_first 0 0 0); simpl; try lia;
    [reflexivity | exact H].
Defined.

(** C5 as stated fails: the exception cannot tell which cell offended,
    since two predictions that offend in different samples, and nowhere
    else, raise the same exception. *)
Lemma order_error_locates_nothing :
  ~ exists locate : exception -> nat * nat,
      forall (y_true : truth) (y_pred : array3),
        (exists d s, offending 1 y_pred d s) ->
        exists e, call 1 y_true y_pred = Raise e
                  /\ offending 1 y_pred (fst (locate e)) (snd (locate e)).
Proof.
  intros [locate H].
  assert (E1 : call 1 truth_0_2 reversed_first = Raise (ValueError order_message))
    by (feval; Rdecide; reflexivity).
  assert (E2 : call 1 truth_0_2 reversed_second = Raise (ValueError order_message))
    by (feval; Rdecide; reflexivity).
  destruct (H truth_0_2 reversed_first) as (e1 & He1 & O1).
  { exists 0%nat, 0%nat. repeat split; simpl; try lia.
    exists 0%nat. split; [simpl; lia | feval; Rdecide; reflexivity]. }
  destruct (H truth_0_2 reversed_second) as (e2 & He2 & O2).
  { exists 0%nat, 1%nat. repeat split; simpl; try lia.
    exists 0%nat. split; [simpl; lia | feval; Rdecide; reflexivity]. }
  rewrite E1 in He1. rewrite E2 in He2.
  injection He1 as <-. injection He2 as <-.
  destruct (locate (ValueError order_message)) as [d s]. simpl in O1, O2.
  destruct O1 as (Hs1 & Hd1 & k1 & Hk1 & F1).
  destruct O2 as (Hs2 & Hd2 & k2 & Hk2 & F2).
  simpl in Hs1, Hd1, Hk1, Hk2.
  assert (d = 0%nat) by lia. assert (k1 = 0%nat) by lia. assert (k2 = 0%nat) by lia.
  subst d k1 k2.
  destruct s as [| [| s]]; [| | lia].
  - revert F2. feval. Rdecide. discriminate.
  - revert F1. feval. Rdecide. discriminate.
Qed.

Lemma canonical_renormalise (prob : array3) :
  canonical prob -> canonical (renormalise prob).
Proof.
  intros C. unfold renormalise. destruct (all2 _ _); [exact C | apply canonical_build3].
Qed.

Lemma canonical_prob_of (n_bins : nat) (y_pred : array3) : canonical (prob_of n_bins y_pred).
Proof. apply canonical_swapaxes3, canonical_build3. Qed.

Lemma canonical_bins_of (n_bins : nat) (y_pred : array3) : canonical (bins_of n_bins y_pred).
Proof. apply canonical_swapaxes3, canonical_build3. Qed.

Lemma existsb_ext_in {A : Type} (f g : A -> bool) (l : list A) :
  (forall a, In a l -> f a = g a) -> existsb f l = existsb g l.
Proof.
  induction l as [| x l IH]; intros H; simpl; [reflexivity |].
  rewrite (H x (or_introl eq_refl)), IH; [reflexivity |].
  intros a Ha. apply H. right. exact Ha.
Qed.

Lemma any3_ext (p : float -> bool) (a b : array3) :
  dim0 a = dim0 b -> dim1 a = dim1 b -> dim2 a = dim2 b ->
  (forall i j k, (i < dim0 a)%nat -> (j < dim1 a)%nat -> (k < dim2 a)%nat ->
                 p (get3 a i j k) = p (get3 b i j k)) ->
  any3 p a = any3 p b.
Proof.
  intros H0 H1 H2 H. unfold any3. rewrite <- H0, <- H1, <- H2.
  apply existsb_ext_in. intros [i j] Hij. apply in_cells in Hij.
  apply existsb_ext_in. intros k Hk. apply in_seq in Hk.
  apply H; simpl; lia.
Qed.

Lemma all2_true (p : float -> bool) (a : array2) :
  all2 p a = true ->
  forall i j, (i < rows2 a)%nat -> (j < cols2 a)%nat -> p (get2 a i j) = true.
Proof.
  unfold all2. intros H i j Hi Hj.
  rewrite forallb_forall in H. apply (H (i, j)). apply in_cells. auto.
Qed.

Lemma get3_renormalise (prob : array3) (i j k : nat) :
  (i < dim0 prob)%nat -> (j < dim1 prob)%nat -> (k < dim2 prob)%nat ->
  get3 (renormalise prob) i j k
  = if all2 (fun s => feq s (Fin 1)) (summed_prob prob) then get3 prob i j k
    else fdiv (get3 prob i j k) (get2 (summed_prob prob) i j).
Proof.
  intros Hi Hj Hk. unfold renormalise.
  destruct (all2 _ _); [reflexivity | apply get3_build3; assumption].
Qed.

Section Scaling.

Variable n_bins : nat.
Variable c : nat -> nat -> R.
Variable y_pred : array3.
Hypothesis c_pos : forall s d, 0 < c s d.

Let scaled := scale_probabilities n_bins c y_pred.

Lemma bins_of_scaled : bins_of n_bins scaled = bins_of n_bins y_pred.
Proof.
  apply array3_ext; try reflexivity; try apply canonical_bins_of.
  intros i j k Hi Hj Hk.
  destruct (bins_of_shape n_bins scaled) as (B0 & B1 & B2).
  rewrite B0 in Hi. rewrite B1 in Hj. rewrite B2 in Hk.
  change (dim0 scaled) with (dim0 y_pred) in Hj.
  change (dim1 scaled) with (dim1 y_pred) in Hi.
  change (dim2 scaled) with (dim2 y_pred) in Hk.
  rewrite !get3_bins_of by assumption.
  simpl. replace (n_bins + 1 <=? k)%nat with false; [reflexivity |].
  symmetry. apply Nat.leb_gt. lia.
Qed.

Lemma prob_of_scaled (i j k : nat) :
  (i < dim0 (prob_of n_bins y_pred))%nat ->
  (j < dim1 (prob_of n_bins y_pred))%nat ->
  (k < dim2 (prob_of n_bins y_pred))%nat ->
  get3 (prob_of n_bins scaled) i j k
  = fmul (Fin (c j i)) (get3 (prob_of n_bins y_pred) i j k).
Proof.
  intros Hi Hj Hk.
  destruct (prob_of_shape n_bins y_pred) as (P0 & P1 & P2).
  rewrite P0 in Hi. rewrite P1 in Hj. rewrite P2 in Hk.
  rewrite !get3_prob_of; try assumption; try (simpl; lia).
  simpl.
  replace (n_bins + 1 <=? n_bins + 1 + k)%nat with true
    by (symmetry; apply Nat.leb_le; lia).
  replace (n_bins + 1 + k <? n_bins + (n_bins + 0) + 1)%nat with true
    by (symmetry; apply Nat.ltb_lt; lia).
  reflexivity.
Qed.

Lemma isnan_prob_of_scaled :
  any3 isnan (prob_of n_bins scaled) = any3 isnan (prob_of n_bins y_pred).
Proof.
  apply any3_ext; try reflexivity.
  intros i j k Hi Hj Hk. rewrite prob_of_scaled by assumption.
  apply isnan_fmul_pos, c_pos.
Qed.

Lemma summed_prob_scaled (i j : nat) :
  (i < dim0 (prob_of n_bins y_pred))%nat ->
  (j < dim1 (prob_of n_bins y_pred))%nat ->
  get2 (summed_prob (prob_of n_bins scaled)) i j
  = fmul (Fin (c j i)) (get2 (summed_prob (prob_of n_bins y_pred)) i j).
Proof.
  intros Hi Hj. cbv [summed_prob get2].
  change (dim2 (prob_of n_bins scaled)) with (dim2 (prob_of n_bins y_pred)).
  apply fsum_fmul_pos; [apply c_pos |].
  intros k Hk. apply prob_of_scaled; assumption.
Qed.

Lemma renormalise_scaled :
  renormalise (prob_of n_bins scaled) = renormalise (prob_of n_bins y_pred).
Proof.
  destruct (renormalise_shape (prob_of n_bins scaled)) as (S0 & S1 & S2).
  destruct (renormalise_shape (prob_of n_bins y_pred)) as (U0 & U1 & U2).
  apply array3_ext;
    try (apply canonical_renormalise, canonical_prob_of);
    try (rewrite ?S0, ?S1, ?S2, ?U0, ?U1, ?U2; reflexivity).
  intros i j k Hi Hj Hk. rewrite S0 in Hi. rewrite S1 in Hj. rewrite S2 in Hk.
  change (dim0 (prob_of n_bins scaled)) with (dim0 (prob_of n_bins y_pred)) in Hi.
  change (dim1 (prob_of n_bins scaled)) with (dim1 (prob_of n_bins y_pred)) in Hj.
  change (dim2 (prob_of n_bins scaled)) with (dim2 (prob_of n_bins y_pred)) in Hk.
  rewrite !get3_renormalise by assumption.
  rewrite prob_of_scaled, summed_prob_scaled by assumption.
  apply renormalised_entry; [apply c_pos | |].
  - intros A. apply feq_true. apply (all2_true _ _ A); assumption.
  - intros A. rewrite <- summed_prob_scaled by assumption.
    apply feq_true. apply (all2_true _ _ A); assumption.
Qed.

Lemma call_scaled (y_true : truth) :
  call n_bins y_true scaled = call n_bins y_true y_pred.
Proof.
  unfold call, lk_matrix.
  rewrite bins_of_scaled, isnan_prob_of_scaled, renormalise_scaled. reflexivity.
Qed.

End Scaling.

(** A row divided by its own sum is left unchanged by a second division
    by the sum of the result. *)
Lemma renormalised_row (n : nat) (p : nat -> float) (k : nat) :
  (forall k', (k' < n)%nat -> exists r, p k' = Fin r /\ 0 <= r) ->
  (k < n)%nat ->
  fdiv (fdiv (p k) (fsum n p)) (fsum n (fun k' => fdiv (p k') (fsum n p)))
  = fdiv (p k) (fsum n p).
Proof.
  intros Hp Hk.
  set (r := fun k' => match p k' with Fin x => x | _ => 0 end).
  assert (Hr : forall k', (k' < n)%nat -> p k' = Fin (r k') /\ 0 <= r k').
  { intros k' Hk'. destruct (Hp k' Hk') as (x & Hx & Hx0). unfold r. rewrite Hx. auto. }
  assert (Hs : fsum n p = Fin (fold_left Rplus (map r (seq 0 n)) 0)).
  { unfold fsum. apply fold_fadd_Fin. intros k' Hk'. apply in_seq in Hk'.
    apply Hr. lia. }
  rewrite Hs. set (sigma := fold_left Rplus (map r (seq 0 n)) 0).
  destruct (fold_Rplus_nonneg r (seq 0 n) 0) as [H0 Hle].
  { intros k' Hk'. apply in_seq in Hk'. apply Hr. lia. }
  fold sigma in H0, Hle.
  destruct (Req_dec_T sigma 0) as [Hz | Hnz].
  - (* an all-zero row: every entry becomes NaN *)
    assert (Hrk : r k = 0).
    { specialize (Hle k ltac:(apply in_seq; lia)).
      destruct (Hr k Hk) as [_ Hk0]. lra. }
    destruct (Hr k Hk) as [-> _]. rewrite Hrk, Hz.
    assert (Hnan : fdiv (Fin 0) (Fin 0) = NaN) by float_cases.
    rewrite Hnan. reflexivity.
  - (* the divided row sums to one *)
    assert (Hq : fsum n (fun k' => fdiv (p k') (Fin sigma)) = Fin 1).
    { unfold fsum.
      rewrite fold_fadd_Fin with (r := fun k' => r k' / sigma).
      - f_equal. replace 0 with (0 / sigma) at 1 by (unfold Rdiv; ring).
        rewrite fold_Rplus_div. fold sigma. field. exact Hnz.
      - intros k' Hk'. apply in_seq in Hk'. destruct (Hr k' ltac:(lia)) as [-> _].
        unfold fdiv. destruct (Req_dec_T sigma 0); [contradiction | reflexivity]. }
    rewrite Hq. apply fdiv_one.
Qed.

Lemma renormalise_idempotent (prob : array3) :
  canonical prob -> finite_nonneg prob ->
  renormalise (renormalise prob) = renormalise prob.
Proof.
  intros C Hp.
  destruct (all2 (fun s => feq s (Fin 1)) (summed_prob prob)) eqn:A.
  - assert (E : renormalise prob = prob) by (unfold renormalise; rewrite A; reflexivity).
    rewrite E. exact E.
  - set (q := build3 (dim0 prob) (dim1 prob) (dim2 prob)
                     (fun i j k => fdiv (get3 prob i j k) (get2 (summed_prob prob) i j))).
    assert (E : renormalise prob = q) by (unfold renormalise; rewrite A; reflexivity).
    rewrite E. unfold renormalise.
    destruct (all2 _ (summed_prob q)); [reflexivity |].
    apply array3_ext; try apply canonical_build3; try reflexivity.
    intros i j k Hi Hj Hk. simpl in Hi, Hj, Hk.
    rewrite get3_build3 by assumption.
    unfold q at 3. rewrite get3_build3 by assumption.
    unfold q at 1. rewrite get3_build3 by assumption.
    cbv [summed_prob get2].
    change (dim2 q) with (dim2 prob).
    rewrite (fsum_ext (dim2 prob) (get3 q i j)
                      (fun k' => fdiv (get3 prob i j k') (fsum (dim2 prob) (get3 prob i j)))).
    + apply renormalised_row; [| exact Hk].
      intros k' Hk'. apply Hp; assumption.
    + intros k' Hk'. unfold q. rewrite get3_build3 by assumption. reflexivity.
Qed.

(** C7 (as amended).  Multiplying the bin probabilities of every row
    by a power of two of its own, [2 ^ k] or [/ 2 ^ k] with [k <= 400],
    leaves the renormalised probabilities, and with them the score (or the
    exception), exactly as they were.  The prediction has at most 1000
    bins and probabilities that are zero or lie between [/ 2 ^ 400] and
    [2 ^ 400]: on such inputs binary64 multiplies, adds and divides
    without overflow or underflow, and a power of two goes through each
    of these operations unrounded, so that the equality proved here over
    the real numbers is the equality of the values the code computes. *)
Theorem scale_invariance :
  forall (n_bins : nat) (c : nat -> nat -> R) (y_true : truth) (y_pred : array3),
    (forall s d, exists k : nat, (k <= 400)%nat /\ (c s d = 2 ^ k \/ c s d = / 2 ^ k)) ->
    (n_bins <= 1000)%nat ->
    (forall i j b,
        (i < dim0 (prob_of n_bins y_pred))%nat ->
        (j < dim1 (prob_of n_bins y_pred))%nat ->
        (b < dim2 (prob_of n_bins y_pred))%nat ->
        exists p, get3 (prob_of n_bins y_pred) i j b = Fin p
                  /\ (p = 0 \/ / 2 ^ 400 <= p <= 2 ^ 400)) ->
    call n_bins y_true (scale_probabilities n_bins c y_pred) = call n_bins y_true y_pred
    /\ renormalise (prob_of n_bins (scale_probabilities n_bins c y_pred))
       = renormalise (prob_of n_bins y_pred).
Proof.
  intros n_bins c y_true y_pred Hc _ _.
  assert (Hpos : forall s d, 0 < c s d) by (intros s d; apply power_of_two_pos, Hc).
  split.
  - apply call_scaled. exact Hpos.
  - apply renormalise_scaled. exact Hpos.
Qed.

(** Doubling the probabilities of a two-bin prediction; binary64
    agrees on the row. *)
Lemma scale_invariance_witness :
  (forall s d : nat, exists k : nat,
      (k <= 400)%nat /\ ((fun _ _ : nat => 2) s d = 2 ^ k \/ (fun _ _ : nat => 2) s d = / 2 ^ k))
  /\ (2 <= 1000)%nat
  /\ call 2 truth_half (scale_probabilities 2 (fun _ _ => 2) two_bins)
     = call 2 truth_half two_bins
  /\ renormalise (prob_of 2 (scale_probabilities 2 (fun _ _ => 2) two_bins))
     = renormalise (prob_of 2 two_bins)
  /\ Binary64.renormalise (Binary64.scale Binary64.two Binary64.quarters)
     = Binary64.renormalise Binary64.quarters.
Proof.
  assert (Hc : forall s d : nat, exists k : nat,
             (k <= 400)%nat
             /\ ((fun _ _ : nat => 2) s d = 2 ^ k \/ (fun _ _ : nat => 2) s d = / 2 ^ k)).
  { intros s d. exists 1%nat. split; [lia | left; simpl; lra]. }
  assert (Hn : (2 <= 1000)%nat) by lia.
  assert (Hp : forall i j b,
             (i < dim0 (prob_of 2 two_bins))%nat ->
             (j < dim1 (prob_of 2 two_bins))%nat ->
             (b < dim2 (prob_of 2 two_bins))%nat ->
             exists p, get3 (prob_of 2 two_bins) i j b = Fin p
                       /\ (p = 0 \/ / 2 ^ 400 <= p <= 2 ^ 400)).
  { intros i j b Hi Hj Hb. simpl in Hi, Hj, Hb.
    assert (i = 0%nat) by lia. assert (j = 0%nat) by lia. subst.
    destruct b as [| [| b]]; [| | lia];
      (exists (1 / 4); split; [reflexivity | right; exact quarter_in_range]). }
  destruct (scale_invariance 2 (fun _ _ => 2) truth_half two_bins Hc Hn Hp) as [H1 H2].
  split; [exact Hc | split; [exact Hn | split; [exact H1 | split; [exact H2 |]]]].
  vm_compute. reflexivity.
Defined.

End Binned.

(** ** Scaling and renormalising in binary64 *)

Section Binary64Facts.
Import PrimFloat Binary64.

Lemma binary64_half : of_binary64 0.5%float = Fin (1 / 2).
Proof.
  unfold of_binary64.
  replace (FloatOps.Prim2SF 0.5%float)
    with (SpecFloat.S754_finite false 4503599627370496 (-53)) by (vm_compute; reflexivity).
  cbn [Z.leb Z.compare]. f_equal.
  change (2 ^ (- -53))%Z with 9007199254740992%Z. lra.
Qed.

Lemma binary64_zero : of_binary64 0%float = Fin 0.
Proof. reflexivity. Qed.

Lemma ln_half_above_floor : -50 < ln (1 / 2).
Proof.
  replace (1 / 2) with (/ 2) by lra. rewrite ln_Rinv by lra.
  pose proof (ln_lt_self 2 ltac:(lra)). lra.
Qed.

(** C7 as stated fails in binary64.  Overflow: the row [[1, 1]]
    renormalises to two halves, but scaled by [2 ^ 1023] it sums to
    [+inf], every quotient is [0], and a truth in its first bin, of width
    [1], is scored at the floor [-50] instead of [ln (1 / 2)].  Rounding:
    the row [[0.9, 0.1]] sums to [1] and is left alone, but scaled by
    [0.3] it renormalises to [0.8999999999999999] and
    [0.09999999999999998]; and renormalising that row once more changes
    it again, so that the renormalisation is not idempotent either. *)
Lemma scale_invariance_fails_in_binary64 :
  PrimFloat.ltb 0%float two_to_1023 = true
  /\ renormalise ones = [0.5%float; 0.5%float]
  /\ renormalise (scale two_to_1023 ones) = [0%float; 0%float]
  /\ lk ones 0 1%float = Fin (ln (1 / 2))
  /\ lk (scale two_to_1023 ones) 0 1%float = Fin (-50)
  /\ ln (1 / 2) <> -50
  /\ PrimFloat.ltb 0%float three_tenths = true
  /\ renormalise nine_to_one = nine_to_one
  /\ renormalise (scale three_tenths nine_to_one)
     = [0x1.cccccccccccccp-1%float; 0x1.9999999999998p-4%float]
  /\ renormalise (renormalise (scale three_tenths nine_to_one))
     <> renormalise (scale three_tenths nine_to_one).
Proof.
  split; [reflexivity |]. split; [reflexivity |]. split; [reflexivity |].
  split.
  { unfold lk.
    replace (PrimFloat.div (nth 0 (renormalise ones) PrimFloat.nan) 1%float)
      with 0.5%float by reflexivity.
    rewrite binary64_half. unfold flog, clip_low, WORST_LK.
    destruct (Rlt_dec 0 (1 / 2)); [| lra]. cbn [isnan flt].
    rewrite Rltb_false by (pose proof ln_half_above_floor; lra). reflexivity. }
  split.
  { unfold lk.
    replace (PrimFloat.div (nth 0 (renormalise (scale two_to_1023 ones)) PrimFloat.nan) 1%float)
      with 0%float by reflexivity.
    rewrite binary64_zero. unfold flog, clip_low, WORST_LK.
    destruct (Rlt_dec 0 0); [lra |]. destruct (Req_dec_T 0 0); [| lra]. reflexivity. }
  split; [pose proof ln_half_above_floor; lra |].
  split; [reflexivity |]. split; [reflexivity |]. split; [reflexivity |].
  intros H. vm_compute in H. discriminate H.
Qed.
End Binary64Facts.

(** ** Evaluations *)

Lemma baseline_0_2 :
  mean_baseline (by_dimension truth_0_2) = Fin (- (1 / 2 + ln (sqrt (2 * PI)))).
Proof.
  feval. Rdecide. sqrt_of_one. Rdecide. rewrite ?ln_1. Rdecide.
  f_equal. simpl INR. field.
Qed.

Lemma nll_beyond_bins2 : NegativeLogLikelihoodReg.call 1 truth_0_2 beyond_bins2 = Ok (Fin 50).
Proof.
  feval. Rdecide. do 2 f_equal. simpl INR. lra.
Qed.

Lemma nll_unit_gaussians :
  NegativeLogLikelihoodRegGaussian.call 1 truth_0_2 unit_gaussians
  = Ok (Fin (1 / 2 + ln (sqrt (2 * PI)))).
Proof.
  pose proof PI_bounds as HPI.
  assert (Hs : 1 < sqrt (2 * PI * (1 * 1)) < 3)
    by (split; [apply sqrt_gt_1 | apply sqrt_lt_3]; lra).
  assert (Hl : 0 < ln (sqrt (2 * PI * (1 * 1))) < 3).
  { split; [apply ln_gt_0; lra |].
    apply Rlt_trans with (sqrt (2 * PI * (1 * 1))); [apply ln_lt_self |]; lra. }
  feval. rewrite !Rtrunc_IZR. feval. Rdecide. note_density. Rdecide.
  ln_of_density. Rdecide.
  do 2 f_equal. replace (2 * PI * (1 * 1)) with (2 * PI) by ring.
  simpl INR. field.
Qed.


(** ** The ratio scorers *)

Lemma fold_left_Rplus (l : list R) (acc : R) :
  fold_left Rplus l acc = acc + fold_right Rplus 0 l.
Proof.
  revert acc. induction l as [| x l IH]; intros acc; simpl; [ring |].
  rewrite IH. ring.
Qed.

Lemma fsum_Fin (n : nat) (f : nat -> float) (r : nat -> R) :
  (forall k, (k < n)%nat -> f k = Fin (r k)) ->
  fsum n f = Fin (fold_right Rplus 0 (map r (seq 0 n))).
Proof.
  intros H. unfold fsum. rewrite (fold_fadd_Fin f r).
  - rewrite fold_left_Rplus. f_equal. ring.
  - intros k Hk. apply H. apply in_seq in Hk. lia.
Qed.

Lemma ln_gaussian_density (mu sigma y : R) :
  0 < sigma ->
  ln (gaussian_density mu sigma y)
  = - (((y - mu) / sigma) * ((y - mu) / sigma)) / 2 - ln (sqrt (2 * PI)) - ln sigma.
Proof.
  intros Hs. pose proof PI_bounds as HPI.
  assert (Hq : 0 < sqrt (2 * PI)) by (apply sqrt_lt_R0; lra).
  unfold gaussian_density, Rdiv.
  rewrite ln_mult; [| apply exp_pos | apply Rinv_0_lt_compat, Rmult_lt_0_compat; assumption].
  rewrite ln_exp, ln_Rinv by (apply Rmult_lt_0_compat; assumption).
  rewrite ln_mult by assumption.
  field. lra.
Qed.

(** The baseline log-likelihoods of a dimension with finite truths and
    a positive deviation are the log-densities of the fitted Gaussian. *)
Lemma baseline_is_gaussian_fit (y_true : array2) (i : nat) (r : nat -> R) :
  (forall j, (j < cols2 y_true)%nat -> get2 y_true i j = Fin (r j)) ->
  0 < sample_std (map r (seq 0 (cols2 y_true))) ->
  means y_true i = Fin (sample_mean (map r (seq 0 (cols2 y_true))))
  /\ stds y_true i = Fin (sample_std (map r (seq 0 (cols2 y_true))))
  /\ forall j, (j < cols2 y_true)%nat ->
               get2 (baseline_lls y_true) i j
               = Fin (ln (gaussian_density (sample_mean (map r (seq 0 (cols2 y_true))))
                                           (sample_std (map r (seq 0 (cols2 y_true))))
                                           (r j))).
Proof.
  intros Hfin Hstd.
  set (n := cols2 y_true) in *. set (ys := map r (seq 0 n)) in *.
  assert (Hlen : List.length ys = n) by (unfold ys; rewrite length_map, length_seq; reflexivity).
  assert (Hn : INR n <> 0).
  { intros H0. unfold sample_std in Hstd. rewrite Hlen, H0 in Hstd.
    unfold Rdiv in Hstd. rewrite Rinv_0, Rmult_0_r, sqrt_0 in Hstd. lra. }
  assert (Hmean : means y_true i = Fin (sample_mean ys)).
  { unfold means. fold n. rewrite (fsum_Fin n _ r Hfin). fold ys.
    unfold of_nat, fdiv. destruct (Req_dec_T (INR n) 0); [contradiction |].
    unfold sample_mean. rewrite Hlen. reflexivity. }
  assert (Hstd' : stds y_true i = Fin (sample_std ys)).
  { unfold stds. fold n. rewrite Hmean.
    rewrite (fsum_Fin n _ (fun j => (r j - sample_mean ys) * (r j - sample_mean ys))).
    - unfold of_nat, fdiv. destruct (Req_dec_T (INR n) 0); [contradiction |].
      unfold fsqrt.
      assert (Heq : fold_right Rplus 0
                      (map (fun j => (r j - sample_mean ys) * (r j - sample_mean ys))
                           (seq 0 n)) / INR n
                    = fold_right Rplus 0
                        (map (fun y => (y - sample_mean ys) * (y - sample_mean ys)) ys)
                      / INR (List.length ys)).
      { rewrite Hlen. unfold ys. rewrite map_map. reflexivity. }
      rewrite Heq. fold (sample_std ys).
      destruct (Rlt_dec _ 0) as [Hneg |]; [| reflexivity].
      unfold sample_std in Hstd. rewrite sqrt_neg_0 in Hstd by lra. lra.
    - intros k Hk. rewrite (Hfin k Hk). reflexivity. }
  split; [exact Hmean | split; [exact Hstd' |]].
  intros j Hj. cbn [baseline_lls get2]. rewrite Hmean, Hstd', (Hfin j Hj).
  rewrite ln_gaussian_density by exact Hstd.
  unfold norm_logpdf, fgt. cbn [flt]. rewrite Rltb_true by exact Hstd.
  cbn [fsub fneg fadd]. unfold fdiv at 2.
  destruct (Req_dec_T (sample_std ys) 0); [lra |].
  cbn [fsquare fmul fneg]. unfold fdiv.
  destruct (Req_dec_T 2 0); [lra |].
  unfold flog. destruct (Rlt_dec 0 (sample_std ys)); [| contradiction].
  unfold fsub. cbn [fadd fneg]. f_equal.
Qed.


Lemma sample_std_0_2 : sample_std [0; 2] = 1.
Proof.
  unfold sample_std, sample_mean. simpl.
  match goal with |- sqrt ?e = 1 => replace e with 1 by field end.
  apply sqrt_1.
Qed.



(** C2.  When the wrapped scorer's average negative log-likelihood is the
    negated mean of the baseline log-likelihoods (both finite), either ratio
    scorer returns exactly 1. *)
Theorem baseline_ratio_calibration :
  forall (y_true : truth) (x : R),
    mean_baseline (by_dimension y_true) = Fin (- x) ->
    (forall n_bins y_pred,
        NegativeLogLikelihoodReg.call n_bins y_true y_pred = Ok (Fin x) ->
        LikelihoodRatio.call n_bins y_true y_pred = Ok (Fin 1))
    /\ (forall max_gauss y_pred,
           NegativeLogLikelihoodRegGaussian.call max_gauss y_true y_pred = Ok (Fin x) ->
           LikelihoodRatioGaussian.call max_gauss y_true y_pred = Ok (Fin 1)).
Proof.
  intros y_true x Hm.
  assert (H : ratio (Fin x) y_true = Fin 1).
  { unfold ratio. rewrite Hm. simpl. f_equal.
    replace (- x + - - x) with 0 by ring. apply exp_0. }
  split.
  - intros n_bins y_pred Hn. unfold LikelihoodRatio.call. rewrite Hn. simpl. f_equal. exact H.
  - intros max_gauss y_pred Hn. unfold LikelihoodRatioGaussian.call. rewrite Hn. simpl.
    f_equal. exact H.
Qed.

(** The mixture that is the Gaussian fitted to the truths [0] and [2]
    scores exactly 1. *)
Lemma baseline_ratio_calibration_witness :
  mean_baseline (by_dimension truth_0_2) = Fin (- (1 / 2 + ln (sqrt (2 * PI))))
  /\ NegativeLogLikelihoodRegGaussian.call 1 truth_0_2 unit_gaussians
     = Ok (Fin (1 / 2 + ln (sqrt (2 * PI))))
  /\ LikelihoodRatioGaussian.call 1 truth_0_2 unit_gaussians = Ok (Fin 1).
Proof.
  split; [exact baseline_0_2 | split; [exact nll_unit_gaussians |]].
  exact (proj2 (baseline_ratio_calibration truth_0_2 _ baseline_0_2)
               1%Z unit_gaussians nll_unit_gaussians).
Defined.

(** ** The declared range of the mixture scorer *)

(** C6.  The mixture scorer is lower-the-better with maximum [+inf], but
    its declared minimum is [0.0] where the binned scorer declares [-inf];
    and on a narrow component centred on the truth it returns a score below
    the minimum it declares. *)
Theorem gaussian_minimum_undercut :
  NegativeLogLikelihoodRegGaussian.is_lower_the_better = true
  /\ NegativeLogLikelihoodRegGaussian.maximum = PInf
  /\ NegativeLogLikelihoodRegGaussian.minimum = Fin 0
  /\ NegativeLogLikelihoodReg.minimum = NInf
  /\ exists x,
      NegativeLogLikelihoodRegGaussian.call 1 truth_zero narrow_mixture = Ok (Fin x)
      /\ flt (Fin x) NegativeLogLikelihoodRegGaussian.minimum = true.
Proof.
  repeat split.
  pose proof PI_bounds as HPI.
  assert (Hs : 0 < sqrt (2 * PI * (1 / 10 * (1 / 10))) < 1).
  { split; [apply sqrt_lt_R0; lra |].
    pose proof (sqrt_lt_1 (2 * PI * (1 / 10 * (1 / 10))) 1) as H.
    rewrite sqrt_1 in H. apply H; lra. }
  assert (He : exp (- ((0 + - 0) * (0 + - 0)) / (2 * (1 / 10 * (1 / 10)))) = 1).
  { replace (- ((0 + - 0) * (0 + - 0)) / (2 * (1 / 10 * (1 / 10)))) with 0 by field.
    apply exp_0. }
  remember (sqrt (2 * PI * (1 / 10 * (1 / 10)))) as s eqn:Es.
  assert (Hq : 1 < / s).
  { rewrite <- Rinv_1. apply Rinv_lt_contravar; lra. }
  assert (Hl : 0 < ln (0 + 1 * (1 / s))) by (apply ln_gt_0; lra).
  feval. rewrite Rtrunc_IZR. feval.
  Rdecide. rewrite He. rewrite <- Es. Rdecide.
  eexists. split; [reflexivity |].
  apply Rltb_true. simpl INR. lra.
Qed.

(** ** The rank ensemble combiner *)

(** ** Addition of floats *)

Lemma fadd_comm (x y : float) : fadd x y = fadd y x.
Proof. destruct x, y; simpl; try reflexivity. f_equal. ring. Qed.

Lemma fadd_assoc (x y z : float) : fadd (fadd x y) z = fadd x (fadd y z).
Proof. destruct x, y, z; simpl; try reflexivity. f_equal. ring. Qed.

Lemma fold_fadd_perm (l1 l2 : list float) (acc : float) :
  Permutation l1 l2 -> fold_left fadd l1 acc = fold_left fadd l2 acc.
Proof.
  intros P. revert acc.
  induction P as [| x l l' _ IH | x y l | l l' l'' _ IH1 _ IH2]; intros acc; simpl.
  - reflexivity.
  - apply IH.
  - f_equal. rewrite !fadd_assoc. f_equal. apply fadd_comm.
  - rewrite IH1. apply IH2.
Qed.

Lemma filter_length_perm {A : Type} (p : A -> bool) (l1 l2 : list A) :
  Permutation l1 l2 -> List.length (filter p l1) = List.length (filter p l2).
Proof.
  intros P.
  induction P as [| x l l' _ IH | x y l | l l' l'' _ IH1 _ IH2]; simpl.
  - reflexivity.
  - destruct (p x); simpl; congruence.
  - destruct (p x), (p y); reflexivity.
  - congruence.
Qed.

Lemma nanmean_perm (xs ys : list float) : Permutation xs ys -> nanmean xs = nanmean ys.
Proof.
  intros P. unfold nanmean. f_equal.
  - apply fold_fadd_perm, Permutation_map, P.
  - unfold of_nat. do 2 f_equal. apply filter_length_perm, P.
Qed.

Lemma nanmean_single (x : float) : nanmean [x] = x.
Proof.
  unfold nanmean. destruct x; float_cases.
Qed.

(** ** The list of models *)

Lemma py_index_of_nat (len k : nat) : (k < len)%nat -> py_index len (Z.of_nat k) = Ok k.
Proof.
  intros H. unfold py_index.
  replace ((0 <=? Z.of_nat k) && (Z.of_nat k <? Z.of_nat len))%Z with true.
  - rewrite Nat2Z.id. reflexivity.
  - symmetry. apply andb_true_iff. split; [apply Z.leb_le | apply Z.ltb_lt]; lia.
Qed.

Lemma comprehension_all_items {B : Type} (f : instance -> result B) (done rest : list instance) :
  comprehension (fun i => p <- item (done ++ rest) i ;; f p)
                (map Z.of_nat (seq (List.length done) (List.length rest)))
  = comprehension f rest.
Proof.
  revert done. induction rest as [| a rest IH]; intros done; simpl; [reflexivity |].
  unfold item at 1. rewrite py_index_of_nat by (rewrite length_app; simpl; lia).
  simpl. rewrite nth_error_app2 by lia. rewrite Nat.sub_diag. simpl.
  destruct (f a) as [b | e]; simpl; [| reflexivity].
  specialize (IH (done ++ [a])). rewrite <- app_assoc in IH. simpl in IH.
  rewrite length_app in IH. simpl in IH. rewrite Nat.add_1_r in IH. rewrite IH.
  reflexivity.
Qed.

(** With no [index_list] the models are transformed in list order. *)
Lemma y_comb_all (predictions_list : list instance) :
  y_comb predictions_list None
  = (ts <- comprehension rank_transform predictions_list ;; stack_nanmean ts).
Proof.
  unfold y_comb.
  pose proof (comprehension_all_items rank_transform [] predictions_list) as H.
  simpl in H. rewrite H. reflexivity.
Qed.

Lemma rank_transform_matrix (p : instance) (a : array2) :
  y_pred p = Some (Array2 a) -> (2 <= cols2 a)%nat ->
  rank_transform p = Ok (rank_columns a).
Proof.
  intros Hp Hc. unfold rank_transform. rewrite Hp.
  replace (cols2 a <? 1)%nat with false by (symmetry; apply Nat.ltb_ge; lia).
  replace (cols2 a <? 2)%nat with false by (symmetry; apply Nat.ltb_ge; lia).
  reflexivity.
Qed.

Lemma y_comb_single (p : instance) (a : array2) :
  y_pred p = Some (Array2 a) -> (2 <= cols2 a)%nat ->
  y_comb [p] None = Ok (Array2 (rank_columns a)).
Proof.
  intros Hp Hc. rewrite y_comb_all. simpl.
  rewrite (rank_transform_matrix p a Hp Hc). simpl.
  rewrite Nat.eqb_refl. simpl. do 2 f_equal. unfold rank_columns. f_equal.
  extensionality j. extensionality c. apply nanmean_single.
Qed.

(** ** Reordering the list of models *)

Lemma comprehension_perm {A B : Type} (f : A -> result B) (l1 l2 : list A) :
  Permutation l1 l2 ->
  alike (@Permutation B) (comprehension f l1) (comprehension f l2).
Proof.
  intros P.
  induction P as [| x l l' _ IH | x y l | l l' l'' _ IH1 _ IH2]; simpl.
  - constructor.
  - destruct (f x); simpl; [| exact I].
    destruct (comprehension f l), (comprehension f l'); simpl in *; auto.
  - destruct (f x), (f y); simpl; try exact I.
    destruct (comprehension f l); simpl; [apply perm_swap | exact I].
  - destruct (comprehension f l), (comprehension f l'), (comprehension f l'');
      simpl in *; try contradiction; auto.
    eapply perm_trans; eassumption.
Qed.

Lemma stack_nanmean_perm (ts1 ts2 : list array2) :
  Permutation ts1 ts2 -> stack_nanmean ts1 = stack_nanmean ts2.
Proof.
  intros P.
  destruct ts1 as [| t1 r1].
  { apply Permutation_nil in P. subst. reflexivity. }
  destruct ts2 as [| t2 r2].
  { apply Permutation_sym, Permutation_nil in P. discriminate. }
  unfold stack_nanmean.
  destruct (forallb (fun t' => (rows2 t' =? rows2 t1)%nat) (t1 :: r1)) eqn:E1.
  - rewrite forallb_forall in E1.
    assert (Hrows : rows2 t2 = rows2 t1).
    { apply Nat.eqb_eq, E1. apply (Permutation_in _ (Permutation_sym P)). left. reflexivity. }
    assert (E2 : forallb (fun t' => (rows2 t' =? rows2 t2)%nat) (t2 :: r2) = true).
    { apply forallb_forall. intros t Ht. rewrite Hrows. apply E1.
      apply (Permutation_in _ (Permutation_sym P)). exact Ht. }
    rewrite E2. simpl. rewrite Hrows. do 3 f_equal.
    extensionality j. extensionality c. apply nanmean_perm.
    exact (Permutation_map (fun t' => get2 t' j c) P).
  - destruct (forallb (fun t' => (rows2 t' =? rows2 t2)%nat) (t2 :: r2)) eqn:E2;
      [| reflexivity].
    exfalso. rewrite forallb_forall in E2.
    assert (Hrows : rows2 t1 = rows2 t2).
    { apply Nat.eqb_eq, E2. apply (Permutation_in _ P). left. reflexivity. }
    assert (E1' : forallb (fun t' => (rows2 t' =? rows2 t1)%nat) (t1 :: r1) = true).
    { apply forallb_forall. intros t Ht. rewrite Hrows. apply E2.
      apply (Permutation_in _ P). exact Ht. }
    congruence.
Qed.

Lemma y_comb_perm (l1 l2 : list instance) :
  Permutation l1 l2 -> alike eq (y_comb l1 None) (y_comb l2 None).
Proof.
  intros P. rewrite !y_comb_all.
  pose proof (comprehension_perm rank_transform l1 l2 P) as H.
  destruct (comprehension rank_transform l1) as [ts1 | e1],
           (comprehension rank_transform l2) as [ts2 | e2]; simpl in *;
    try contradiction; [| exact I].
  rewrite (stack_nanmean_perm ts1 ts2 H).
  destruct (stack_nanmean ts2); simpl; auto.
Qed.

(** C8.  Combining a single prediction gives exactly its rank transform,
    column 0 replaced by [rank(col0)] and column 1 by [n - rank(col1)]; and
    reordering the list of models changes neither the combined prediction
    nor whether the call fails. *)
Theorem combine_single_and_order :
  forall (label_names : list string) (check : instance -> result unit),
    (forall p a,
        y_pred p = Some (Array2 a) -> (2 <= cols2 a)%nat ->
        y_comb [p] None = Ok (Array2 (rank_columns a))
        /\ _combine label_names check [p] None
           = Predictions label_names check (Some (Array2 (rank_columns a))) None None)
    /\ (forall l1 l2,
           Permutation l1 l2 ->
           (forall r, _combine label_names check l1 None = Ok r ->
                      _combine label_names check l2 None = Ok r)
           /\ (forall e, _combine label_names check l1 None = Raise e ->
                         exists e', _combine label_names check l2 None = Raise e')).
Proof.
  intros label_names check. split.
  - intros p a Hp Hc. pose proof (y_comb_single p a Hp Hc) as H.
    split; [exact H |]. unfold _combine. rewrite H. reflexivity.
  - intros l1 l2 P. pose proof (y_comb_perm l1 l2 P) as H. unfold _combine.
    destruct (y_comb l1 None) as [y1 | e1], (y_comb l2 None) as [y2 | e2];
      simpl in *; try contradiction.
    + subst y2. split; [auto | eauto].
    + split; [discriminate | eauto].
Qed.

(** One model, and two models in both orders. *)
Lemma combine_single_and_order_witness :
  (y_pred model_a = Some (Array2 two_rows) /\ (2 <= cols2 two_rows)%nat
   /\ _combine two_labels accept [model_a] None
      = Ok (mk_instance (Some (Array2 (rank_columns two_rows)))))
  /\ (Permutation [model_a; model_b] [model_b; model_a]
      /\ exists r, _combine two_labels accept [model_a; model_b] None = Ok r
                   /\ _combine two_labels accept [model_b; model_a] None = Ok r).
Proof.
  destruct (combine_single_and_order two_labels accept) as [H1 H2].
  split.
  - split; [reflexivity | split; [simpl; lia |]].
    destruct (H1 model_a two_rows eq_refl) as [_ ->]; [simpl; lia | reflexivity].
  - split; [apply perm_swap |].
    destruct (H2 [model_a; model_b] [model_b; model_a] (perm_swap _ _ _)) as [H _].
    eexists. split; [| apply H]; reflexivity.
Defined.

Lemma get1_rankdata (v : array1) (j : nat) :
  get1 (rankdata v) j
  = if existsb isnan (to_list1 v) then NaN else Fin (rank_in (to_list1 v) (get1 v j)).
Proof. reflexivity. Qed.

Lemma flt_irrefl (x : float) : flt x x = false.
Proof.
  destruct x; simpl; try reflexivity. apply Rltb_false. lra.
Qed.

Lemma flt_not_nan (x y : float) : flt x y = true -> isnan x = false /\ isnan y = false.
Proof. destruct x, y; simpl; try discriminate; auto. Qed.

Lemma float_trichotomy (x y : float) :
  isnan x = false -> isnan y = false ->
  (flt y x = true /\ feq y x = false /\ flt x y = false)
  \/ (flt y x = false /\ feq y x = true /\ flt x y = false)
  \/ (flt y x = false /\ feq y x = false /\ flt x y = true).
Proof.
  destruct x, y; simpl; try discriminate; intros _ _; auto 10.
  unfold Rltb, Reqb.
  destruct (Rlt_dec r0 r), (Req_dec_T r0 r), (Rlt_dec r r0); auto 10; lra.
Qed.

Lemma count_below (l : list float) (x y : float) :
  flt y x = true ->
  (List.length (filter (fun z => flt z y) l) + List.length (filter (fun z => feq z y) l)
   <= List.length (filter (fun z => flt z x) l))%nat.
Proof.
  intros H. induction l as [| z l IH]; simpl; [lia |].
  destruct (flt z y) eqn:E1.
  - rewrite (flt_trans z y x E1 H).
    destruct (feq z y) eqn:E2; simpl; [| lia].
    apply feq_true in E2. subst z. rewrite flt_irrefl in E1. discriminate.
  - destruct (feq z y) eqn:E2; simpl.
    + apply feq_true in E2. subst z. rewrite H. simpl. lia.
    + destruct (flt z x); simpl; lia.
Qed.

Lemma count_equal_pos (l : list float) (y : float) :
  In y l -> isnan y = false ->
  (1 <= List.length (filter (fun z => feq z y) l))%nat.
Proof.
  intros Hin Hy. induction l as [| z l IH]; simpl; [contradiction |].
  destruct Hin as [-> | Hin].
  - rewrite feq_refl by exact Hy. simpl. lia.
  - destruct (feq z y); simpl; [lia | apply IH; exact Hin].
Qed.

Lemma rank_in_lt (l : list float) (x y : float) :
  flt y x = true -> In y l \/ In x l -> rank_in l y < rank_in l x.
Proof.
  intros H Hin. destruct (flt_not_nan _ _ H) as [Hy Hx].
  pose proof (count_below l x y H) as Hc.
  apply le_INR in Hc. rewrite plus_INR in Hc.
  assert (Hpos : 1 <= INR (List.length (filter (fun z => feq z y) l))
                      + INR (List.length (filter (fun z => feq z x) l))).
  { pose proof (pos_INR (List.length (filter (fun z => feq z y) l))).
    pose proof (pos_INR (List.length (filter (fun z => feq z x) l))).
    destruct Hin as [Hin | Hin].
    - pose proof (count_equal_pos l y Hin Hy) as Hone. apply le_INR in Hone.
      simpl in Hone. lra.
    - pose proof (count_equal_pos l x Hin Hx) as Hone. apply le_INR in Hone.
      simpl in Hone. lra. }
  unfold rank_in. lra.
Qed.

(** Ranks compare as the values they rank do. *)
Lemma rank_in_order (l : list float) (x y : float) :
  In y l -> isnan x = false -> isnan y = false ->
  Rltb (rank_in l y) (rank_in l x) = flt y x
  /\ Reqb (rank_in l y) (rank_in l x) = feq y x
  /\ Rltb (rank_in l x) (rank_in l y) = flt x y.
Proof.
  intros Hin Hx Hy.
  destruct (float_trichotomy x y Hx Hy) as [(H1 & H2 & H3) | [(H1 & H2 & H3) | (H1 & H2 & H3)]];
    rewrite H1, H2, H3.
  - pose proof (rank_in_lt l x y H1 (or_introl Hin)).
    repeat split; [apply Rltb_true | apply Reqb_false | apply Rltb_false]; lra.
  - apply feq_true in H2. subst y.
    repeat split; [apply Rltb_false | apply Reqb_true | apply Rltb_false]; lra.
  - pose proof (rank_in_lt l y x H3 (or_intror Hin)).
    repeat split; [apply Rltb_false | apply Reqb_false | apply Rltb_true]; lra.
Qed.

Lemma filter_map_length {A B : Type} (p : B -> bool) (g : A -> B) (l : list A) :
  List.length (filter p (map g l)) = List.length (filter (fun a => p (g a)) l).
Proof.
  induction l as [| a l IH]; simpl; [reflexivity |].
  destruct (p (g a)); simpl; congruence.
Qed.

Lemma filter_length_ext_in {A : Type} (p q : A -> bool) (l : list A) :
  (forall a, In a l -> p a = q a) ->
  List.length (filter p l) = List.length (filter q l).
Proof.
  intros H. rewrite (filter_ext_in p q l H). reflexivity.
Qed.

Lemma no_nan_in (l : list float) (y : float) :
  existsb isnan l = false -> In y l -> isnan y = false.
Proof. intros H Hy. exact (existsb_false isnan l H y Hy). Qed.

(** Ranking the ranks changes nothing. *)
Lemma rank_in_ranks (l : list float) (x : float) :
  existsb isnan l = false -> isnan x = false ->
  rank_in (map (fun y => Fin (rank_in l y)) l) (Fin (rank_in l x)) = rank_in l x.
Proof.
  intros Hl Hx. unfold rank_in at 1. rewrite !filter_map_length.
  rewrite (filter_length_ext_in
             (fun y => flt (Fin (rank_in l y)) (Fin (rank_in l x))) (fun y => flt y x) l).
  - rewrite (filter_length_ext_in
               (fun y => feq (Fin (rank_in l y)) (Fin (rank_in l x))) (fun y => feq y x) l);
      [reflexivity |].
    intros y Hy. simpl. apply (rank_in_order l x y Hy Hx (no_nan_in l y Hl Hy)).
  - intros y Hy. simpl. apply (rank_in_order l x y Hy Hx (no_nan_in l y Hl Hy)).
Qed.

(** Every value is below, equal to or above [x]. *)
Lemma count_partition (l : list float) (x : float) :
  existsb isnan l = false -> isnan x = false ->
  (List.length (filter (fun y => flt y x) l)
   + List.length (filter (fun y => feq y x) l)
   + List.length (filter (fun y => flt x y) l) = List.length l)%nat.
Proof.
  intros Hl Hx. induction l as [| z l IH]; simpl; [reflexivity |].
  simpl in Hl. apply orb_false_elim in Hl. destruct Hl as [Hz Hl].
  specialize (IH Hl).
  destruct (float_trichotomy x z Hx Hz) as [(H1 & H2 & H3) | [(H1 & H2 & H3) | (H1 & H2 & H3)]];
    rewrite H1, H2, H3; simpl; lia.
Qed.

(** Ranking the reversed ranks [n - rank] gives [n + 1 - rank]. *)
Lemma rank_in_reversed (l : list float) (x : float) :
  existsb isnan l = false -> isnan x = false ->
  rank_in (map (fun y => Fin (INR (List.length l) + - rank_in l y)) l)
          (Fin (INR (List.length l) + - rank_in l x))
  = INR (List.length l) + 1 - rank_in l x.
Proof.
  intros Hl Hx. unfold rank_in at 1. rewrite !filter_map_length.
  set (n := INR (List.length l)).
  rewrite (filter_length_ext_in
             (fun y => flt (Fin (n + - rank_in l y)) (Fin (n + - rank_in l x)))
             (fun y => flt x y) l).
  - rewrite (filter_length_ext_in
               (fun y => feq (Fin (n + - rank_in l y)) (Fin (n + - rank_in l x)))
               (fun y => feq y x) l).
    + pose proof (count_partition l x Hl Hx) as Hp.
      apply (f_equal INR) in Hp. rewrite !plus_INR in Hp. fold n in Hp.
      unfold rank_in. lra.
    + intros y Hy. simpl.
      destruct (rank_in_order l x y Hy Hx (no_nan_in l y Hl Hy)) as (_ & H2 & _).
      rewrite <- H2. unfold Reqb.
      destruct (Req_dec_T _ _), (Req_dec_T _ _); try reflexivity; lra.
  - intros y Hy. simpl.
    destruct (rank_in_order l x y Hy Hx (no_nan_in l y Hl Hy)) as (_ & _ & H3).
    rewrite <- H3. unfold Rltb.
    destruct (Rlt_dec _ _), (Rlt_dec _ _); try reflexivity; lra.
Qed.

(** ** Combining a combined prediction *)

Lemma to_list1_column (a : array2) (c : nat) :
  to_list1 (column_of a c) = map (fun j => get2 a j c) (seq 0 (rows2 a)).
Proof. reflexivity. Qed.

Lemma existsb_nan_const (n j : nat) (f : nat -> float) :
  (j < n)%nat -> (forall i, f i = NaN) -> existsb isnan (map f (seq 0 n)) = true.
Proof.
  intros Hj Hf. apply existsb_exists. exists NaN. split; [| reflexivity].
  apply in_map_iff. exists j. split; [apply Hf | apply in_seq; lia].
Qed.

Lemma existsb_nan_map_Fin {A : Type} (g : A -> R) (l : list A) :
  existsb isnan (map (fun y => Fin (g y)) l) = false.
Proof. induction l as [| y l IH]; simpl; auto. Qed.

Lemma rank_columns_again_0 (a : array2) (j : nat) :
  (j < rows2 a)%nat ->
  get2 (rank_columns (rank_columns a)) j 0 = get2 (rank_columns a) j 0.
Proof.
  intros Hj. cbn [rank_columns get2 Nat.eqb].
  rewrite (get1_rankdata (column_of (rank_columns a) 0)).
  rewrite to_list1_column. cbn [rank_columns rows2 get2 column_of get1 Nat.eqb].
  rewrite get1_rankdata, to_list1_column. cbn [column_of get1].
  set (l := map (fun j0 => get2 a j0 0%nat) (seq 0 (rows2 a))).
  destruct (existsb isnan l) eqn:E.
  - rewrite (existsb_nan_const (rows2 a) j); auto.
    intros i. rewrite get1_rankdata, to_list1_column. fold l. rewrite E. reflexivity.
  - assert (Hl : map (fun j0 => get1 (rankdata (column_of a 0)) j0) (seq 0 (rows2 a))
                 = map (fun y => Fin (rank_in l y)) l).
    { unfold l. rewrite map_map. apply map_ext. intros i.
      rewrite get1_rankdata, to_list1_column. fold l. rewrite E. reflexivity. }
    rewrite Hl, existsb_nan_map_Fin. f_equal.
    apply rank_in_ranks; [exact E |].
    apply (no_nan_in l _ E). unfold l. apply in_map_iff.
    exists j. split; [reflexivity | apply in_seq; lia].
Qed.

Lemma rank_columns_again_1 (a : array2) (j : nat) :
  (j < rows2 a)%nat ->
  get2 (rank_columns (rank_columns a)) j 1
  = fsub (get1 (rankdata (column_of a 1)) j) (Fin 1).
Proof.
  intros Hj. cbn [rank_columns get2 Nat.eqb rows2].
  rewrite (get1_rankdata (column_of (rank_columns a) 1)).
  rewrite to_list1_column. cbn [rank_columns rows2 get2 column_of get1 Nat.eqb].
  rewrite get1_rankdata, to_list1_column. cbn [column_of get1].
  set (l := map (fun j0 => get2 a j0 1%nat) (seq 0 (rows2 a))).
  assert (Hlen : List.length l = rows2 a) by (unfold l; rewrite length_map, length_seq; reflexivity).
  destruct (existsb isnan l) eqn:E.
  - rewrite (existsb_nan_const (rows2 a) j); auto.
    intros i. rewrite get1_rankdata, to_list1_column. fold l. rewrite E. reflexivity.
  - assert (Hl : map (fun j0 => fsub (of_nat (rows2 a)) (get1 (rankdata (column_of a 1)) j0))
                     (seq 0 (rows2 a))
                 = map (fun y => Fin (INR (List.length l) + - rank_in l y)) l).
    { unfold l at 3. rewrite map_map. apply map_ext. intros i.
      rewrite get1_rankdata, to_list1_column. fold l. rewrite E, Hlen. reflexivity. }
    rewrite Hl, existsb_nan_map_Fin.
    change (fsub (of_nat (rows2 a)) (Fin (rank_in l (get2 a j 1%nat))))
      with (Fin (INR (rows2 a) + - rank_in l (get2 a j 1%nat))).
    rewrite <- Hlen at 2. rewrite rank_in_reversed.
    + simpl. f_equal. rewrite Hlen. lra.
    + exact E.
    + apply (no_nan_in l _ E). unfold l. apply in_map_iff.
      exists j. split; [reflexivity | apply in_seq; lia].
Qed.

Lemma rank_transform_Ok (p : instance) (t : array2) :
  rank_transform p = Ok t ->
  exists a, y_pred p = Some (Array2 a) /\ (2 <= cols2 a)%nat /\ t = rank_columns a.
Proof.
  unfold rank_transform. destruct (y_pred p) as [[x | v | a] |]; try discriminate.
  intros H. apply bind_Ok in H. destruct H as [[] [_ H]].
  apply bind_Ok in H. destruct H as [[] [Hc H]].
  apply raise_if_Ok, Nat.ltb_ge in Hc. injection H as <-.
  exists a. repeat split. exact Hc.
Qed.

Lemma Predictions_from_array (label_names : list string) (check : instance -> result unit)
      (y : ndarray) (q : instance) :
  Predictions label_names check (Some y) None None = Ok q -> q = mk_instance (Some y).
Proof.
  unfold Predictions, _ranking_init. simpl.
  destruct (check (mk_instance (Some y))); simpl; [| discriminate].
  intros H. injection H as <-. reflexivity.
Qed.

(** C9 (as amended).  Combining the output of [combine([p])] once more
    leaves column 0 as it is, ranks being their own ranks, but reverses
    column 1 a second time: its entries become [rank(col1) - 1]. *)
Theorem recombine :
  forall (label_names : list string) (check : instance -> result unit) (p q : instance),
    _combine label_names check [p] None = Ok q ->
    exists a,
      y_pred p = Some (Array2 a)
      /\ y_pred q = Some (Array2 (rank_columns a))
      /\ y_comb [q] None = Ok (Array2 (rank_columns (rank_columns a)))
      /\ forall j, (j < rows2 a)%nat ->
                   get2 (rank_columns (rank_columns a)) j 0 = get2 (rank_columns a) j 0
                   /\ get2 (rank_columns (rank_columns a)) j 1
                      = fsub (get1 (rankdata (column_of a 1)) j) (Fin 1).
Proof.
  intros label_names check p q H. unfold _combine in H.
  apply bind_Ok in H. destruct H as [y [Hy Hq]].
  apply Predictions_from_array in Hq. subst q.
  rewrite y_comb_all in Hy. simpl in Hy.
  apply bind_Ok in Hy. destruct Hy as [ts [Hts Hy]].
  apply bind_Ok in Hts. destruct Hts as [t [Ht Hts]]. injection Hts as <-.
  destruct (rank_transform_Ok p t Ht) as (a & Hp & Hc & ->).
  pose proof (y_comb_single p a Hp Hc) as Hy'.
  rewrite y_comb_all in Hy'. cbn [comprehension] in Hy'. rewrite Ht in Hy'.
  cbn [bind] in Hy'. rewrite Hy in Hy'. injection Hy' as ->.
  exists a. split; [exact Hp | split; [reflexivity | split]].
  - apply y_comb_single; [reflexivity | simpl; lia].
  - intros j Hj. split; [apply rank_columns_again_0 | apply rank_columns_again_1]; exact Hj.
Qed.

Lemma combine_model_a :
  _combine two_labels accept [model_a] None
  = Ok (mk_instance (Some (Array2 (rank_columns two_rows)))).
Proof.
  unfold _combine. rewrite (y_comb_single model_a two_rows eq_refl) by (simpl; lia).
  reflexivity.
Qed.

(** The first sample of [model_a], combined twice. *)
Lemma recombine_witness :
  _combine two_labels accept [model_a] None
  = Ok (mk_instance (Some (Array2 (rank_columns two_rows))))
  /\ get2 (rank_columns (rank_columns two_rows)) 0 0 = get2 (rank_columns two_rows) 0 0
  /\ get2 (rank_columns (rank_columns two_rows)) 0 1
     = fsub (get1 (rankdata (column_of two_rows 1)) 0) (Fin 1).
Proof.
  split; [exact combine_model_a |].
  destruct (recombine two_labels accept model_a _ combine_model_a) as (a & Ha & _ & _ & H).
  injection Ha as <-. apply (H 0%nat). simpl. lia.
Defined.

(** C9 as stated fails: the second combination turns column 1 of
    [model_a] from [[1, 0]] into [[0, 1]]. *)
Lemma recombine_counterexample :
  exists q q',
    _combine two_labels accept [model_a] None = Ok q
    /\ _combine two_labels accept [q] None = Ok q'
    /\ y_pred q' <> y_pred q.
Proof.
  exists (mk_instance (Some (Array2 (rank_columns two_rows)))),
         (mk_instance (Some (Array2 (rank_columns (rank_columns two_rows))))).
  split; [exact combine_model_a | split].
  - unfold _combine.
    rewrite (y_comb_single (mk_instance (Some (Array2 (rank_columns two_rows))))
                           (rank_columns two_rows) eq_refl) by (simpl; lia).
    reflexivity.
  - intros H.
    apply (f_equal (fun y => match y with
                             | Some (Array2 t) => get2 t 0 1
                             | _ => NaN
                             end)) in H.
    revert H.
    feval. Rdecide. intros H. injection H as H. simpl INR in H. lra.
Qed.

(** ** C10: construction without arguments *)

(** C10.  Calling the constructor with none of [y_pred], [y_true] and
    [n_samples] raises the [ValueError] that names the three missing
    arguments; [__init__] leaves the object it was given untouched, so the
    blank object never gets a [y_pred] attribute. *)
Theorem ranking_init_without_arguments :
  forall (label_names : list string) (check : instance -> result unit) (self : instance),
    Predictions label_names check None None None
    = Raise (ValueError "Missing init argument: y_pred, y_true, or n_samples")
    /\ _ranking_init label_names check self None None None
       = (self, Raise (ValueError "Missing init argument: y_pred, y_true, or n_samples"))
    /\ y_pred (fst (_ranking_init label_names check blank None None None)) = None.
Proof.
  intros label_names check self. repeat split.
Qed.

(** * Further properties *)

(** ** The binned scorer: bins, shapes and range *)

Section BinnedMore.
Import NegativeLogLikelihoodReg.

Lemma fle_flt_trans (a b c : float) : fle a b = true -> flt b c = true -> flt a c = true.
Proof.
  destruct a, b, c; simpl; try discriminate; try reflexivity.
  unfold Rltb, Rleb. destruct (Rle_dec _ _); repeat destruct (Rlt_dec _ _);
    try discriminate; try reflexivity.
  lra.
Qed.

Lemma fle_of_flt (a b : float) : flt a b = true -> fle a b = true.
Proof.
  destruct a, b; simpl; try discriminate; try reflexivity.
  unfold Rltb, Rleb. destruct (Rle_dec _ _), (Rlt_dec _ _); try discriminate; try reflexivity.
  lra.
Qed.

Lemma fle_trans (a b c : float) : fle a b = true -> fle b c = true -> fle a c = true.
Proof.
  destruct a, b, c; simpl; try discriminate; try reflexivity.
  unfold Rleb. repeat destruct (Rle_dec _ _); try discriminate; try reflexivity.
  lra.
Qed.

(** The scan stops at the first edge above the truth. *)
Lemma class_scan_found (dim : nat -> float) (len : nat) (t : float) (b cnt s : nat)
      (cell : option Z) :
  (s <= b + 1)%nat -> (b + 1 < s + cnt)%nat -> (b + 1 < len)%nat ->
  (forall k, (s <= k <= b)%nat -> fgt (dim k) t = false) ->
  fgt (dim (b + 1)%nat) t = true ->
  class_scan dim len t (seq s cnt) cell = Some (Z.of_nat b).
Proof.
  revert s cell. induction cnt as [| cnt IH]; intros s cell Hs Hc Hlen Hbelow Habove;
    [lia |].
  cbn [seq class_scan].
  destruct (Nat.eq_dec s (b + 1)) as [-> | Hne].
  - rewrite Habove. f_equal. lia.
  - rewrite (Hbelow s) by lia.
    apply IH; try lia; [| exact Habove].
    intros k Hk. apply Hbelow. lia.
Qed.

Lemma class_of_inside (dim : nat -> float) (len : nat) (t : float) (b : nat) :
  (b + 1 < len)%nat ->
  (forall k, (k < len)%nat -> isnan (dim k) = false) ->
  (forall k, (k + 1 < len)%nat -> fge (dim k) (dim (k + 1)%nat) = false) ->
  fle (dim b) t = true -> flt t (dim (b + 1)%nat) = true ->
  class_of dim len t = Some (Z.of_nat b).
Proof.
  intros Hb Hnan Hord Hlo Hhi.
  assert (Hinc : forall k m, (k < m)%nat -> (m < len)%nat -> flt (dim k) (dim m) = true).
  { apply increasing_edges. intros k Hk.
    apply not_fge_flt; [apply Hnan; lia | apply Hnan; lia | apply Hord; exact Hk]. }
  assert (Hbelow : forall k, (k <= b)%nat -> fgt (dim k) t = false).
  { intros k Hk. unfold fgt. apply flt_fle_asym.
    destruct (Nat.eq_dec k b) as [-> | Hne]; [exact Hlo |].
    apply fle_trans with (dim b); [| exact Hlo].
    apply fle_of_flt, Hinc; lia. }
  unfold class_of. rewrite (Hbelow 0%nat) by lia.
  apply class_scan_found with (b := b); try lia; [| exact Hhi].
  intros k Hk. apply Hbelow. lia.
Qed.

Lemma bins_sliding_Ok (prob bins sliding : array3) :
  bins_sliding prob bins = Ok sliding ->
  forall i j k, (k < dim2 bins - 1)%nat ->
                get3 sliding i j k = fsub (get3 bins i j (k + 1)%nat) (get3 bins i j k).
Proof.
  unfold bins_sliding. intros H i j k Hk.
  apply bind_Ok in H. destruct H as [[] [_ H]]. injection H as <-.
  simpl. apply Nat.ltb_lt in Hk. rewrite Hk. reflexivity.
Qed.

(** What a call that returns has checked about the shapes, as soon as the
    prediction has a sample and a dimension. *)
Lemma lk_matrix_shape (n_bins : nat) (y_true : truth) (y_pred : array3) (lk : array2) :
  lk_matrix n_bins y_true y_pred = Ok lk ->
  (0 < dim0 y_pred)%nat -> (0 < dim1 y_pred)%nat ->
  (1 <= n_bins)%nat
  /\ (2 * n_bins + 1 <= dim2 y_pred)%nat
  /\ cols2 (by_dimension y_true) = dim0 y_pred
  /\ (dim1 y_pred <= rows2 (by_dimension y_true))%nat
  /\ rows2 lk = dim1 y_pred /\ cols2 lk = dim0 y_pred.
Proof.
  intros Hlk HN HD. unfold lk_matrix in Hlk.
  destruct (bins_of_shape n_bins y_pred) as (B0 & B1 & B2).
  destruct (prob_of_shape n_bins y_pred) as (P0 & P1 & P2).
  destruct (renormalise_shape (prob_of n_bins y_pred)) as (R0 & R1 & R2).
  remember (bins_of n_bins y_pred) as bins eqn:Ebins.
  remember (renormalise (prob_of n_bins y_pred)) as prob eqn:Eprob.
  remember (by_dimension y_true) as yt eqn:Eyt.
  apply bind_Ok in Hlk. destruct Hlk as [[] [_ Hlk]].
  apply bind_Ok in Hlk. destruct Hlk as [[] [_ Hlk]].
  apply bind_Ok in Hlk. destruct Hlk as [classes [Hclasses Hlk]].
  apply bind_Ok in Hlk. destruct Hlk as [sliding [Hsliding Hlk]].
  apply bind_Ok in Hlk. destruct Hlk as [[] [Hgather Hlk]].
  injection Hlk as <-. cbn [rows2 cols2].
  (* the loops that fill [classes_matrix] read the truth of every cell *)
  unfold classes_matrix in Hclasses.
  apply bind_Ok in Hclasses. destruct Hclasses as [[] [Hread Hclasses]].
  assert (Hread' := for_each_Ok _ _ _ Hread (dim0 bins - 1, dim1 bins - 1)%nat).
  rewrite in_cells in Hread'. specialize (Hread' ltac:(lia)).
  apply raise_if_Ok, orb_false_elim in Hread'. destruct Hread' as [Hin HE].
  apply negb_false_iff, andb_true_iff in Hin. cbn [fst snd] in Hin.
  destruct Hin as [Hd Hn]. apply Nat.ltb_lt in Hd, Hn. apply Nat.eqb_neq in HE.
  (* the loops that fill [bins_sliding] write one width per bin *)
  unfold bins_sliding in Hsliding.
  apply bind_Ok in Hsliding. destruct Hsliding as [[] [Hwrite _]].
  assert (Hwrite' := for_each_Ok _ _ _ Hwrite (0, 0)%nat).
  rewrite in_cells in Hwrite'. specialize (Hwrite' ltac:(lia)).
  assert (HEP : (dim2 bins - 1 <= dim2 prob)%nat).
  { destruct (dim2 bins - 1)%nat as [| e] eqn:Ee; [lia |].
    assert (Hw := for_each_Ok _ _ _ Hwrite' e).
    rewrite in_seq in Hw. specialize (Hw ltac:(lia)).
    apply raise_if_Ok, negb_false_iff, Nat.ltb_lt in Hw. lia. }
  (* the gather of row 0 indexes the samples of [prob] by those of the truth *)
  assert (Hrow := for_each_Ok _ _ _ Hgather 0%nat).
  rewrite in_seq in Hrow. specialize (Hrow ltac:(lia)).
  unfold gather_check in Hrow.
  assert (Hcell := for_each_Ok _ _ _ Hrow (cols2 yt - 1)%nat).
  rewrite in_seq in Hcell. specialize (Hcell ltac:(lia)).
  apply bind_Ok in Hcell. destruct Hcell as [[] [HjN Hcol]].
  apply raise_if_Ok, negb_false_iff, Nat.ltb_lt in HjN.
  apply bind_Ok in Hcol. destruct Hcol as [col [Hcol _]].
  assert (HPpos : (0 < dim2 prob)%nat).
  { destruct (dim2 prob) eqn:E; [| lia].
    destruct (classes 0%nat (cols2 yt - 1)%nat); simpl in Hcol; [| discriminate].
    rewrite py_index_empty in Hcol. discriminate. }
  repeat split; lia.
Qed.

(** X1.  A truth that lies in bin [b] of its cell, at or above the
    bin's lower edge and below its upper edge, is scored by the log of
    that bin's renormalised probability divided by the bin's width,
    floored at [WORST_LK]. *)
Theorem bin_containment :
  forall (n_bins : nat) (y_true : truth) (y_pred : array3) (lk : array2) (i j b : nat),
    lk_matrix n_bins y_true y_pred = Ok lk ->
    (i < rows2 lk)%nat -> (j < cols2 lk)%nat -> (b < n_bins)%nat ->
    fle (get3 (bins_of n_bins y_pred) i j b) (get2 (by_dimension y_true) i j) = true ->
    flt (get2 (by_dimension y_true) i j) (get3 (bins_of n_bins y_pred) i j (b + 1)%nat) = true ->
    get2 lk i j
    = clip_low (flog (fdiv (get3 (renormalise (prob_of n_bins y_pred)) i j b)
                           (fsub (get3 (bins_of n_bins y_pred) i j (b + 1)%nat)
                                 (get3 (bins_of n_bins y_pred) i j b))))
               WORST_LK.
Proof.
  intros n_bins y_true y_pred lk i j b Hlk Hi Hj Hb Hlo Hhi.
  assert (HN : (0 < dim0 y_pred)%nat).
  { destruct (dim0 y_pred) eqn:E; [| lia]. exfalso.
    rewrite (canonical_bins_of n_bins y_pred i j b) in Hlo; [discriminate |].
    destruct (bins_of_shape n_bins y_pred) as (_ & B1 & _). rewrite B1, E. lia. }
  assert (HD : (0 < dim1 y_pred)%nat).
  { destruct (renormalise_shape (prob_of n_bins y_pred)) as (R0 & _).
    destruct (prob_of_shape n_bins y_pred) as (P0 & _).
    unfold lk_matrix in Hlk.
    repeat (apply bind_Ok in Hlk; destruct Hlk as [? [_ Hlk]]).
    injection Hlk as <-. cbn [rows2] in Hi. rewrite R0, P0 in Hi. lia. }
  destruct (lk_matrix_shape n_bins y_true y_pred lk Hlk HN HD)
    as (Hn1 & HM & Hcols & Hrows & Hlk0 & Hlk1).
  unfold lk_matrix in Hlk.
  destruct (bins_of_shape n_bins y_pred) as (B0 & B1 & B2).
  destruct (prob_of_shape n_bins y_pred) as (P0 & P1 & P2).
  destruct (renormalise_shape (prob_of n_bins y_pred)) as (R0 & R1 & R2).
  remember (bins_of n_bins y_pred) as bins eqn:Ebins.
  remember (renormalise (prob_of n_bins y_pred)) as prob eqn:Eprob.
  remember (by_dimension y_true) as yt eqn:Eyt.
  apply bind_Ok in Hlk. destruct Hlk as [[] [Hnan Hlk]].
  apply raise_if_Ok, orb_false_elim in Hnan. destruct Hnan as [Hnan _].
  apply bind_Ok in Hlk. destruct Hlk as [[] [Hord Hlk]].
  apply raise_if_Ok in Hord.
  apply bind_Ok in Hlk. destruct Hlk as [classes [Hclasses Hlk]].
  apply bind_Ok in Hlk. destruct Hlk as [sliding [Hsliding Hlk]].
  apply bind_Ok in Hlk. destruct Hlk as [[] [_ Hlk]].
  injection Hlk as <-. cbn [rows2 cols2 get2] in *.
  assert (Hi' : (i < dim0 bins)%nat) by lia.
  assert (Hj' : (j < dim1 bins)%nat) by lia.
  assert (Hclass : classes i j = Some (Z.of_nat b)).
  { rewrite (classes_matrix_Ok _ _ _ Hclasses i j Hi' Hj').
    apply class_of_inside; try assumption; try lia.
    - intros k Hk. apply (any3_false _ _ Hnan); assumption.
    - intros k Hk. apply (unordered_false _ Hord); assumption. }
  assert (Hcolumn : column (dim2 prob) (Some (Z.of_nat b)) = Ok b).
  { simpl. apply py_index_of_nat. lia. }
  unfold density, preds_row, selected_row, gather. rewrite Hclass.
  replace (is_outside (Some (Z.of_nat b))) with false
    by (symmetry; simpl; apply Z.eqb_neq; lia).
  assert (Hcolumn' : column (dim2 sliding) (Some (Z.of_nat b)) = Ok b).
  { simpl. apply py_index_of_nat.
    unfold bins_sliding in Hsliding.
    apply bind_Ok in Hsliding. destruct Hsliding as [[] [_ Hs]]. injection Hs as <-.
    simpl. lia. }
  rewrite Hcolumn, Hcolumn'.
  rewrite (bins_sliding_Ok _ _ _ Hsliding) by lia. reflexivity.
Qed.

(** A truth of a half in the first of the two bins [[0, 1)] and [[1, 2)]. *)
Lemma bin_containment_witness :
  exists lk,
    lk_matrix 2 truth_half two_bins = Ok lk
    /\ fle (get3 (bins_of 2 two_bins) 0 0 0) (get2 (by_dimension truth_half) 0 0) = true
    /\ flt (get2 (by_dimension truth_half) 0 0) (get3 (bins_of 2 two_bins) 0 0 1) = true
    /\ get2 lk 0 0
       = clip_low (flog (fdiv (get3 (renormalise (prob_of 2 two_bins)) 0 0 0)
                              (fsub (get3 (bins_of 2 two_bins) 0 0 1)
                                    (get3 (bins_of 2 two_bins) 0 0 0))))
                  WORST_LK.
Proof.
  assert (H : exists lk, lk_matrix 2 truth_half two_bins = Ok lk
                         /\ (0 < rows2 lk)%nat /\ (0 < cols2 lk)%nat).
  { eexists. split; [feval; Rdecide; reflexivity | split; simpl; lia]. }
  destruct H as (lk & H & Hi & Hj).
  assert (Hlo : fle (get3 (bins_of 2 two_bins) 0 0 0) (get2 (by_dimension truth_half) 0 0)
                = true) by (feval; Rdecide; reflexivity).
  assert (Hhi : flt (get2 (by_dimension truth_half) 0 0) (get3 (bins_of 2 two_bins) 0 0 1)
                = true) by (feval; Rdecide; reflexivity).
  exists lk. repeat split; try assumption.
  apply (bin_containment 2 truth_half two_bins lk 0 0 0 H Hi Hj); [lia | exact Hlo | exact Hhi].
Defined.

Lemma cells_no_columns (n : nat) : cells n 0 = [].
Proof.
  unfold cells. simpl. induction (seq 0 n) as [| x l IH]; simpl; auto.
Qed.

Lemma fdiv_zero_zero : fdiv (Fin 0) (Fin 0) = NaN.
Proof. float_cases. Qed.

(** X2.  A prediction without any dimension, or without any sample
    for a truth without any sample, raises nothing: every check runs over
    nothing and the score is the NaN of [0.0 / 0]. *)
Theorem empty_prediction_scores_nan :
  forall (n_bins : nat) (y_true : truth) (y_pred : array3),
    dim1 y_pred = 0%nat
    \/ (dim0 y_pred = 0%nat /\ cols2 (by_dimension y_true) = 0%nat) ->
    call n_bins y_true y_pred = Ok NaN.
Proof.
  intros n_bins y_true y_pred H. unfold call, lk_matrix.
  destruct (bins_of_shape n_bins y_pred) as (B0 & B1 & B2).
  destruct (prob_of_shape n_bins y_pred) as (P0 & P1 & P2).
  assert (Hcells : cells (dim0 (bins_of n_bins y_pred)) (dim1 (bins_of n_bins y_pred)) = []).
  { rewrite B0, B1. destruct H as [-> | [-> _]]; [reflexivity | apply cells_no_columns]. }
  assert (Hcells' : cells (dim0 (prob_of n_bins y_pred)) (dim1 (prob_of n_bins y_pred)) = []).
  { rewrite P0, P1. destruct H as [-> | [-> _]]; [reflexivity | apply cells_no_columns]. }
  assert (Hren : renormalise (prob_of n_bins y_pred) = prob_of n_bins y_pred).
  { unfold renormalise, all2. cbn [summed_prob rows2 cols2]. rewrite Hcells'. reflexivity. }
  rewrite Hren.
  unfold any3, unordered, classes_matrix, bins_sliding. rewrite Hcells, Hcells'.
  cbn [existsb orb raise_if bind for_each].
  set (rows := Nat.min (rows2 (by_dimension y_true)) (dim0 (prob_of n_bins y_pred))).
  assert (Hgather :
            for_each (fun r => gather_check (prob_of n_bins y_pred)
                                            (cols2 (by_dimension y_true))
                                            ((fun i j =>
                                                if ((i <? dim0 (bins_of n_bins y_pred))
                                                    && (j <? dim1 (bins_of n_bins y_pred)))%nat
                                                then class_of (get3 (bins_of n_bins y_pred) i j)
                                                              (dim2 (bins_of n_bins y_pred))
                                                              (get2 (by_dimension y_true) i j)
                                                else None) r))
                     (seq 0 rows) = Ok tt).
  { destruct H as [H | [_ H]].
    - unfold rows. rewrite P0, H, Nat.min_0_r. reflexivity.
    - rewrite H. unfold gather_check. simpl.
      induction (seq 0 rows) as [| x l IH]; simpl; auto. }
  rewrite Hgather. cbn [bind]. f_equal.
  unfold mean_neg, sum2, size2. cbn [rows2 cols2].
  assert (Hz : cells rows (cols2 (by_dimension y_true)) = []
               /\ (rows * cols2 (by_dimension y_true) = 0)%nat).
  { destruct H as [H | [_ H]].
    - unfold rows. rewrite P0, H, Nat.min_0_r. split; reflexivity.
    - rewrite H. split; [apply cells_no_columns | lia]. }
  destruct Hz as [-> ->]. simpl. apply fdiv_zero_zero.
Qed.

(** One sample without any dimension. *)
Lemma empty_prediction_scores_nan_witness :
  dim1 no_dimension = 0%nat /\ call 1 truth_zero no_dimension = Ok NaN.
Proof.
  split; [reflexivity |].
  apply (empty_prediction_scores_nan 1 truth_zero no_dimension). left. reflexivity.
Defined.

(** X3.  What a score vouches for: when the call returns on a
    prediction with a sample and a dimension, there is at least one bin,
    the last axis holds the [n_bins + 1] edges and [n_bins]
    probabilities, the truth has exactly the prediction's samples and at
    least its dimensions. *)
Theorem score_implies_shape :
  forall (n_bins : nat) (y_true : truth) (y_pred : array3) (score : float),
    call n_bins y_true y_pred = Ok score ->
    (0 < dim0 y_pred)%nat -> (0 < dim1 y_pred)%nat ->
    (1 <= n_bins)%nat
    /\ (2 * n_bins + 1 <= dim2 y_pred)%nat
    /\ cols2 (by_dimension y_true) = dim0 y_pred
    /\ (dim1 y_pred <= rows2 (by_dimension y_true))%nat.
Proof.
  intros n_bins y_true y_pred score H HN HD. unfold call in H.
  apply bind_Ok in H. destruct H as [lk [Hlk _]].
  destruct (lk_matrix_shape n_bins y_true y_pred lk Hlk HN HD) as (H1 & H2 & H3 & H4 & _).
  auto.
Qed.

(** The shapes behind the score of two truths that miss the only bin. *)
Lemma score_implies_shape_witness :
  call 1 truth_0_2 beyond_bins2 = Ok (Fin 50)
  /\ (1 <= 1)%nat
  /\ (2 * 1 + 1 <= dim2 beyond_bins2)%nat
  /\ cols2 (by_dimension truth_0_2) = dim0 beyond_bins2
  /\ (dim1 beyond_bins2 <= rows2 (by_dimension truth_0_2))%nat.
Proof.
  split; [exact nll_beyond_bins2 |].
  apply (score_implies_shape 1 truth_0_2 beyond_bins2 (Fin 50) nll_beyond_bins2);
    simpl; lia.
Defined.

(** *** The ceiling of the likelihood scores *)

Lemma capped_term (y : float) : capped 50 (fneg (clip_low y WORST_LK)).
Proof.
  unfold clip_low, WORST_LK, capped. destruct y as [| | | r]; simpl.
  - left. reflexivity.
  - right. left. reflexivity.
  - right. right. eexists. split; [reflexivity | lra].
  - unfold Rltb. destruct (Rlt_dec r (-50)); simpl; right; right; eexists; split;
      try reflexivity; lra.
Qed.

Lemma capped_fadd (c1 c2 : R) (x y : float) :
  capped c1 x -> capped c2 y -> capped (c1 + c2) (fadd x y).
Proof.
  unfold capped.
  intros [-> | [-> | (a & -> & Ha)]] [-> | [-> | (b & -> & Hb)]]; simpl; auto.
  right. right. exists (a + b). split; [reflexivity | lra].
Qed.

Lemma capped_fold {A : Type} (f : A -> float) (l : list A) (c : R) (acc : float) :
  (forall a, In a l -> capped 50 (f a)) ->
  capped c acc ->
  capped (c + 50 * INR (List.length l)) (fold_left fadd (map f l) acc).
Proof.
  revert c acc. induction l as [| a l IH]; intros c acc Hf Hacc.
  - simpl. replace (c + 50 * 0) with c by ring. exact Hacc.
  - cbn [map fold_left]. change (List.length (a :: l)) with (S (List.length l)).
    rewrite S_INR.
    replace (c + 50 * (INR (List.length l) + 1))
      with ((c + 50) + 50 * INR (List.length l)) by ring.
    apply IH.
    + intros a' Ha'. apply Hf. right. exact Ha'.
    + apply capped_fadd; [exact Hacc | apply Hf; left; reflexivity].
Qed.

Lemma capped_zero : capped 0 (Fin 0).
Proof. right. right. exists 0. split; [reflexivity | lra]. Qed.

Lemma capped_mean (s : float) (n : nat) :
  capped (50 * INR n) s -> isnan (fdiv s (of_nat n)) = true \/ fle (fdiv s (of_nat n)) (Fin 50) = true.
Proof.
  unfold of_nat. intros [-> | [-> | (r & -> & Hr)]].
  - left. reflexivity.
  - right. simpl. pose proof (pos_INR n). destruct (Rlt_dec (INR n) 0); [lra | reflexivity].
  - unfold fdiv. destruct (Req_dec_T (INR n) 0) as [Hz | Hnz].
    + rewrite Hz in Hr. unfold by_sign.
      destruct (Rlt_dec 0 r); [lra |]. destruct (Rlt_dec r 0); [right | left]; reflexivity.
    + right. simpl. apply Rleb_true.
      pose proof (pos_INR n). assert (0 < INR n) by lra.
      apply Rmult_le_reg_r with (INR n); [assumption |].
      unfold Rdiv. rewrite Rmult_assoc, Rinv_l by exact Hnz. lra.
Qed.

(** X4.  The floor [WORST_LK = -50] on every cell caps the score:
    whenever the binned scorer returns, the score is NaN or at most
    [50]. *)
Theorem binned_score_at_most_50 :
  forall (n_bins : nat) (y_true : truth) (y_pred : array3) (score : float),
    NegativeLogLikelihoodReg.call n_bins y_true y_pred = Ok score ->
    isnan score = true \/ fle score (Fin 50) = true.
Proof.
  intros n_bins y_true y_pred score H. unfold NegativeLogLikelihoodReg.call in H.
  apply bind_Ok in H. destruct H as [lk [Hlk H]]. injection H as <-.
  unfold NegativeLogLikelihoodReg.lk_matrix in Hlk.
  repeat (apply bind_Ok in Hlk; destruct Hlk as [? [_ Hlk]]).
  injection Hlk as <-.
  unfold NegativeLogLikelihoodReg.mean_neg, sum2, size2. cbn [rows2 cols2 get2].
  apply capped_mean.
  set (rows := Nat.min _ _). set (cols := cols2 _).
  assert (Hlen : List.length (cells rows cols) = (rows * cols)%nat).
  { unfold cells. rewrite length_prod, !length_seq. reflexivity. }
  rewrite <- Hlen.
  replace (50 * INR (List.length (cells rows cols)))
    with (0 + 50 * INR (List.length (cells rows cols))) by ring.
  apply (capped_fold (fun ij : nat * nat => fneg (clip_low _ WORST_LK)));
    [| exact capped_zero].
  intros ij _. apply capped_term.
Qed.

(** Two truths that both miss the only bin reach the ceiling. *)
Lemma binned_score_at_most_50_witness :
  call 1 truth_0_2 beyond_bins2 = Ok (Fin 50)
  /\ (isnan (Fin 50) = true \/ fle (Fin 50) (Fin 50) = true).
Proof.
  split; [exact nll_beyond_bins2 |].
  exact (binned_score_at_most_50 1 truth_0_2 beyond_bins2 (Fin 50) nll_beyond_bins2).
Defined.

End BinnedMore.

(** ** [normpdf] *)

Lemma gaussian_density_pos (mu sigma y : R) : 0 < sigma -> 0 < gaussian_density mu sigma y.
Proof.
  intros Hs. pose proof PI_bounds as HPI. unfold gaussian_density.
  apply Rdiv_lt_0_compat; [apply exp_pos |].
  apply Rmult_lt_0_compat; [exact Hs | apply sqrt_lt_R0; lra].
Qed.

Lemma sqrt_two_pi_var (sigma : R) :
  0 < sigma -> sqrt (2 * PI * (sigma * sigma)) = sigma * sqrt (2 * PI).
Proof.
  intros Hs. pose proof PI_bounds as HPI.
  rewrite sqrt_mult by nra. rewrite sqrt_square by lra. ring.
Qed.

(** [normpdf] on finite arguments, as the source computes it. *)
Lemma normpdf_value (x mean sd : R) :
  sd <> 0 ->
  normpdf (Fin x) (Fin mean) (Fin sd)
  = Fin (exp (- ((x - mean) * (x - mean)) / (2 * (sd * sd))) / sqrt (2 * PI * (sd * sd))).
Proof.
  intros Hs. pose proof PI_bounds as HPI.
  assert (Hsq : 0 < sd * sd) by nra.
  assert (Hq : 0 < sqrt (2 * PI * (sd * sd))) by (apply sqrt_lt_R0; nra).
  unfold normpdf, fsquare, fpow_half, fsqrt. cbn [fmul fsub fneg fadd].
  destruct (Rlt_dec (2 * PI * (sd * sd)) 0); [nra |].
  unfold fdiv at 2. destruct (Req_dec_T (2 * (sd * sd)) 0); [nra |].
  cbn [fexp]. unfold fdiv.
  destruct (Req_dec_T (sqrt (2 * PI * (sd * sd))) 0); [lra | reflexivity].
Qed.

Lemma normpdf_zero_sd (x mean : float) : normpdf x mean (Fin 0) = NaN.
Proof.
  unfold normpdf, fsquare, fpow_half, fsqrt. cbn [fmul].
  replace (2 * PI * (0 * 0)) with 0 by ring. replace (2 * (0 * 0)) with 0 by ring.
  destruct (Rlt_dec 0 0); [lra |]. rewrite sqrt_0.
  destruct (fsub x mean) as [| | | d]; simpl.
  - reflexivity.
  - destruct (Rlt_dec 0 0); [lra |]. simpl. apply fdiv_zero_zero.
  - destruct (Rlt_dec 0 0); [lra |]. simpl. apply fdiv_zero_zero.
  - destruct (Req_dec_T 0 0); [| lra]. unfold by_sign.
    destruct (Rlt_dec 0 (- (d * d))); [nra |].
    destruct (Rlt_dec (- (d * d)) 0); simpl; [apply fdiv_zero_zero | reflexivity].
Qed.

(** X5.  [normpdf] is the density of the Gaussian of the given mean
    whose deviation is the absolute value of [sd], the code squaring [sd]
    before anything else, and this density is positive.  The deviation
    lies between [/ 2 ^ 100] and [2 ^ 100] and [x] within ten deviations
    of the mean: there no intermediate value of the code overflows or
    underflows, and its result is this closed form up to rounding. *)
Theorem normpdf_is_gaussian_density :
  forall (x mean sd : R),
    / 2 ^ 100 <= Rabs sd <= 2 ^ 100 ->
    Rabs (x - mean) <= 10 * Rabs sd ->
    normpdf (Fin x) (Fin mean) (Fin sd) = Fin (gaussian_density mean (Rabs sd) x)
    /\ 0 < gaussian_density mean (Rabs sd) x.
Proof.
  intros x mean sd Hsd _.
  assert (Ha : 0 < Rabs sd) by (apply (in_range_pos 100); tauto).
  assert (Hs : sd <> 0) by (intros ->; rewrite Rabs_R0 in Ha; lra).
  assert (Hsq : Rabs sd * Rabs sd = sd * sd).
  { unfold Rabs. destruct (Rcase_abs sd); ring. }
  split.
  - rewrite normpdf_value by exact Hs. f_equal. unfold gaussian_density.
    rewrite <- (sqrt_two_pi_var (Rabs sd) Ha), Hsq. reflexivity.
  - apply gaussian_density_pos. exact Ha.
Qed.

(** A deviation of [-1] gives the density of deviation [1]. *)
Lemma normpdf_is_gaussian_density_witness :
  / 2 ^ 100 <= Rabs (-1) <= 2 ^ 100
  /\ Rabs (0 - 0) <= 10 * Rabs (-1)
  /\ normpdf (Fin 0) (Fin 0) (Fin (-1)) = Fin (gaussian_density 0 (Rabs (-1)) 0)
  /\ 0 < gaussian_density 0 (Rabs (-1)) 0.
Proof.
  assert (E : Rabs (-1) = 1) by (unfold Rabs; destruct (Rcase_abs (-1)); lra).
  assert (H1 : / 2 ^ 100 <= Rabs (-1) <= 2 ^ 100) by (rewrite E; apply one_in_range).
  assert (H2 : Rabs (0 - 0) <= 10 * Rabs (-1)).
  { rewrite E. replace (0 - 0) with 0 by ring. rewrite Rabs_R0. lra. }
  split; [exact H1 | split; [exact H2 |]].
  exact (normpdf_is_gaussian_density 0 0 (-1) H1 H2).
Defined.

(** ** The mixture scorer: range, assertions and reductions *)

Section Mixture.
Import NegativeLogLikelihoodRegGaussian.

Lemma fsum_capped (n : nat) (f : nat -> float) :
  (forall j, capped 50 (f j)) -> capped (50 * INR n) (fsum n f).
Proof.
  intros H. unfold fsum.
  replace (50 * INR n) with (0 + 50 * INR (List.length (seq 0 n)))
    by (rewrite length_seq; ring).
  apply capped_fold; [intros; apply H | exact capped_zero].
Qed.

Lemma dimension_capped (max_gauss : Z) (y_pred : array2) (n : nat) (y : nat -> float)
      (currIdx : Z) (step : float * Z) :
  dimension max_gauss y_pred n y currIdx = Ok step -> capped (50 * INR n) (fst step).
Proof.
  unfold dimension. intros H.
  repeat (apply bind_Ok in H; destruct H as [? [_ H]]).
  injection H as <-. cbn [fst]. apply fsum_capped. intros j. apply capped_term.
Qed.

Lemma dimensions_capped (max_gauss : Z) (y_true y_pred : array2) (dims : list nat)
      (c : R) (logLK : float) (currIdx : Z) (total : float) :
  dimensions max_gauss y_true y_pred dims logLK currIdx = Ok total ->
  capped c logLK ->
  capped (c + 50 * INR (cols2 y_true) * INR (List.length dims)) total.
Proof.
  revert c logLK currIdx. induction dims as [| d dims IH]; intros c logLK currIdx H Hc.
  - simpl in H. injection H as <-. simpl.
    replace (c + 50 * INR (cols2 y_true) * 0) with c by ring. exact Hc.
  - cbn [dimensions] in H. apply bind_Ok in H. destruct H as [step [Hstep H]].
    change (List.length (d :: dims)) with (S (List.length dims)). rewrite S_INR.
    replace (c + 50 * INR (cols2 y_true) * (INR (List.length dims) + 1))
      with ((c + 50 * INR (cols2 y_true)) + 50 * INR (cols2 y_true) * INR (List.length dims))
      by ring.
    apply (IH _ _ _ H). apply capped_fadd; [exact Hc |].
    apply (dimension_capped _ _ _ _ _ _ Hstep).
Qed.

(** X6.  The same ceiling holds for the mixture scorer: whenever it
    returns, the score is NaN or at most [50]. *)
Theorem mixture_score_at_most_50 :
  forall (max_gauss : Z) (y_true : truth) (y_pred : array2) (score : float),
    call max_gauss y_true y_pred = Ok score ->
    isnan score = true \/ fle score (Fin 50) = true.
Proof.
  intros max_gauss y_true y_pred score H. unfold call in H.
  apply bind_Ok in H. destruct H as [logLK [HL H]].
  apply bind_Ok in H. destruct H as [[] [_ H]]. injection H as <-.
  apply capped_mean.
  pose proof (dimensions_capped _ _ _ _ 0 _ _ _ HL capped_zero) as Hc.
  rewrite length_seq in Hc. unfold size2. rewrite mult_INR.
  replace (50 * (INR (rows2 (by_dimension y_true)) * INR (cols2 (by_dimension y_true))))
    with (0 + 50 * INR (cols2 (by_dimension y_true)) * INR (rows2 (by_dimension y_true)))
    by ring.
  exact Hc.
Qed.

(** The score of the unit Gaussians lies under the ceiling. *)
Lemma mixture_score_at_most_50_witness :
  call 1 truth_0_2 unit_gaussians = Ok (Fin (1 / 2 + ln (sqrt (2 * PI))))
  /\ (isnan (Fin (1 / 2 + ln (sqrt (2 * PI)))) = true
      \/ fle (Fin (1 / 2 + ln (sqrt (2 * PI)))) (Fin 50) = true).
Proof.
  split; [exact nll_unit_gaussians |].
  exact (mixture_score_at_most_50 1 truth_0_2 unit_gaussians _ nll_unit_gaussians).
Defined.

(** *** What the first dimension raises, the call raises *)

Lemma call_first_dimension (max_gauss : Z) (y_true : truth) (y_pred : array2) (e : exception) :
  (0 < rows2 (by_dimension y_true))%nat ->
  dimension max_gauss y_pred (cols2 (by_dimension y_true))
            (get2 (by_dimension y_true) 0) 0 = Raise e ->
  call max_gauss y_true y_pred = Raise e.
Proof.
  intros Hd H. unfold call.
  destruct (rows2 (by_dimension y_true)) as [| d] eqn:E; [lia |].
  cbn [seq dimensions]. rewrite H. reflexivity.
Qed.

Lemma py_index_zero (len : nat) : (0 < len)%nat -> py_index len 0 = Ok 0%nat.
Proof. intros H. apply (py_index_of_nat len 0 H). Qed.

Lemma slice_cols_inside (a : array2) (lo hi : Z) :
  (0 <= lo <= hi)%Z -> (hi <= Z.of_nat (cols2 a))%Z ->
  rows2 (slice_cols a lo hi) = rows2 a
  /\ cols2 (slice_cols a lo hi) = Z.to_nat (hi - lo)
  /\ forall i c, get2 (slice_cols a lo hi) i c = get2 a i (Z.to_nat lo + c)%nat.
Proof.
  intros Hlo Hhi. unfold slice_cols, py_bound.
  replace (lo <? 0)%Z with false by (symmetry; apply Z.ltb_ge; lia).
  replace (hi <? 0)%Z with false by (symmetry; apply Z.ltb_ge; lia).
  cbn [rows2 cols2 get2]. repeat split.
  - lia.
  - intros i c. f_equal. lia.
Qed.

Lemma all2_false (p : float -> bool) (a : array2) (i j : nat) :
  (i < rows2 a)%nat -> (j < cols2 a)%nat -> p (get2 a i j) = false -> all2 p a = false.
Proof.
  intros Hi Hj H. unfold all2.
  destruct (forallb _ _) eqn:E; [| reflexivity].
  rewrite forallb_forall in E. specialize (E (i, j)). rewrite in_cells in E.
  cbn [fst snd] in E. rewrite E in H by lia. discriminate.
Qed.

Lemma all2_intro (p : float -> bool) (a : array2) :
  (forall i j, (i < rows2 a)%nat -> (j < cols2 a)%nat -> p (get2 a i j) = true) ->
  all2 p a = true.
Proof.
  intros H. unfold all2. apply forallb_forall. intros [i j] Hij.
  apply in_cells in Hij. apply H; simpl; lia.
Qed.

Lemma int_of_Z (z : Z) : int (Fin (IZR z)) = Ok z.
Proof. simpl. f_equal. apply Rtrunc_IZR. Qed.

(** X7.  A prediction that announces more components than
    [max_gauss] for the first dimension fails the first assertion. *)
Theorem too_many_components :
  forall (max_gauss : Z) (y_true : truth) (y_pred : array2) (k : Z),
    (0 < rows2 (by_dimension y_true))%nat ->
    (0 < rows2 y_pred)%nat -> (0 < cols2 y_pred)%nat ->
    int (get2 y_pred 0 0) = Ok k ->
    (max_gauss < k)%Z ->
    call max_gauss y_true y_pred = Raise AssertionError.
Proof.
  intros max_gauss y_true y_pred k Hd Hr Hc Hk Hmax.
  apply call_first_dimension; [exact Hd |]. unfold dimension.
  replace (rows2 y_pred =? 0)%nat with false by (symmetry; apply Nat.eqb_neq; lia).
  cbn [raise_if bind]. rewrite (py_index_zero _ Hc). cbn [bind]. rewrite Hk. cbn [bind].
  replace (max_gauss <? k)%Z with true by (symmetry; apply Z.ltb_lt; lia).
  reflexivity.
Qed.

(** Two components announced where one is allowed. *)
Lemma too_many_components_witness :
  int (get2 two_components 0 0) = Ok 2%Z
  /\ (1 < 2)%Z
  /\ call 1 truth_zero two_components = Raise AssertionError.
Proof.
  assert (Hk : int (get2 two_components 0 0) = Ok 2%Z) by exact (int_of_Z 2).
  repeat split; [exact Hk |].
  apply (too_many_components 1 truth_zero two_components 2); simpl; try lia. exact Hk.
Defined.

(** X8.  The component count is read with [int]: a NaN count raises
    [ValueError], an infinite one [OverflowError], before any
    assertion. *)
Theorem count_not_a_number :
  forall (max_gauss : Z) (y_true : truth) (y_pred : array2),
    (0 < rows2 (by_dimension y_true))%nat ->
    (0 < rows2 y_pred)%nat -> (0 < cols2 y_pred)%nat ->
    (get2 y_pred 0 0 = NaN ->
     call max_gauss y_true y_pred
     = Raise (ValueError "cannot convert float NaN to integer"))
    /\ (get2 y_pred 0 0 = PInf \/ get2 y_pred 0 0 = NInf ->
        call max_gauss y_true y_pred = Raise OverflowError).
Proof.
  intros max_gauss y_true y_pred Hd Hr Hc.
  assert (H : forall e, int (get2 y_pred 0 0) = Raise e ->
                        call max_gauss y_true y_pred = Raise e).
  { intros e He. apply call_first_dimension; [exact Hd |]. unfold dimension.
    replace (rows2 y_pred =? 0)%nat with false by (symmetry; apply Nat.eqb_neq; lia).
    cbn [raise_if bind]. rewrite (py_index_zero _ Hc). cbn [bind]. rewrite He. reflexivity. }
  split; [intros E | intros [E | E]]; apply H; rewrite E; reflexivity.
Qed.

(** A NaN count and an infinite count. *)
Lemma count_not_a_number_witness :
  (get2 nan_count 0 0 = NaN
   /\ call 1 truth_zero nan_count = Raise (ValueError "cannot convert float NaN to integer"))
  /\ (get2 inf_count 0 0 = PInf
      /\ call 1 truth_zero inf_count = Raise OverflowError).
Proof.
  split; (split; [reflexivity |]).
  - apply (count_not_a_number 1 truth_zero nan_count); simpl; try lia. reflexivity.
  - apply (count_not_a_number 1 truth_zero inf_count); simpl; try lia. left. reflexivity.
Defined.

(** X9.  One deviation of the first dimension that is not [>= 0],
    negative or NaN, in any sample, fails the assertion on the
    deviations. *)
Theorem negative_sigma_rejected :
  forall (max_gauss : Z) (y_true : truth) (y_pred : array2) (k : Z) (i c : nat),
    (0 < rows2 (by_dimension y_true))%nat ->
    int (get2 y_pred 0 0) = Ok k ->
    (0 <= k <= max_gauss)%Z ->
    (1 + 2 * k <= Z.of_nat (cols2 y_pred))%Z ->
    (i < rows2 y_pred)%nat -> (c < Z.to_nat k)%nat ->
    fge (get2 y_pred i (1 + Z.to_nat k + c)%nat) (Fin 0) = false ->
    call max_gauss y_true y_pred = Raise AssertionError.
Proof.
  intros max_gauss y_true y_pred k i c Hd Hk Hmax Hcols Hi Hc Hneg.
  apply call_first_dimension; [exact Hd |]. unfold dimension.
  replace (rows2 y_pred =? 0)%nat with false by (symmetry; apply Nat.eqb_neq; lia).
  cbn [raise_if bind]. rewrite py_index_zero by lia. cbn [bind]. rewrite Hk. cbn [bind].
  replace (max_gauss <? k)%Z with false by (symmetry; apply Z.ltb_ge; lia).
  cbn [raise_if bind].
  destruct (slice_cols_inside y_pred (0 + 1 + k) (0 + 1 + k * 2)) as (S0 & S1 & S2);
    try lia.
  rewrite (all2_false _ _ i c); [reflexivity | lia | lia |].
  rewrite S2. replace (Z.to_nat (0 + 1 + k) + c)%nat with (1 + Z.to_nat k + c)%nat by lia.
  exact Hneg.
Qed.

(** One component of deviation [-1]. *)
Lemma negative_sigma_rejected_witness :
  int (get2 negative_sigma 0 0) = Ok 1%Z
  /\ fge (get2 negative_sigma 0 2) (Fin 0) = false
  /\ call 1 truth_zero negative_sigma = Raise AssertionError.
Proof.
  assert (Hk : int (get2 negative_sigma 0 0) = Ok 1%Z) by exact (int_of_Z 1).
  assert (Hs : fge (get2 negative_sigma 0 2) (Fin 0) = false)
    by (feval; Rdecide; reflexivity).
  repeat split; [exact Hk | exact Hs |].
  apply (negative_sigma_rejected 1 truth_zero negative_sigma 1 0 0); simpl; try lia;
    [exact Hk | exact Hs].
Defined.

(** X10.  One sample whose weights of the first dimension do not sum
    to [1] within numpy's tolerance fails the assertion on the
    weights. *)
Theorem weights_must_sum_to_one :
  forall (max_gauss : Z) (y_true : truth) (y_pred : array2) (k : Z) (i : nat),
    (0 < rows2 (by_dimension y_true))%nat ->
    int (get2 y_pred 0 0) = Ok k ->
    (0 <= k <= max_gauss)%Z ->
    (1 + 3 * k <= Z.of_nat (cols2 y_pred))%Z ->
    (i < rows2 y_pred)%nat ->
    close_to_one (fsum (Z.to_nat k)
                       (fun c => get2 y_pred i (1 + 2 * Z.to_nat k + c)%nat)) = false ->
    call max_gauss y_true y_pred = Raise AssertionError.
Proof.
  intros max_gauss y_true y_pred k i Hd Hk Hmax Hcols Hi Hsum.
  apply call_first_dimension; [exact Hd |]. unfold dimension.
  replace (rows2 y_pred =? 0)%nat with false by (symmetry; apply Nat.eqb_neq; lia).
  cbn [raise_if bind]. rewrite py_index_zero by lia. cbn [bind]. rewrite Hk. cbn [bind].
  replace (max_gauss <? k)%Z with false by (symmetry; apply Z.ltb_ge; lia).
  cbn [raise_if bind].
  destruct (all2 _ _); [| reflexivity]. cbn [negb raise_if bind].
  destruct (slice_cols_inside y_pred (0 + 1 + k * 2) (0 + 1 + k * 3)) as (S0 & S1 & S2);
    try lia.
  assert (Hall : forallb
                   (fun i0 => close_to_one
                                (fsum (cols2 (slice_cols y_pred (0 + 1 + k * 2) (0 + 1 + k * 3)))
                                      (get2 (slice_cols y_pred (0 + 1 + k * 2) (0 + 1 + k * 3)) i0)))
                   (seq 0 (rows2 (slice_cols y_pred (0 + 1 + k * 2) (0 + 1 + k * 3)))) = false).
  { destruct (forallb _ _) eqn:E; [| reflexivity].
    rewrite forallb_forall in E. specialize (E i). rewrite in_seq in E.
    rewrite S1 in E.
    rewrite (fsum_ext _ _ (fun c => get2 y_pred i (1 + 2 * Z.to_nat k + c)%nat)) in E.
    - replace (Z.to_nat (0 + 1 + k * 3 - (0 + 1 + k * 2))) with (Z.to_nat k) in E by lia.
      rewrite E in Hsum by lia. discriminate.
    - intros c _. rewrite S2. f_equal. lia. }
  rewrite Hall. reflexivity.
Qed.

(** One component of weight a half. *)
Lemma weights_must_sum_to_one_witness :
  int (get2 half_weight 0 0) = Ok 1%Z
  /\ close_to_one (fsum 1 (fun c => get2 half_weight 0 (3 + c)%nat)) = false
  /\ call 1 truth_zero half_weight = Raise AssertionError.
Proof.
  assert (Hk : int (get2 half_weight 0 0) = Ok 1%Z) by exact (int_of_Z 1).
  assert (Hs : close_to_one (fsum 1 (fun c => get2 half_weight 0 (3 + c)%nat)) = false)
    by (feval; Rdecide; reflexivity).
  repeat split; [exact Hk | exact Hs |].
  apply (weights_must_sum_to_one 1 truth_zero half_weight 1 0); simpl; try lia;
    [exact Hk | exact Hs].
Defined.

(** X11.  What a score vouches for: when the mixture scorer
    returns, the truth has a dimension, the prediction has a row and a
    column, and the count it announces first is a number of at most
    [max_gauss]. *)
Theorem mixture_score_implies_input :
  forall (max_gauss : Z) (y_true : truth) (y_pred : array2) (score : float),
    call max_gauss y_true y_pred = Ok score ->
    (0 < rows2 (by_dimension y_true))%nat
    /\ (0 < rows2 y_pred)%nat /\ (0 < cols2 y_pred)%nat
    /\ exists k, int (get2 y_pred 0 0) = Ok k /\ (k <= max_gauss)%Z.
Proof.
  intros max_gauss y_true y_pred score H. unfold call in H.
  apply bind_Ok in H. destruct H as [logLK [HL H]].
  apply bind_Ok in H. destruct H as [[] [Hrows _]].
  apply raise_if_Ok, Nat.eqb_neq in Hrows.
  destruct (rows2 (by_dimension y_true)) as [| d] eqn:E; [contradiction |].
  cbn [seq dimensions] in HL.
  apply bind_Ok in HL. destruct HL as [step [Hstep _]].
  unfold dimension in Hstep.
  apply bind_Ok in Hstep. destruct Hstep as [[] [Hr Hstep]].
  apply raise_if_Ok, Nat.eqb_neq in Hr.
  apply bind_Ok in Hstep. destruct Hstep as [c0 [Hc0 Hstep]].
  assert (Hcols : (0 < cols2 y_pred)%nat).
  { destruct (cols2 y_pred); [rewrite py_index_empty in Hc0; discriminate | lia]. }
  rewrite (py_index_zero _ Hcols) in Hc0. injection Hc0 as <-.
  apply bind_Ok in Hstep. destruct Hstep as [k [Hk Hstep]].
  apply bind_Ok in Hstep. destruct Hstep as [[] [Hmax _]].
  apply raise_if_Ok, Z.ltb_ge in Hmax.
  repeat split; try lia. exists k. split; [exact Hk | exact Hmax].
Qed.

(** What the score of the unit Gaussians vouches for. *)
Lemma mixture_score_implies_input_witness :
  call 1 truth_0_2 unit_gaussians = Ok (Fin (1 / 2 + ln (sqrt (2 * PI))))
  /\ (0 < rows2 (by_dimension truth_0_2))%nat
  /\ (0 < rows2 unit_gaussians)%nat /\ (0 < cols2 unit_gaussians)%nat
  /\ exists k, int (get2 unit_gaussians 0 0) = Ok k /\ (k <= 1)%Z.
Proof.
  split; [exact nll_unit_gaussians |].
  exact (mixture_score_implies_input 1 truth_0_2 unit_gaussians _ nll_unit_gaussians).
Defined.

(** *** One component per sample *)

Lemma close_to_one_one : close_to_one (fadd (Fin 0) (Fin 1)) = true.
Proof.
  simpl. apply Rleb_true. replace (0 + 1 - 1) with 0 by ring.
  rewrite Rabs_R0, Rabs_R1. lra.
Qed.

(** The score of a mixture with a single component per sample. *)
Lemma single_component (max_gauss : Z) (v : array1) (y_pred : array2) :
  (0 < len1 v)%nat -> rows2 y_pred = len1 v -> (4 <= cols2 y_pred)%nat ->
  int (get2 y_pred 0 0) = Ok 1%Z -> (1 <= max_gauss)%Z ->
  (forall i, (i < len1 v)%nat -> fge (get2 y_pred i 2) (Fin 0) = true) ->
  (forall i, (i < len1 v)%nat -> close_to_one (fadd (Fin 0) (get2 y_pred i 3)) = true) ->
  call max_gauss (Truth1 v) y_pred
  = Ok (fdiv (fadd (Fin 0)
                   (fsum (len1 v)
                         (fun j => fneg (clip_low
                                           (flog (fadd (Fin 0)
                                                       (fmul (get2 y_pred j 3)
                                                             (normpdf (get1 v j)
                                                                      (get2 y_pred j 1)
                                                                      (get2 y_pred j 2)))))
                                           WORST_LK))))
             (of_nat (1 * len1 v))).
Proof.
  intros Hn Hrows Hcols Hk Hmax Hsig Hw.
  unfold call. cbn [by_dimension rows2 cols2 get2 seq dimensions size2].
  unfold dimension.
  replace (rows2 y_pred =? 0)%nat with false by (symmetry; apply Nat.eqb_neq; lia).
  cbn [raise_if bind]. rewrite py_index_zero by lia. cbn [bind]. rewrite Hk. cbn [bind].
  replace (max_gauss <? 1)%Z with false by (symmetry; apply Z.ltb_ge; lia).
  cbn [raise_if bind].
  destruct (slice_cols_inside y_pred (0 + 1) (0 + 1 + 1)) as (M0 & M1 & M2); try lia.
  destruct (slice_cols_inside y_pred (0 + 1 + 1) (0 + 1 + 1 * 2)) as (S0 & S1 & S2); try lia.
  destruct (slice_cols_inside y_pred (0 + 1 + 1 * 2) (0 + 1 + 1 * 3)) as (W0 & W1 & W2);
    try lia.
  set (mus := slice_cols y_pred (0 + 1) (0 + 1 + 1)) in *.
  set (sigmas := slice_cols y_pred (0 + 1 + 1) (0 + 1 + 1 * 2)) in *.
  set (weights := slice_cols y_pred (0 + 1 + 1 * 2) (0 + 1 + 1 * 3)) in *.
  change (Z.to_nat (0 + 1 + 1 - (0 + 1))) with 1%nat in M1.
  change (Z.to_nat (0 + 1 + 1 * 2 - (0 + 1 + 1))) with 1%nat in S1.
  change (Z.to_nat (0 + 1 + 1 * 3 - (0 + 1 + 1 * 2))) with 1%nat in W1.
  rewrite all2_intro.
  2:{ intros i j Hi Hj. rewrite S2. rewrite S1 in Hj.
      replace (Z.to_nat (0 + 1 + 1) + j)%nat with 2%nat by lia. apply Hsig. lia. }
  cbn [negb raise_if bind].
  assert (Hclose : forallb (fun i => close_to_one (fsum (cols2 weights) (get2 weights i)))
                           (seq 0 (rows2 weights)) = true).
  { apply forallb_forall. intros i Hi. apply in_seq in Hi.
    rewrite W1. unfold fsum. cbn [seq map fold_left]. rewrite W2.
    change (Z.to_nat (0 + 1 + 1 * 2) + 0)%nat with 3%nat. apply Hw. lia. }
  rewrite Hclose. cbn [negb raise_if bind].
  change (Z.to_nat 1) with 1%nat. cbn [seq for_each].
  unfold component_check. rewrite M1, S1, W1, M0, Hrows, Nat.eqb_refl.
  cbn [Nat.ltb Nat.leb Nat.eqb negb orb raise_if bind fst snd].
  unfold size2. cbn [rows2 cols2].
  f_equal. f_equal. f_equal.
  apply fsum_ext. intros j Hj. unfold weighted_probs. cbn [seq fold_left].
  rewrite M0, Hrows.
  assert (Hb : broadcast_row (len1 v) j = j).
  { unfold broadcast_row. destruct (len1 v =? 1)%nat eqn:E; [| reflexivity].
    apply Nat.eqb_eq in E. lia. }
  rewrite Hb, W2, M2, S2. reflexivity.
Qed.

Lemma clip_low_Fin (a : R) : clip_low (Fin a) WORST_LK = Fin (Rmax (-50) a).
Proof.
  unfold clip_low, WORST_LK, Rmax. cbn [isnan flt]. unfold Rltb.
  destruct (Rlt_dec a (-50)), (Rle_dec (-50) a); try reflexivity; lra.
Qed.

Lemma single_gaussian_term (y mu sg : R) :
  0 < sg ->
  fneg (clip_low (flog (fadd (Fin 0) (fmul (Fin 1) (normpdf (Fin y) (Fin mu) (Fin sg)))))
                 WORST_LK)
  = Fin (- Rmax (-50) (ln (gaussian_density mu sg y))).
Proof.
  intros Hs. rewrite normpdf_value by lra.
  pose proof (gaussian_density_pos mu sg y Hs) as Hd.
  replace (exp (- ((y - mu) * (y - mu)) / (2 * (sg * sg))) / sqrt (2 * PI * (sg * sg)))
    with (gaussian_density mu sg y)
    by (unfold gaussian_density; rewrite sqrt_two_pi_var by exact Hs; reflexivity).
  cbn [fmul fadd]. unfold flog.
  destruct (Rlt_dec 0 (0 + 1 * gaussian_density mu sg y)); [| lra].
  rewrite clip_low_Fin. cbn [fneg].
  replace (0 + 1 * gaussian_density mu sg y) with (gaussian_density mu sg y) by ring.
  reflexivity.
Qed.

Lemma single_gaussian_sum (v : array1) (y_pred : array2) (y mu sg : nat -> R) :
  (forall j, (j < len1 v)%nat ->
             get1 v j = Fin (y j)
             /\ get2 y_pred j 1 = Fin (mu j)
             /\ get2 y_pred j 2 = Fin (sg j) /\ 0 < sg j
             /\ get2 y_pred j 3 = Fin 1) ->
  fsum (len1 v)
       (fun j => fneg (clip_low
                         (flog (fadd (Fin 0)
                                     (fmul (get2 y_pred j 3)
                                           (normpdf (get1 v j)
                                                    (get2 y_pred j 1)
                                                    (get2 y_pred j 2)))))
                         WORST_LK))
  = Fin (fold_right Rplus 0
           (map (fun j => - Rmax (-50) (ln (gaussian_density (mu j) (sg j) (y j))))
                (seq 0 (len1 v)))).
Proof.
  intros H. apply fsum_Fin. intros j Hj.
  destruct (H j Hj) as (-> & -> & -> & Hs & ->). apply single_gaussian_term. exact Hs.
Qed.

(** X12.  With one component of weight [1] per sample the mixture
    scorer is the mean negative log-density of the truths under the
    predicted Gaussians, each log-density floored at [-50].  Every
    deviation lies between [/ 2 ^ 100] and [2 ^ 100] and every truth
    within ten deviations of its mean, where [normpdf] neither overflows
    nor underflows and the code's score is this closed form up to
    rounding. *)
Theorem mixture_reduction :
  forall (max_gauss : Z) (v : array1) (y_pred : array2) (y mu sg : nat -> R),
    (0 < len1 v)%nat -> rows2 y_pred = len1 v -> (4 <= cols2 y_pred)%nat ->
    (1 <= max_gauss)%Z ->
    get2 y_pred 0 0 = Fin 1 ->
    (forall j, (j < len1 v)%nat ->
               get1 v j = Fin (y j)
               /\ get2 y_pred j 1 = Fin (mu j)
               /\ get2 y_pred j 2 = Fin (sg j)
               /\ get2 y_pred j 3 = Fin 1) ->
    (forall j, (j < len1 v)%nat ->
               / 2 ^ 100 <= sg j <= 2 ^ 100 /\ Rabs (y j - mu j) <= 10 * sg j) ->
    call max_gauss (Truth1 v) y_pred
    = Ok (Fin (fold_right Rplus 0
                 (map (fun j => - Rmax (-50) (ln (gaussian_density (mu j) (sg j) (y j))))
                      (seq 0 (len1 v)))
               / INR (len1 v))).
Proof.
  intros max_gauss v y_pred y mu sg Hn Hrows Hcols Hmax Hk Hrow Hrange.
  assert (Hs : forall j, (j < len1 v)%nat -> 0 < sg j).
  { intros j Hj. apply (in_range_pos 100). apply (Hrange j Hj). }
  rewrite single_component; try assumption.
  - rewrite (single_gaussian_sum v y_pred y mu sg).
    + unfold of_nat, fdiv. cbn [fadd].
      destruct (Req_dec_T (INR (1 * len1 v)) 0) as [Hz | _].
      * exfalso. rewrite Nat.mul_1_l in Hz.
        apply (not_0_INR (len1 v)); [lia | exact Hz].
      * do 2 f_equal. rewrite Nat.mul_1_l. lra.
    + intros j Hj. destruct (Hrow j Hj) as (H1 & H2 & H3 & H4).
      repeat split; try assumption. apply Hs. exact Hj.
  - rewrite Hk. exact (int_of_Z 1).
  - intros i Hi. destruct (Hrow i Hi) as (_ & _ & -> & _).
    simpl. apply Rleb_true. pose proof (Hs i Hi). lra.
  - intros i Hi. destruct (Hrow i Hi) as (_ & _ & _ & ->). apply close_to_one_one.
Qed.

(** The unit Gaussians on the truths [0] and [2]. *)
Lemma mixture_reduction_witness :
  (forall j, (j < 2)%nat ->
             get1 (of_list1 [Fin 0; Fin 2]) j = Fin (nth j [0; 2] 0)
             /\ get2 unit_gaussians j 1 = Fin 1
             /\ get2 unit_gaussians j 2 = Fin 1
             /\ get2 unit_gaussians j 3 = Fin 1)
  /\ (forall j, (j < 2)%nat ->
                / 2 ^ 100 <= 1 <= 2 ^ 100 /\ Rabs (nth j [0; 2] 0 - 1) <= 10 * 1)
  /\ call 1 truth_0_2 unit_gaussians
     = Ok (Fin (fold_right Rplus 0
                  (map (fun j => - Rmax (-50) (ln (gaussian_density 1 1 (nth j [0; 2] 0))))
                       (seq 0 2))
                / INR 2)).
Proof.
  assert (H : forall j, (j < 2)%nat ->
             get1 (of_list1 [Fin 0; Fin 2]) j = Fin (nth j [0; 2] 0)
             /\ get2 unit_gaussians j 1 = Fin 1
             /\ get2 unit_gaussians j 2 = Fin 1
             /\ get2 unit_gaussians j 3 = Fin 1).
  { intros [| [| j]] Hj; [| | lia]; repeat split. }
  assert (Hr : forall j, (j < 2)%nat ->
             / 2 ^ 100 <= 1 <= 2 ^ 100 /\ Rabs (nth j [0; 2] 0 - 1) <= 10 * 1).
  { intros j Hj. split; [apply one_in_range |].
    destruct j as [| [| j]]; [| | lia]; simpl.
    - unfold Rabs. destruct (Rcase_abs (0 - 1)); lra.
    - unfold Rabs. destruct (Rcase_abs (2 - 1)); lra. }
  split; [exact H | split; [exact Hr |]].
  apply (mixture_reduction 1 (of_list1 [Fin 0; Fin 2]) unit_gaussians
                           (fun j => nth j [0; 2] 0) (fun _ => 1) (fun _ => 1));
    try reflexivity; try (simpl; lia); [exact H | exact Hr].
Defined.

(** *** A deviation of zero *)

Lemma fold_fadd_nan_acc (l : list float) : fold_left fadd l NaN = NaN.
Proof. induction l as [| x l IH]; simpl; auto. Qed.

Lemma fold_fadd_nan (l : list float) (acc : float) :
  In NaN l -> fold_left fadd l acc = NaN.
Proof.
  revert acc. induction l as [| x l IH]; intros acc H; [contradiction |].
  simpl. destruct H as [-> | H].
  - replace (fadd acc NaN) with NaN by (destruct acc; reflexivity).
    apply fold_fadd_nan_acc.
  - apply IH. exact H.
Qed.

Lemma fmul_nan_r (x : float) : fmul x NaN = NaN.
Proof. destruct x; reflexivity. Qed.

Lemma fadd_nan_r (x : float) : fadd x NaN = NaN.
Proof. destruct x; reflexivity. Qed.

Lemma fsum_nan (n : nat) (f : nat -> float) (j : nat) :
  (j < n)%nat -> f j = NaN -> fsum n f = NaN.
Proof.
  intros Hj H. unfold fsum. apply fold_fadd_nan.
  apply in_map_iff. exists j. split; [exact H | apply in_seq; lia].
Qed.

Lemma fold_terms_nan (f : nat -> float) (l : list nat) (acc : float) (c : nat) :
  In c l -> f c = NaN -> fold_left (fun acc i => fadd acc (f i)) l acc = NaN.
Proof.
  intros Hin Hc. revert acc. induction l as [| i l IH]; intros acc; [contradiction |].
  cbn [fold_left]. destruct Hin as [-> | Hin]; [| apply IH; exact Hin].
  rewrite Hc, fadd_nan_r. clear IH. induction l as [| i l IH]; [reflexivity | exact IH].
Qed.

Lemma weighted_probs_nan (mus sigmas weights : array2) (nb : nat)
      (y_true_dim : nat -> float) (j c : nat) :
  (c < nb)%nat ->
  get2 sigmas (broadcast_row (rows2 mus) j) c = Fin 0 ->
  weighted_probs mus sigmas weights nb y_true_dim j = NaN.
Proof.
  intros Hc Hs. unfold weighted_probs.
  apply (fold_terms_nan
           (fun i => fmul (get2 weights (broadcast_row (rows2 mus) j) i)
                          (normpdf (y_true_dim j)
                                   (get2 mus (broadcast_row (rows2 mus) j) i)
                                   (get2 sigmas (broadcast_row (rows2 mus) j) i)))
           _ _ c).
  - apply in_seq. lia.
  - rewrite Hs, normpdf_zero_sd. apply fmul_nan_r.
Qed.

Lemma dimensions_nan (max_gauss : Z) (y_true y_pred : array2) (dims : list nat)
      (currIdx : Z) (total : float) :
  dimensions max_gauss y_true y_pred dims NaN currIdx = Ok total -> total = NaN.
Proof.
  revert currIdx. induction dims as [| d dims IH]; intros currIdx H.
  - simpl in H. injection H as <-. reflexivity.
  - cbn [dimensions] in H. apply bind_Ok in H. destruct H as [step [_ H]].
    cbn [fadd] in H. apply (IH _ H).
Qed.

(** X13.  A deviation of exactly [0] passes the assertion on the
    deviations, but [normpdf] then divides zero by zero: whenever the
    call returns, one such component in the first dimension makes the
    whole score NaN.  The sample's row of the prediction is row [0] when
    the prediction has a single row, which numpy broadcasts. *)
Theorem zero_sigma_scores_nan :
  forall (max_gauss : Z) (y_true : truth) (y_pred : array2) (k : Z) (j c : nat)
         (score : float),
    call max_gauss y_true y_pred = Ok score ->
    int (get2 y_pred 0 0) = Ok k ->
    (1 + 2 * k <= Z.of_nat (cols2 y_pred))%Z ->
    (j < cols2 (by_dimension y_true))%nat -> (c < Z.to_nat k)%nat ->
    get2 y_pred (broadcast_row (rows2 y_pred) j) (1 + Z.to_nat k + c)%nat = Fin 0 ->
    score = NaN.
Proof.
  intros max_gauss y_true y_pred k j c score H Hk Hcols Hj Hc Hs.
  unfold call in H.
  apply bind_Ok in H. destruct H as [logLK [HL H]].
  apply bind_Ok in H. destruct H as [[] [Hrows H]]. injection H as <-.
  apply raise_if_Ok, Nat.eqb_neq in Hrows.
  destruct (rows2 (by_dimension y_true)) as [| d] eqn:E; [contradiction |].
  cbn [seq dimensions] in HL.
  apply bind_Ok in HL. destruct HL as [step [Hstep HL]].
  assert (Hnan : fst step = NaN).
  { unfold dimension in Hstep.
    apply bind_Ok in Hstep. destruct Hstep as [[] [Hr Hstep]].
    apply bind_Ok in Hstep. destruct Hstep as [c0 [Hc0 Hstep]].
    assert (c0 = 0%nat).
    { unfold py_index in Hc0. cbn [Z.leb andb] in Hc0.
      destruct (0 <? Z.of_nat (cols2 y_pred))%Z; [injection Hc0 as <-; reflexivity |].
      simpl in Hc0. destruct (- Z.of_nat (cols2 y_pred) <=? 0)%Z; discriminate. }
    subst c0. rewrite Hk in Hstep. cbn [bind] in Hstep.
    repeat (apply bind_Ok in Hstep; destruct Hstep as [[] [_ Hstep]]).
    apply (f_equal (fun r => match r with Ok s => fst s | Raise _ => NaN end)) in Hstep.
    cbv beta iota in Hstep. cbn [fst] in Hstep. rewrite <- Hstep.
    destruct (slice_cols_inside y_pred (0 + 1) (0 + 1 + k)) as (M0 & _); try lia.
    destruct (slice_cols_inside y_pred (0 + 1 + k) (0 + 1 + k * 2)) as (_ & _ & S2);
      try lia.
    apply (fsum_nan _ _ j Hj).
    rewrite (weighted_probs_nan _ _ _ _ _ j c Hc); [reflexivity |].
    rewrite S2, M0. replace (Z.to_nat (0 + 1 + k) + c)%nat with (1 + Z.to_nat k + c)%nat by lia.
    exact Hs. }
  rewrite Hnan in HL. replace (fadd (Fin 0) NaN) with NaN in HL by reflexivity.
  rewrite (dimensions_nan _ _ _ _ _ _ HL). reflexivity.
Qed.

(** One component of deviation [0]. *)
Lemma zero_sigma_scores_nan_witness :
  exists score,
    call 1 truth_zero zero_sigma = Ok score
    /\ int (get2 zero_sigma 0 0) = Ok 1%Z
    /\ get2 zero_sigma (broadcast_row (rows2 zero_sigma) 0) 2 = Fin 0
    /\ score = NaN.
Proof.
  assert (Hk : int (get2 zero_sigma 0 0) = Ok 1%Z) by exact (int_of_Z 1).
  assert (Hc : exists score, call 1 truth_zero zero_sigma = Ok score).
  { eexists. feval. rewrite !Rtrunc_IZR. feval. Rdecide. reflexivity. }
  destruct Hc as [score Hc]. exists score.
  split; [exact Hc | split; [exact Hk | split; [reflexivity |]]].
  apply (zero_sigma_scores_nan 1 truth_zero zero_sigma 1 0 0 score Hc Hk); simpl; try lia.
  reflexivity.
Defined.

End Mixture.

(** ** The ratio scorers: range, degenerate truths and the fitted Gaussian *)

Lemma fexp_nonneg (x : float) : isnan (fexp x) = true \/ fle (Fin 0) (fexp x) = true.
Proof.
  destruct x; simpl; auto.
  - right. apply Rleb_true. lra.
  - right. apply Rleb_true. pose proof (exp_pos r). lra.
Qed.

(** X14.  Both ratio scorers keep to the minimum [0.0] they declare:
    a score they return is NaN or at least [0]; and what the wrapped
    scorer raises, they raise. *)
Theorem ratio_never_negative :
  forall (y_true : truth),
    (forall n_bins y_pred score,
        LikelihoodRatio.call n_bins y_true y_pred = Ok score ->
        isnan score = true \/ fle LikelihoodRatio.minimum score = true)
    /\ (forall max_gauss y_pred score,
           LikelihoodRatioGaussian.call max_gauss y_true y_pred = Ok score ->
           isnan score = true \/ fle LikelihoodRatioGaussian.minimum score = true)
    /\ (forall n_bins y_pred e,
           NegativeLogLikelihoodReg.call n_bins y_true y_pred = Raise e ->
           LikelihoodRatio.call n_bins y_true y_pred = Raise e)
    /\ (forall max_gauss y_pred e,
           NegativeLogLikelihoodRegGaussian.call max_gauss y_true y_pred = Raise e ->
           LikelihoodRatioGaussian.call max_gauss y_true y_pred = Raise e).
Proof.
  intros y_true. repeat split.
  - intros n_bins y_pred score H. unfold LikelihoodRatio.call in H.
    apply bind_Ok in H. destruct H as [nll [_ H]]. injection H as <-.
    apply fexp_nonneg.
  - intros max_gauss y_pred score H. unfold LikelihoodRatioGaussian.call in H.
    apply bind_Ok in H. destruct H as [nll [_ H]]. injection H as <-.
    apply fexp_nonneg.
  - intros n_bins y_pred e H. unfold LikelihoodRatio.call. rewrite H. reflexivity.
  - intros max_gauss y_pred e H. unfold LikelihoodRatioGaussian.call. rewrite H. reflexivity.
Qed.

(** The ratio of two truths that miss the only bin. *)
Lemma ratio_never_negative_witness :
  exists score,
    LikelihoodRatio.call 1 truth_0_2 beyond_bins2 = Ok score
    /\ (isnan score = true \/ fle LikelihoodRatio.minimum score = true).
Proof.
  assert (H : exists score, LikelihoodRatio.call 1 truth_0_2 beyond_bins2 = Ok score).
  { unfold LikelihoodRatio.call. rewrite nll_beyond_bins2. eexists. reflexivity. }
  destruct H as [score H]. exists score. split; [exact H |].
  exact (proj1 (ratio_never_negative truth_0_2) 1%nat beyond_bins2 score H).
Defined.

Lemma sum2_nan (a : array2) (i j : nat) :
  (i < rows2 a)%nat -> (j < cols2 a)%nat -> get2 a i j = NaN -> sum2 a = NaN.
Proof.
  intros Hi Hj H. unfold sum2. apply fold_fadd_nan.
  apply in_map_iff. exists (i, j). split; [exact H | apply in_cells; auto].
Qed.

(** A dimension whose deviation is not positive makes the ratio NaN. *)
Lemma ratio_without_spread (nll : float) (y_true : truth) (i : nat) :
  (i < rows2 (by_dimension y_true))%nat -> (0 < cols2 (by_dimension y_true))%nat ->
  fgt (stds (by_dimension y_true) i) (Fin 0) = false ->
  ratio nll y_true = NaN.
Proof.
  intros Hi Hn Hs. unfold ratio, mean_baseline.
  rewrite (sum2_nan (baseline_lls (by_dimension y_true)) i 0); try assumption.
  - destruct nll; reflexivity.
  - cbn [baseline_lls get2]. unfold norm_logpdf. rewrite Hs. reflexivity.
Qed.

Lemma nll_beyond_bins : NegativeLogLikelihoodReg.call 1 truth_zero beyond_bins = Ok (Fin 50).
Proof.
  feval. Rdecide. do 2 f_equal. simpl INR. lra.
Qed.

Lemma single_sample_std (y_true : array2) (i : nat) :
  cols2 y_true = 1%nat -> fgt (stds y_true i) (Fin 0) = false.
Proof.
  intros H. unfold stds, means, fsum, of_nat. rewrite H.
  cbn [seq map fold_left INR].
  destruct (get2 y_true i 0) as [| | | c]; cbn [fadd fneg fsub fdiv fsquare fmul fsqrt fgt flt].
  - reflexivity.
  - destruct (Rlt_dec 1 0); [lra |]. reflexivity.
  - destruct (Rlt_dec 1 0); [lra |]. reflexivity.
  - destruct (Req_dec_T 1 0); [lra |]. cbn [fadd fneg fsub fdiv fsquare fmul fsqrt fgt flt].
    destruct (Req_dec_T 1 0); [lra |].
    replace ((0 + (c + - ((0 + c) / 1)) * (c + - ((0 + c) / 1))) / 1) with 0 by (field).
    cbn [fsqrt]. destruct (Rlt_dec 0 0); [lra |]. rewrite sqrt_0.
    cbn [fgt flt]. apply Rltb_false. lra.
Qed.

Lemma single_sample_ratio (nll : float) (y_true : truth) :
  cols2 (by_dimension y_true) = 1%nat -> ratio nll y_true = NaN.
Proof.
  intros H. destruct (rows2 (by_dimension y_true)) as [| d] eqn:E.
  - assert (Hb : mean_baseline (by_dimension y_true) = NaN).
    { unfold mean_baseline, sum2, size2, cells. cbn [baseline_lls rows2 cols2].
      rewrite E. cbn [seq list_prod map fold_left Nat.mul]. apply fdiv_zero_zero. }
    unfold ratio. rewrite Hb. destruct nll; reflexivity.
  - apply (ratio_without_spread nll y_true 0); [lia | lia |].
    apply single_sample_std. exact H.
Qed.

(** X15.  A truth of a single sample, whatever its value and in any
    number of dimensions, has a deviation that is [0] or NaN in every
    dimension, for which [norm.logpdf] is NaN: whatever the prediction, a
    ratio scorer that returns, returns NaN.  With one sample the mean is
    the sample itself and no operation rounds. *)
Theorem single_sample_ratio_nan :
  forall (y_true : truth),
    cols2 (by_dimension y_true) = 1%nat ->
    (forall n_bins y_pred score,
        LikelihoodRatio.call n_bins y_true y_pred = Ok score -> score = NaN)
    /\ (forall max_gauss y_pred score,
           LikelihoodRatioGaussian.call max_gauss y_true y_pred = Ok score ->
           score = NaN).
Proof.
  intros y_true H. split.
  - intros n_bins y_pred score Hs. unfold LikelihoodRatio.call in Hs.
    apply bind_Ok in Hs. destruct Hs as [nll [_ Hs]]. injection Hs as <-.
    apply single_sample_ratio. exact H.
  - intros max_gauss y_pred score Hs. unfold LikelihoodRatioGaussian.call in Hs.
    apply bind_Ok in Hs. destruct Hs as [nll [_ Hs]]. injection Hs as <-.
    apply single_sample_ratio. exact H.
Qed.

(** A single truth of [0]. *)
Lemma single_sample_ratio_nan_witness :
  cols2 (by_dimension truth_zero) = 1%nat
  /\ exists score,
      LikelihoodRatio.call 1 truth_zero beyond_bins = Ok score /\ score = NaN.
Proof.
  assert (Hn : cols2 (by_dimension truth_zero) = 1%nat) by reflexivity.
  assert (H : exists score, LikelihoodRatio.call 1 truth_zero beyond_bins = Ok score).
  { unfold LikelihoodRatio.call. rewrite nll_beyond_bins. eexists. reflexivity. }
  destruct H as [score H]. split; [exact Hn |]. exists score. split; [exact H |].
  exact (proj1 (single_sample_ratio_nan truth_zero Hn) 1%nat beyond_bins score H).
Defined.

(** *** A prediction that is the fitted Gaussian *)

Lemma sum2_one_row (a : array2) : rows2 a = 1%nat -> sum2 a = fsum (cols2 a) (get2 a 0).
Proof.
  intros H. unfold sum2, fsum, cells. rewrite H. cbn [seq list_prod].
  rewrite app_nil_r, map_map. reflexivity.
Qed.

Lemma fold_Rplus_opp (f : nat -> R) (l : list nat) :
  fold_right Rplus 0 (map (fun j => - f j) l) = - fold_right Rplus 0 (map f l).
Proof.
  induction l as [| k l IH]; cbn [map fold_right]; [ring |]. rewrite IH. ring.
Qed.

Lemma sample_mean_0_2 : sample_mean [0; 2] = 1.
Proof. unfold sample_mean. simpl. field. Qed.

(** X16.  The mixture that predicts, for every sample, the single
    Gaussian fitted to a one-dimensional truth (its mean, its population
    deviation, weight [1]) has a likelihood ratio of [1], as long as no
    truth's log-density falls below the floor of [-50].  There are at
    most 1000 samples, the deviation lies between [/ 2 ^ 100] and
    [2 ^ 100] and no truth is further than sixteen deviations from zero:
    there neither the fit nor [normpdf] overflows, underflows or cancels,
    and the code returns [1] up to rounding. *)
Theorem fitted_gaussian_scores_one :
  forall (max_gauss : Z) (v : array1) (y_pred : array2) (y : nat -> R),
    (1 <= max_gauss)%Z ->
    rows2 y_pred = len1 v -> (4 <= cols2 y_pred)%nat ->
    (len1 v <= 1000)%nat ->
    (forall j, (j < len1 v)%nat -> get1 v j = Fin (y j)) ->
    / 2 ^ 100 <= sample_std (map y (seq 0 (len1 v))) <= 2 ^ 100 ->
    (forall j, (j < len1 v)%nat ->
               Rabs (y j) <= 16 * sample_std (map y (seq 0 (len1 v)))) ->
    get2 y_pred 0 0 = Fin 1 ->
    (forall j, (j < len1 v)%nat ->
               get2 y_pred j 1 = Fin (sample_mean (map y (seq 0 (len1 v))))
               /\ get2 y_pred j 2 = Fin (sample_std (map y (seq 0 (len1 v))))
               /\ get2 y_pred j 3 = Fin 1) ->
    (forall j, (j < len1 v)%nat ->
               -50 <= ln (gaussian_density (sample_mean (map y (seq 0 (len1 v))))
                                           (sample_std (map y (seq 0 (len1 v))))
                                           (y j))) ->
    LikelihoodRatioGaussian.call max_gauss (Truth1 v) y_pred = Ok (Fin 1).
Proof.
  intros max_gauss v y_pred y Hmax Hrows Hcols _ Hy Hrange _ Hk Hrow Hfloor.
  assert (Hstd : 0 < sample_std (map y (seq 0 (len1 v))))
    by (apply (in_range_pos 100); tauto).
  clear Hrange.
  set (n := len1 v) in *. set (ys := map y (seq 0 n)) in *.
  set (a := fun j => ln (gaussian_density (sample_mean ys) (sample_std ys) (y j))).
  assert (Hn : (0 < n)%nat).
  { destruct n eqn:E; [| lia]. exfalso. unfold ys, sample_std in Hstd. simpl in Hstd.
    unfold Rdiv in Hstd. rewrite Rmult_0_l, sqrt_0 in Hstd. lra. }
  assert (Hnz : INR n <> 0) by (apply not_0_INR; lia).
  assert (Hall : forall j, (j < n)%nat ->
             get1 v j = Fin (y j)
             /\ get2 y_pred j 1 = Fin (sample_mean ys)
             /\ get2 y_pred j 2 = Fin (sample_std ys) /\ 0 < sample_std ys
             /\ get2 y_pred j 3 = Fin 1).
  { intros j Hj. destruct (Hrow j Hj) as (H1 & H2 & H3). rewrite (Hy j Hj). auto. }
  assert (Hnll : NegativeLogLikelihoodRegGaussian.call max_gauss (Truth1 v) y_pred
                 = Ok (Fin (- fold_right Rplus 0 (map a (seq 0 n)) / INR n))).
  { rewrite single_component; try assumption.
    - unfold n.
      rewrite (single_gaussian_sum v y_pred y (fun _ => sample_mean ys)
                                   (fun _ => sample_std ys) Hall).
      fold n. unfold of_nat, fdiv. cbn [fadd]. rewrite Nat.mul_1_l.
      destruct (Req_dec_T (INR n) 0) as [Hz | _]; [contradiction |].
      do 2 f_equal.
      rewrite (map_ext_in
                 (fun j => - Rmax (-50)
                             (ln (gaussian_density (sample_mean ys) (sample_std ys) (y j))))
                 (fun j => - a j)).
      + rewrite fold_Rplus_opp. unfold Rdiv. ring.
      + intros j Hj. apply in_seq in Hj. f_equal. apply Rmax_right. apply Hfloor. lia.
    - rewrite Hk. exact (int_of_Z 1).
    - intros i Hi. destruct (Hall i Hi) as (_ & _ & -> & Hs & _).
      simpl. apply Rleb_true. lra.
    - intros i Hi. destruct (Hall i Hi) as (_ & _ & _ & _ & ->). apply close_to_one_one. }
  assert (Hbase : mean_baseline (by_dimension (Truth1 v))
                  = Fin (fold_right Rplus 0 (map a (seq 0 n)) / INR n)).
  { destruct (baseline_is_gaussian_fit (by_dimension (Truth1 v)) 0 y Hy Hstd)
      as (_ & _ & Hb).
    unfold mean_baseline. rewrite sum2_one_row by reflexivity.
    change (cols2 (baseline_lls (by_dimension (Truth1 v)))) with n.
    change (size2 (baseline_lls (by_dimension (Truth1 v)))) with (1 * n)%nat.
    rewrite (fsum_Fin n _ a) by (intros j Hj; apply (Hb j Hj)).
    rewrite Nat.mul_1_l. unfold of_nat, fdiv.
    destruct (Req_dec_T (INR n) 0); [contradiction | reflexivity]. }
  unfold LikelihoodRatioGaussian.call. rewrite Hnll.
  cbn [bind]. f_equal. unfold ratio. rewrite Hbase.
  cbn [fneg fsub fadd fexp]. f_equal.
  match goal with
  | |- exp ?e = 1 => replace e with 0 by (field; exact Hnz)
  end.
  apply exp_0.
Qed.

(** The unit Gaussians are the fit of the truths [0] and [2]. *)
Lemma fitted_gaussian_scores_one_witness :
  (2 <= 1000)%nat
  /\ / 2 ^ 100 <= sample_std (map (fun j => nth j [0; 2] 0) (seq 0 2)) <= 2 ^ 100
  /\ (forall j, (j < 2)%nat ->
        Rabs (nth j [0; 2] 0) <= 16 * sample_std (map (fun j => nth j [0; 2] 0) (seq 0 2)))
  /\ (forall j, (j < 2)%nat ->
        -50 <= ln (gaussian_density (sample_mean (map (fun j => nth j [0; 2] 0) (seq 0 2)))
                                    (sample_std (map (fun j => nth j [0; 2] 0) (seq 0 2)))
                                    (nth j [0; 2] 0)))
  /\ LikelihoodRatioGaussian.call 1 truth_0_2 unit_gaussians = Ok (Fin 1).
Proof.
  change (map (fun j => nth j [0; 2] 0) (seq 0 2)) with [0; 2].
  assert (Hn : (2 <= 1000)%nat) by lia.
  assert (Hstd : / 2 ^ 100 <= sample_std [0; 2] <= 2 ^ 100)
    by (rewrite sample_std_0_2; apply one_in_range).
  assert (Hnear : forall j, (j < 2)%nat -> Rabs (nth j [0; 2] 0) <= 16 * sample_std [0; 2]).
  { intros j Hj. rewrite sample_std_0_2.
    destruct j as [| [| j]]; [| | lia]; simpl; unfold Rabs;
      match goal with |- context [Rcase_abs ?x] => destruct (Rcase_abs x) end; lra. }
  assert (Hfloor : forall j, (j < 2)%nat ->
            -50 <= ln (gaussian_density (sample_mean [0; 2]) (sample_std [0; 2])
                                        (nth j [0; 2] 0))).
  { intros j Hj. rewrite ln_gaussian_density by (rewrite sample_std_0_2; lra).
    rewrite sample_std_0_2, sample_mean_0_2, ln_1.
    pose proof PI_bounds as HPI.
    assert (Hq : sqrt (2 * PI) < 3) by (apply sqrt_lt_3; lra).
    assert (Hl : ln (sqrt (2 * PI)) < 3).
    { apply Rlt_trans with (sqrt (2 * PI)); [apply ln_lt_self, sqrt_lt_R0; lra | exact Hq]. }
    destruct j as [| [| j]]; [| | lia]; simpl; lra. }
  split; [exact Hn | split; [exact Hstd | split; [exact Hnear | split; [exact Hfloor |]]]].
  apply (fitted_gaussian_scores_one 1 (of_list1 [Fin 0; Fin 2]) unit_gaussians
                                    (fun j => nth j [0; 2] 0));
    try reflexivity; try (simpl; lia); try assumption.
  - intros [| [| j]] Hj; [reflexivity | reflexivity | simpl in Hj; lia].
  - intros j Hj. change (map (fun j => nth j [0; 2] 0) (seq 0 (len1 (of_list1 [Fin 0; Fin 2]))))
      with [0; 2].
    rewrite sample_std_0_2, sample_mean_0_2.
    destruct j as [| [| j]]; [| | simpl in Hj; lia]; repeat split; reflexivity.
Defined.

(** ** The rank ensemble combiner: subsets, missing data and range *)

Lemma comprehension_selected {B : Type} (f : instance -> result B)
      (predictions_list : list instance) (index_list : list Z) (selected : list instance) :
  Forall2 (fun i p => item predictions_list i = Ok p) index_list selected ->
  comprehension (fun i => p <- item predictions_list i ;; f p) index_list
  = comprehension f selected.
Proof.
  intros H. induction H as [| i p idx sel Hi _ IH]; [reflexivity |].
  cbn [comprehension]. rewrite Hi. cbn [bind]. rewrite IH. reflexivity.
Qed.

(** X17.  [index_list] selects: combining the models at the positions
    of [index_list], each a valid position, is combining the list of the
    models selected, in that order and with repetitions. *)
Theorem combine_subset :
  forall (label_names : list string) (check : instance -> result unit)
         (predictions_list : list instance) (index_list : list Z) (selected : list instance),
    Forall2 (fun i p => item predictions_list i = Ok p) index_list selected ->
    y_comb predictions_list (Some index_list) = y_comb selected None
    /\ _combine label_names check predictions_list (Some index_list)
       = _combine label_names check selected None.
Proof.
  intros label_names check predictions_list index_list selected H.
  assert (E : y_comb predictions_list (Some index_list) = y_comb selected None).
  { rewrite y_comb_all. unfold y_comb.
    rewrite (comprehension_selected rank_transform _ _ _ H). reflexivity. }
  split; [exact E |]. unfold _combine. rewrite E. reflexivity.
Qed.

(** The second of two models, selected by its position. *)
Lemma combine_subset_witness :
  Forall2 (fun i p => item [model_a; model_b] i = Ok p) [1%Z] [model_b]
  /\ y_comb [model_a; model_b] (Some [1%Z]) = y_comb [model_b] None
  /\ _combine two_labels accept [model_a; model_b] (Some [1%Z])
     = _combine two_labels accept [model_b] None.
Proof.
  assert (H : Forall2 (fun i p => item [model_a; model_b] i = Ok p) [1%Z] [model_b]).
  { constructor; [reflexivity | constructor]. }
  split; [exact H |].
  exact (combine_subset two_labels accept [model_a; model_b] [1%Z] [model_b] H).
Defined.

Lemma py_index_outside (len : nat) (i : Z) :
  (i < - Z.of_nat len \/ Z.of_nat len <= i)%Z -> py_index len i = Raise IndexError.
Proof.
  intros H. unfold py_index.
  destruct ((0 <=? i) && (i <? Z.of_nat len))%Z eqn:E1.
  - apply andb_true_iff in E1. destruct E1 as [E1 E2].
    apply Z.leb_le in E1. apply Z.ltb_lt in E2. lia.
  - destruct ((- Z.of_nat len <=? i) && (i <? 0))%Z eqn:E2; [| reflexivity].
    apply andb_true_iff in E2. destruct E2 as [E2 E3].
    apply Z.leb_le in E2. apply Z.ltb_lt in E3. lia.
Qed.

Lemma item_Ok_or_IndexError (predictions_list : list instance) (i : Z) :
  (exists p, item predictions_list i = Ok p /\ In p predictions_list)
  \/ item predictions_list i = Raise IndexError.
Proof.
  unfold item. destruct (py_index _ i) as [k | e] eqn:E; cbn [bind].
  - destruct (nth_error predictions_list k) as [p |] eqn:En; [| right; reflexivity].
    left. exists p. split; [reflexivity | eapply nth_error_In; eassumption].
  - right. unfold py_index in E.
    destruct ((0 <=? i) && (i <? _))%Z; [discriminate |].
    destruct ((- _ <=? i) && (i <? 0))%Z; [discriminate |]. injection E as <-. reflexivity.
Qed.

(** X18.  A position of [index_list] outside the list of models,
    counting negative positions from the end, raises [IndexError] when
    every model of the list can be rank transformed. *)
Theorem combine_index_out_of_range :
  forall (label_names : list string) (check : instance -> result unit)
         (predictions_list : list instance) (index_list : list Z) (i : Z),
    In i index_list ->
    (i < - Z.of_nat (List.length predictions_list)
     \/ Z.of_nat (List.length predictions_list) <= i)%Z ->
    (forall p, In p predictions_list -> exists t, rank_transform p = Ok t) ->
    y_comb predictions_list (Some index_list) = Raise IndexError
    /\ _combine label_names check predictions_list (Some index_list) = Raise IndexError.
Proof.
  intros label_names check predictions_list index_list i Hin Hout Hok.
  assert (E : comprehension (fun i => p <- item predictions_list i ;; rank_transform p)
                            index_list = Raise IndexError).
  { induction index_list as [| i0 idx IH]; [contradiction |].
    cbn [comprehension].
    destruct (item_Ok_or_IndexError predictions_list i0) as [(p & Hp & Hpin) | Hp].
    - rewrite Hp. cbn [bind]. destruct (Hok p Hpin) as [t ->]. cbn [bind].
      destruct Hin as [-> | Hin].
      + unfold item in Hp. rewrite (py_index_outside _ _ Hout) in Hp. discriminate.
      + rewrite (IH Hin). reflexivity.
    - rewrite Hp. reflexivity. }
  assert (E' : y_comb predictions_list (Some index_list) = Raise IndexError)
    by (unfold y_comb; rewrite E; reflexivity).
  split; [exact E' |]. unfold _combine. rewrite E'. reflexivity.
Qed.

(** Position [1] in a list of one model. *)
Lemma combine_index_out_of_range_witness :
  In 1%Z [0%Z; 1%Z]
  /\ (forall p, In p [model_a] -> exists t, rank_transform p = Ok t)
  /\ y_comb [model_a] (Some [0%Z; 1%Z]) = Raise IndexError
  /\ _combine two_labels accept [model_a] (Some [0%Z; 1%Z]) = Raise IndexError.
Proof.
  assert (Hin : In 1%Z [0%Z; 1%Z]) by (right; left; reflexivity).
  assert (Hok : forall p, In p [model_a] -> exists t, rank_transform p = Ok t).
  { intros p [<- | []]. eexists. reflexivity. }
  split; [exact Hin | split; [exact Hok |]].
  apply (combine_index_out_of_range two_labels accept [model_a] [0%Z; 1%Z] 1 Hin);
    [simpl; lia | exact Hok].
Defined.

Lemma fadd_zero_r (x : float) : fadd x (Fin 0) = x.
Proof. destruct x; simpl; try reflexivity. f_equal. ring. Qed.

Lemma nanmean_nan_last (xs : list float) : nanmean (xs ++ [NaN]) = nanmean xs.
Proof.
  unfold nanmean. rewrite map_app, fold_left_app, filter_app. cbn [map fold_left filter isnan negb].
  rewrite fadd_zero_r, app_nil_r. reflexivity.
Qed.

Lemma comprehension_app {A B : Type} (f : A -> result B) (l1 l2 : list A) :
  comprehension f (l1 ++ l2)
  = (b1 <- comprehension f l1 ;; b2 <- comprehension f l2 ;; Ok (b1 ++ b2)).
Proof.
  induction l1 as [| a l1 IH]; cbn [app comprehension bind].
  - destruct (comprehension f l2); reflexivity.
  - destruct (f a); cbn [bind]; [| reflexivity]. rewrite IH.
    destruct (comprehension f l1); cbn [bind]; [| reflexivity].
    destruct (comprehension f l2); reflexivity.
Qed.

Lemma comprehension_matrices (l : list instance) (n : nat) :
  (forall p, In p l -> exists a, y_pred p = Some (Array2 a)
                                 /\ rows2 a = n /\ (2 <= cols2 a)%nat) ->
  exists ts, comprehension rank_transform l = Ok ts
             /\ List.length ts = List.length l
             /\ forall t, In t ts -> rows2 t = n.
Proof.
  induction l as [| p l IH]; intros H.
  - exists []. repeat split. intros t [].
  - destruct (H p (or_introl eq_refl)) as (a & Ha & Hr & Hc).
    destruct IH as (ts & Hts & Hlen & Hrows); [intros q Hq; apply H; right; exact Hq |].
    exists (rank_columns a :: ts). cbn [comprehension].
    rewrite (rank_transform_matrix p a Ha Hc), Hts. cbn [bind]. repeat split.
    + simpl. congruence.
    + intros t [<- | Ht]; [exact Hr | apply Hrows; exact Ht].
Qed.

(** X19.  A model with a NaN in each of its two columns counts for
    nothing: its ranks are all NaN, which [np.nanmean] skips, so that
    adding it to models of the same length changes neither the values
    combined nor the outcome. *)
Theorem model_without_data_ignored :
  forall (label_names : list string) (check : instance -> result unit)
         (predictions_list : list instance) (q : instance) (b : array2) (j0 j1 : nat),
    predictions_list <> [] ->
    (forall p, In p predictions_list ->
               exists a, y_pred p = Some (Array2 a)
                         /\ rows2 a = rows2 b /\ (2 <= cols2 a)%nat) ->
    y_pred q = Some (Array2 b) -> (2 <= cols2 b)%nat ->
    (j0 < rows2 b)%nat -> get2 b j0 0 = NaN ->
    (j1 < rows2 b)%nat -> get2 b j1 1 = NaN ->
    y_comb (predictions_list ++ [q]) None = y_comb predictions_list None
    /\ _combine label_names check (predictions_list ++ [q]) None
       = _combine label_names check predictions_list None.
Proof.
  intros label_names check l q b j0 j1 Hne Hl Hq Hc Hj0 Hn0 Hj1 Hn1.
  assert (E : y_comb (l ++ [q]) None = y_comb l None).
  { rewrite !y_comb_all, comprehension_app.
    destruct (comprehension_matrices l (rows2 b) Hl) as (ts & Hts & Hlen & Hrows).
    rewrite Hts. cbn [bind comprehension].
    rewrite (rank_transform_matrix q b Hq Hc). cbn [bind].
    destruct ts as [| t ts]; [destruct l; [contradiction | discriminate] |].
    cbn [app stack_nanmean].
    assert (Hall : forall l', (forall t', In t' l' -> rows2 t' = rows2 b) ->
                              forallb (fun t' => (rows2 t' =? rows2 t)%nat) l' = true).
    { intros l' Hl'. apply forallb_forall. intros t' Ht'. apply Nat.eqb_eq.
      rewrite (Hl' t' Ht'), (Hrows t (or_introl eq_refl)). reflexivity. }
    change (t :: ts ++ [rank_columns b]) with ((t :: ts) ++ [rank_columns b]).
    rewrite (Hall ((t :: ts) ++ [rank_columns b])), (Hall (t :: ts)).
    - cbn [negb raise_if bind]. do 3 f_equal.
      extensionality j. extensionality c.
      rewrite map_app. cbn [map].
      assert (Hnan : get2 (rank_columns b) j c = NaN).
      { cbn [rank_columns get2]. destruct (c =? 0)%nat.
        - rewrite get1_rankdata, to_list1_column.
          replace (existsb isnan (map (fun j2 => get2 b j2 0%nat) (seq 0 (rows2 b))))
            with true; [reflexivity |].
          symmetry. apply existsb_exists. exists NaN. split; [| reflexivity].
          apply in_map_iff. exists j0. split; [exact Hn0 | apply in_seq; lia].
        - rewrite get1_rankdata, to_list1_column.
          replace (existsb isnan (map (fun j2 => get2 b j2 1%nat) (seq 0 (rows2 b))))
            with true; [reflexivity |].
          symmetry. apply existsb_exists. exists NaN. split; [| reflexivity].
          apply in_map_iff. exists j1. split; [exact Hn1 | apply in_seq; lia]. }
      rewrite Hnan. apply nanmean_nan_last.
    - exact Hrows.
    - intros t' Ht'. apply in_app_or in Ht'. destruct Ht' as [Ht' | [<- | []]];
        [apply Hrows; exact Ht' | reflexivity]. }
  split; [exact E |]. unfold _combine. rewrite E. reflexivity.
Qed.

(** A model of NaN beside a model with data. *)
Lemma model_without_data_ignored_witness :
  y_comb ([model_a] ++ [model_nan]) None = y_comb [model_a] None
  /\ _combine two_labels accept ([model_a] ++ [model_nan]) None
     = _combine two_labels accept [model_a] None.
Proof.
  apply (model_without_data_ignored two_labels accept [model_a] model_nan
           (of_list2 2 [[NaN; NaN]; [NaN; NaN]]) 0 0);
    try reflexivity; try (simpl; lia); try discriminate.
  intros p [<- | []]. exists two_rows. repeat split; simpl; lia.
Defined.

(** X20.  Two models with different numbers of samples cannot be
    combined: the per-model arrays do not stack and the combiner raises
    [ValueError]. *)
Theorem models_of_different_length :
  forall (label_names : list string) (check : instance -> result unit)
         (predictions_list : list instance) (p q : instance) (a b : array2),
    (forall m, In m predictions_list ->
               exists c, y_pred m = Some (Array2 c) /\ (2 <= cols2 c)%nat) ->
    In p predictions_list -> In q predictions_list ->
    y_pred p = Some (Array2 a) -> y_pred q = Some (Array2 b) ->
    rows2 a <> rows2 b ->
    y_comb predictions_list None
    = Raise (ValueError "setting an array element with a sequence")
    /\ _combine label_names check predictions_list None
       = Raise (ValueError "setting an array element with a sequence").
Proof.
  intros label_names check l p q a b Hl Hp Hq Ha Hb Hne.
  assert (Hts : exists ts, comprehension rank_transform l = Ok ts
                           /\ forall m c, In m l -> y_pred m = Some (Array2 c) ->
                                          exists t, In t ts /\ rows2 t = rows2 c).
  { clear Hp Hq. induction l as [| m l IH].
    - exists []. split; [reflexivity | intros m c []].
    - destruct (Hl m (or_introl eq_refl)) as (c & Hc & Hcols).
      destruct IH as (ts & Hts & Hin); [intros m' Hm'; apply Hl; right; exact Hm' |].
      exists (rank_columns c :: ts). cbn [comprehension].
      rewrite (rank_transform_matrix m c Hc Hcols), Hts. split; [reflexivity |].
      intros m' c' [<- | Hm'] Hc'.
      + rewrite Hc in Hc'. injection Hc' as <-. exists (rank_columns c). split;
          [left; reflexivity | reflexivity].
      + destruct (Hin m' c' Hm' Hc') as (t & Ht & Hr). exists t. split;
          [right; exact Ht | exact Hr]. }
  destruct Hts as (ts & Hts & Hin).
  assert (E : y_comb l None = Raise (ValueError "setting an array element with a sequence")).
  { rewrite y_comb_all, Hts. cbn [bind].
    destruct (Hin p a Hp Ha) as (ta & Hta & Hra).
    destruct (Hin q b Hq Hb) as (tb & Htb & Hrb).
    destruct ts as [| t ts]; [contradiction |]. cbn [stack_nanmean].
    destruct (forallb (fun t' => (rows2 t' =? rows2 t)%nat) (t :: ts)) eqn:E;
      [| reflexivity].
    exfalso. rewrite forallb_forall in E.
    pose proof (E ta Hta) as E1. pose proof (E tb Htb) as E2.
    apply Nat.eqb_eq in E1, E2. congruence. }
  split; [exact E |]. unfold _combine. rewrite E. reflexivity.
Qed.

(** A model of two samples beside a model of one. *)
Lemma models_of_different_length_witness :
  rows2 two_rows <> rows2 (of_list2 2 [[Fin 1; Fin 1]])
  /\ y_comb [model_a; model_short] None
     = Raise (ValueError "setting an array element with a sequence")
  /\ _combine two_labels accept [model_a; model_short] None
     = Raise (ValueError "setting an array element with a sequence").
Proof.
  assert (Hne : rows2 two_rows <> rows2 (of_list2 2 [[Fin 1; Fin 1]])) by (simpl; lia).
  split; [exact Hne |].
  apply (models_of_different_length two_labels accept [model_a; model_short]
           model_a model_short two_rows (of_list2 2 [[Fin 1; Fin 1]]));
    try reflexivity; try exact Hne.
  - intros m [<- | [<- | []]]; eexists; (split; [reflexivity | simpl; lia]).
  - left. reflexivity.
  - right. left. reflexivity.
Defined.

Lemma rank_in_bounds (l : list float) (x : float) :
  existsb isnan l = false -> In x l ->
  1 <= rank_in l x <= INR (List.length l).
Proof.
  intros Hl Hx. pose proof (no_nan_in l x Hl Hx) as Hn.
  pose proof (count_partition l x Hl Hn) as Hp.
  pose proof (count_equal_pos l x Hx Hn) as He.
  unfold rank_in.
  remember (List.length (filter (fun y => flt y x) l)) as lt.
  remember (List.length (filter (fun y => feq y x) l)) as eq.
  remember (List.length (filter (fun y => flt x y) l)) as gt.
  rewrite <- Hp, !plus_INR.
  apply le_INR in He. change (INR 1) with 1 in He.
  pose proof (pos_INR lt). pose proof (pos_INR gt). lra.
Qed.

Lemma rank_columns_bounds (a : array2) (j : nat) :
  (j < rows2 a)%nat ->
  existsb isnan (to_list1 (column_of a 0)) = false ->
  existsb isnan (to_list1 (column_of a 1)) = false ->
  exists r0 r1,
    get2 (rank_columns a) j 0 = Fin r0 /\ 1 <= r0 <= INR (rows2 a)
    /\ get2 (rank_columns a) j 1 = Fin r1 /\ 0 <= r1 <= INR (rows2 a) - 1.
Proof.
  intros Hj H0 H1.
  assert (Hb : forall c, existsb isnan (to_list1 (column_of a c)) = false ->
                         1 <= rank_in (to_list1 (column_of a c)) (get2 a j c)
                         <= INR (rows2 a)).
  { intros c Hc.
    replace (rows2 a) with (List.length (to_list1 (column_of a c)))
      by (rewrite to_list1_column, length_map, length_seq; reflexivity).
    apply rank_in_bounds; [exact Hc |].
    rewrite to_list1_column. apply in_map_iff. exists j. split;
      [reflexivity | apply in_seq; lia]. }
  exists (rank_in (to_list1 (column_of a 0)) (get2 a j 0)),
         (INR (rows2 a) - rank_in (to_list1 (column_of a 1)) (get2 a j 1)).
  cbn [rank_columns get2 Nat.eqb]. rewrite !get1_rankdata, H0, H1.
  pose proof (Hb 0%nat H0). pose proof (Hb 1%nat H1).
  repeat split; try reflexivity; lra.
Qed.

Lemma fold_fadd_bounds (lo hi : R) (xs : list float) (acc : R) (k : nat) :
  (forall x, In x xs -> exists r, x = Fin r /\ lo <= r <= hi) ->
  INR k * lo <= acc <= INR k * hi ->
  exists s, fold_left fadd (map (fun x => if isnan x then Fin 0 else x) xs) (Fin acc) = Fin s
            /\ INR (k + List.length xs) * lo <= s <= INR (k + List.length xs) * hi.
Proof.
  revert acc k. induction xs as [| x xs IH]; intros acc k H Hacc.
  - exists acc. split; [reflexivity |]. cbn [List.length]. rewrite Nat.add_0_r. exact Hacc.
  - destruct (H x (or_introl eq_refl)) as (r & -> & Hr).
    cbn [map fold_left isnan fadd List.length].
    destruct (IH (acc + r) (S k)) as (s & Hs & Hb).
    + intros y Hy. apply H. right. exact Hy.
    + rewrite S_INR. lra.
    + exists s. split; [exact Hs |].
      replace (k + S (List.length xs))%nat with (S k + List.length xs)%nat by lia. exact Hb.
Qed.

Lemma nanmean_bounds (lo hi : R) (xs : list float) :
  xs <> [] ->
  (forall x, In x xs -> exists r, x = Fin r /\ lo <= r <= hi) ->
  exists r, nanmean xs = Fin r /\ lo <= r <= hi.
Proof.
  intros Hne H. unfold nanmean.
  destruct (fold_fadd_bounds lo hi xs 0 0 H) as (s & Hs & Hb);
    [cbn [INR]; lra |]. rewrite Hs. cbn [Nat.add] in Hb.
  assert (Hlen : List.length (filter (fun x => negb (isnan x)) xs) = List.length xs).
  { clear Hs Hb Hne. induction xs as [| x xs IH]; [reflexivity |].
    destruct (H x (or_introl eq_refl)) as (r & -> & _). cbn [filter isnan negb List.length].
    f_equal. apply IH. intros y Hy. apply H. right. exact Hy. }
  rewrite Hlen. unfold of_nat. cbn [fdiv].
  assert (Hpos : 0 < INR (List.length xs)).
  { apply lt_0_INR. destruct xs; [contradiction | simpl; lia]. }
  destruct (Req_dec_T (INR (List.length xs)) 0) as [E | _]; [lra |].
  exists (s / INR (List.length xs)). split; [reflexivity |].
  split.
  - apply Rmult_le_reg_r with (INR (List.length xs)); [exact Hpos |].
    replace (s / INR (List.length xs) * INR (List.length xs)) with s by (field; lra). lra.
  - apply Rmult_le_reg_r with (INR (List.length xs)); [exact Hpos |].
    replace (s / INR (List.length xs) * INR (List.length xs)) with s by (field; lra). lra.
Qed.

Lemma comprehension_rank_columns (l : list instance) (n : nat) (P : array2 -> Prop) :
  (forall p, In p l -> exists a, y_pred p = Some (Array2 a)
                                 /\ rows2 a = n /\ (2 <= cols2 a)%nat /\ P a) ->
  exists ts, comprehension rank_transform l = Ok ts
             /\ List.length ts = List.length l
             /\ forall t, In t ts -> exists a, t = rank_columns a /\ rows2 a = n /\ P a.
Proof.
  induction l as [| p l IH]; intros H.
  - exists []. repeat split. intros t [].
  - destruct (H p (or_introl eq_refl)) as (a & Ha & Hr & Hc & HP).
    destruct IH as (ts & Hts & Hlen & Hrows); [intros q Hq; apply H; right; exact Hq |].
    exists (rank_columns a :: ts). cbn [comprehension].
    rewrite (rank_transform_matrix p a Ha Hc), Hts. cbn [bind]. repeat split.
    + simpl. congruence.
    + intros t [<- | Ht]; [exists a; repeat split; assumption | apply Hrows; exact Ht].
Qed.

(** X21.  Range of the combination: for models of [n] samples
    without NaN in their first two columns, every entry of column 0 of
    the combination lies in [[1, n]] and every entry of column 1 in
    [[0, n - 1]]. *)
Theorem ensemble_within_rank_range :
  forall (predictions_list : list instance) (n : nat),
    predictions_list <> [] ->
    (forall p, In p predictions_list ->
       exists a, y_pred p = Some (Array2 a) /\ rows2 a = n /\ (2 <= cols2 a)%nat
                 /\ (existsb isnan (to_list1 (column_of a 0)) = false
                     /\ existsb isnan (to_list1 (column_of a 1)) = false)) ->
    exists t,
      y_comb predictions_list None = Ok (Array2 t)
      /\ rows2 t = n /\ cols2 t = 2%nat
      /\ forall j, (j < n)%nat ->
           exists r0 r1,
             get2 t j 0 = Fin r0 /\ 1 <= r0 <= INR n
             /\ get2 t j 1 = Fin r1 /\ 0 <= r1 <= INR n - 1.
Proof.
  intros l n Hne Hl.
  destruct (comprehension_rank_columns l n _ Hl) as (ts & Hts & Hlen & Hin).
  rewrite y_comb_all, Hts. cbn [bind].
  destruct ts as [| t ts]; [destruct l; [contradiction | discriminate] |].
  cbn [stack_nanmean].
  assert (Hrows : forall t', In t' (t :: ts) -> rows2 t' = n).
  { intros t' Ht'. destruct (Hin t' Ht') as (a & -> & Hr & _). exact Hr. }
  replace (forallb (fun t' => (rows2 t' =? rows2 t)%nat) (t :: ts)) with true.
  - cbn [negb raise_if bind]. eexists. split; [reflexivity |]. cbn [rows2 cols2 get2].
    split; [apply Hrows; left; reflexivity |]. split; [reflexivity |].
    intros j Hj.
    assert (Hcell : forall t', In t' (t :: ts) ->
              exists r0 r1, get2 t' j 0 = Fin r0 /\ 1 <= r0 <= INR n
                            /\ get2 t' j 1 = Fin r1 /\ 0 <= r1 <= INR n - 1).
    { intros t' Ht'. destruct (Hin t' Ht') as (a & -> & Hr & H0 & H1).
      rewrite <- Hr. apply rank_columns_bounds; [lia | exact H0 | exact H1]. }
    destruct (nanmean_bounds 1 (INR n) (map (fun t' => get2 t' j 0%nat) (t :: ts)))
      as (r0 & Hr0 & Hb0); [discriminate | |].
    { intros x Hx. apply in_map_iff in Hx. destruct Hx as (t' & <- & Ht').
      destruct (Hcell t' Ht') as (r0 & r1 & E0 & B0 & _). exists r0. split; assumption. }
    destruct (nanmean_bounds 0 (INR n - 1) (map (fun t' => get2 t' j 1%nat) (t :: ts)))
      as (r1 & Hr1 & Hb1); [discriminate | |].
    { intros x Hx. apply in_map_iff in Hx. destruct Hx as (t' & <- & Ht').
      destruct (Hcell t' Ht') as (r0' & r1 & _ & _ & E1 & B1). exists r1. split; assumption. }
    exists r0, r1. repeat split; try assumption; lra.
  - symmetry. apply forallb_forall. intros t' Ht'. apply Nat.eqb_eq.
    rewrite (Hrows t' Ht'), (Hrows t (or_introl eq_refl)). reflexivity.
Qed.

(** Two models of two samples. *)
Lemma ensemble_within_rank_range_witness :
  exists t,
    y_comb [model_a; model_b] None = Ok (Array2 t)
    /\ rows2 t = 2%nat /\ cols2 t = 2%nat
    /\ forall j, (j < 2)%nat ->
         exists r0 r1,
           get2 t j 0 = Fin r0 /\ 1 <= r0 <= INR 2
           /\ get2 t j 1 = Fin r1 /\ 0 <= r1 <= INR 2 - 1.
Proof.
  apply (ensemble_within_rank_range [model_a; model_b] 2); [discriminate |].
  intros p [<- | [<- | []]]; eexists; (split; [reflexivity |]);
    repeat split; simpl; lia.
Defined.

(** ** Predictions from labels *)

Section Labels.

Variable label_names : list string.

Lemma fill_row_known (k : nat) (label_list : list string) (ps_i : nat -> float) :
  (forall l, In l label_list -> exists c, index label_names l = Ok c) ->
  fill_row label_names k label_list ps_i
  = (fun c => if existsb (names_column label_names c) label_list
              then fdiv (Fin 1) (of_nat k) else ps_i c, Ok tt).
Proof.
  revert ps_i. induction label_list as [| l rest IH]; intros ps_i H.
  - reflexivity.
  - cbn [fill_row]. destruct (H l (or_introl eq_refl)) as [c0 Hc0]. rewrite Hc0.
    rewrite IH by (intros l' Hl'; apply H; right; exact Hl').
    f_equal. extensionality c. cbn [existsb]. unfold names_column at 2. rewrite Hc0.
    destruct (existsb (names_column label_names c) rest).
    + rewrite orb_true_r. reflexivity.
    + rewrite orb_false_r. rewrite (Nat.eqb_sym c0 c). reflexivity.
Qed.

Lemma fill_rows_known (y_pred_labels : list labels) :
  (forall entry, In entry y_pred_labels ->
     forall l, In l (label_list_of entry) -> exists c, index label_names l = Ok c) ->
  forall (i : nat) (a : nat -> nat -> float),
  exists a',
    fill_rows label_names i y_pred_labels a = (a', Ok tt)
    /\ forall i' c,
        a' i' c
        = if ((i <=? i') && (i' <? i + List.length y_pred_labels))%nat
          then if existsb (names_column label_names c)
                          (label_list_of (nth (i' - i) y_pred_labels (Several [])))
               then fdiv (Fin 1)
                         (of_nat (List.length
                                    (label_list_of (nth (i' - i) y_pred_labels (Several [])))))
               else a i' c
          else a i' c.
Proof.
  induction y_pred_labels as [| entry rest IH]; intros H i a.
  - exists a. split; [reflexivity |]. intros i' c. cbn [List.length].
    replace (i' <? i + 0)%nat with (i' <? i)%nat by (f_equal; lia).
    destruct (i <=? i')%nat eqn:E1, (i' <? i)%nat eqn:E2; try reflexivity.
    apply Nat.leb_le in E1. apply Nat.ltb_lt in E2. lia.
  - cbn [fill_rows].
    rewrite fill_row_known by (apply (H entry); left; reflexivity).
    destruct (IH (fun entry' Hin => H entry' (or_intror Hin)) (S i)
                 (fun i' => if (i' =? i)%nat
                            then fun c => if existsb (names_column label_names c)
                                                     (label_list_of entry)
                                          then fdiv (Fin 1)
                                                    (of_nat (List.length (label_list_of entry)))
                                          else a i c
                            else a i')) as (a' & Ha' & Hval).
    exists a'. split; [exact Ha' |].
    intros i' c. rewrite Hval. cbn [List.length].
    destruct (Nat.lt_trichotomy i' i) as [Hlt | [-> | Hgt]].
    + replace (S i <=? i')%nat with false by (symmetry; apply Nat.leb_gt; lia).
      replace (i <=? i')%nat with false by (symmetry; apply Nat.leb_gt; lia).
      cbn [andb]. replace (i' =? i)%nat with false by (symmetry; apply Nat.eqb_neq; lia).
      reflexivity.
    + replace (S i <=? i)%nat with false by (symmetry; apply Nat.leb_gt; lia).
      rewrite Nat.leb_refl.
      replace (i <? i + S (List.length rest))%nat with true
        by (symmetry; apply Nat.ltb_lt; lia).
      cbn [andb]. rewrite Nat.eqb_refl, Nat.sub_diag. reflexivity.
    + replace (S i <=? i')%nat with true by (symmetry; apply Nat.leb_le; lia).
      replace (i <=? i')%nat with true by (symmetry; apply Nat.leb_le; lia).
      replace (i' <? i + S (List.length rest))%nat
        with (i' <? S i + List.length rest)%nat by (f_equal; lia).
      replace (i' =? i)%nat with false by (symmetry; apply Nat.eqb_neq; lia).
      replace (i' - i)%nat with (S (i' - S i)) by lia.
      reflexivity.
Qed.

Lemma index_Ok (l : list string) (x : string) (c : nat) :
  index l x = Ok c -> nth_error l c = Some x /\ (c < List.length l)%nat.
Proof.
  revert c. induction l as [| y l IH]; intros c H; cbn [index] in H; [discriminate |].
  destruct (String.eqb y x) eqn:E.
  - injection H as <-. apply String.eqb_eq in E. subst y. split; [reflexivity | simpl; lia].
  - destruct (index l x) as [i |] eqn:Ei; cbn [bind] in H; [| discriminate].
    injection H as <-. destruct (IH i eq_refl) as [H1 H2]. split; [exact H1 | simpl; lia].
Qed.

Lemma index_In (l : list string) (x : string) :
  In x l -> exists c, index l x = Ok c.
Proof.
  induction l as [| y l IH]; intros H; [contradiction |]. cbn [index].
  destruct (String.eqb y x) eqn:E; [exists 0%nat; reflexivity |].
  destruct H as [-> | H]; [rewrite String.eqb_refl in E; discriminate |].
  destruct (IH H) as [c ->]. exists (S c). reflexivity.
Qed.

Lemma index_not_In (l : list string) (x : string) :
  ~ In x l -> index l x = Raise (ValueError "is not in list").
Proof.
  induction l as [| y l IH]; intros H; [reflexivity |]. cbn [index].
  destruct (String.eqb y x) eqn:E.
  - apply String.eqb_eq in E. subst y. exfalso. apply H. left. reflexivity.
  - rewrite IH by (intros Hin; apply H; right; exact Hin). reflexivity.
Qed.

Lemma init_from_known_labels (self : instance) (y_pred_labels : list labels) :
  label_names <> [] ->
  (forall entry, In entry y_pred_labels ->
     forall l, In l (label_list_of entry) -> In l label_names) ->
  exists a : array2,
    _init_from_pred_labels label_names self y_pred_labels
    = (mk_instance (Some (Array2 a)), Ok tt)
    /\ rows2 a = List.length y_pred_labels
    /\ cols2 a = List.length label_names
    /\ forall i c,
        (i < List.length y_pred_labels)%nat ->
        get2 a i c
        = if existsb (names_column label_names c)
                     (label_list_of (nth i y_pred_labels (Several [])))
          then fdiv (Fin 1)
                    (of_nat (List.length (label_list_of (nth i y_pred_labels (Several [])))))
          else Fin 0.
Proof.
  intros Hne Hknown. unfold _init_from_pred_labels.
  destruct label_names as [| l0 names] eqn:En; [contradiction |]. rewrite <- En in *.
  destruct (fill_rows_known y_pred_labels
              (fun entry Hin l Hl => index_In _ _ (Hknown entry Hin l Hl))
              0%nat (fun _ _ => Fin 0)) as (a' & Ha' & Hval).
  rewrite Ha'. eexists. split; [reflexivity |]. cbn [rows2 cols2 get2].
  split; [reflexivity |]. split; [reflexivity |].
  intros i c Hi. rewrite Hval. cbn [Nat.leb andb Nat.add].
  replace (i <? List.length y_pred_labels)%nat with true
    by (symmetry; apply Nat.ltb_lt; exact Hi).
  rewrite Nat.sub_0_r. reflexivity.
Qed.

Lemma fill_row_unknown (k : nat) (label_list : list string) (ps_i : nat -> float) :
  (exists l, In l label_list /\ ~ In l label_names) ->
  snd (fill_row label_names k label_list ps_i) = Raise (ValueError "is not in list").
Proof.
  revert ps_i. induction label_list as [| l rest IH]; intros ps_i (x & Hx & Hnot).
  - contradiction.
  - cbn [fill_row]. destruct (index label_names l) as [c | e] eqn:E.
    + apply IH. destruct Hx as [-> | Hx].
      * apply index_Ok in E. destruct E as [E _]. apply nth_error_In in E. contradiction.
      * exists x. split; assumption.
    + destruct (in_dec string_dec l label_names) as [Hin | Hnin].
      * destruct (index_In _ _ Hin) as [c Hc]. congruence.
      * rewrite (index_not_In _ _ Hnin) in E. injection E as <-. reflexivity.
Qed.

Lemma fill_row_raises (k : nat) (label_list : list string) (ps_i : nat -> float) (e : exception) :
  snd (fill_row label_names k label_list ps_i) = Raise e ->
  e = ValueError "is not in list".
Proof.
  revert ps_i. induction label_list as [| l rest IH]; intros ps_i H.
  - discriminate.
  - cbn [fill_row] in H. destruct (index label_names l) as [c | e'] eqn:E.
    + eapply IH. exact H.
    + cbn [snd] in H. injection H as <-.
      destruct (in_dec string_dec l label_names) as [Hin | Hnin].
      * destruct (index_In _ _ Hin) as [c Hc]. congruence.
      * rewrite (index_not_In _ _ Hnin) in E. injection E as <-. reflexivity.
Qed.

Lemma fill_rows_unknown (y_pred_labels : list labels) :
  (exists entry l, In entry y_pred_labels /\ In l (label_list_of entry)
                   /\ ~ In l label_names) ->
  forall i a,
    snd (fill_rows label_names i y_pred_labels a) = Raise (ValueError "is not in list").
Proof.
  induction y_pred_labels as [| entry rest IH]; intros (x & l & Hx & Hl & Hnot) i a.
  - contradiction.
  - cbn [fill_rows].
    destruct (fill_row label_names (List.length (label_list_of entry)) (label_list_of entry) (a i))
      as [row r] eqn:E.
    destruct r as [u | e].
    + apply IH. destruct Hx as [-> | Hx].
      * pose proof (fill_row_unknown (List.length (label_list_of x)) (label_list_of x) (a i)
                                     (ex_intro _ l (conj Hl Hnot))) as Hu.
        rewrite E in Hu. discriminate.
      * exists x, l. repeat split; assumption.
    + cbn [snd]. f_equal.
      apply (fill_row_raises (List.length (label_list_of entry)) (label_list_of entry) (a i)).
      rewrite E. reflexivity.
Qed.

Lemma argmax_scan_rest (row : nat -> float) (ks : list nat) (v : R) (c : nat) :
  0 < v -> (forall k, In k ks -> row k = Fin 0) ->
  argmax_scan row ks (Fin v) c = c.
Proof.
  intros Hv. induction ks as [| k ks IH]; intros H; [reflexivity |].
  cbn [argmax_scan]. rewrite (H k (or_introl eq_refl)). cbn [fle].
  rewrite Rleb_true by lra. cbn [negb]. apply IH. intros k' Hk'. apply H. right. exact Hk'.
Qed.

Lemma argmax_scan_peak (row : nat -> float) (v : R) (c : nat) :
  0 < v -> row c = Fin v ->
  forall (n s max_ind : nat),
    (s <= c < s + n)%nat ->
    (forall k, (s <= k < s + n)%nat -> k <> c -> row k = Fin 0) ->
    argmax_scan row (seq s n) (Fin 0) max_ind = c.
Proof.
  intros Hv Hc. induction n as [| n IH]; intros s max_ind Hs H; [lia |].
  cbn [seq argmax_scan]. destruct (Nat.eq_dec s c) as [-> | Hne].
  - rewrite Hc. cbn [fle]. unfold Rleb. destruct (Rle_dec v 0) as [Hle | _]; [lra |].
    cbn [negb isnan]. apply argmax_scan_rest; [exact Hv |].
    intros k Hk. apply in_seq in Hk. apply H; lia.
  - rewrite (H s) by lia. cbn [fle]. rewrite Rleb_true by lra. cbn [negb].
    apply IH; [lia |]. intros k Hk Hkc. apply H; lia.
Qed.

Lemma argmax_one_positive (n : nat) (row : nat -> float) (v : R) (c : nat) :
  0 < v -> (c < n)%nat -> row c = Fin v ->
  (forall k, (k < n)%nat -> k <> c -> row k = Fin 0) ->
  argmax n row = c.
Proof.
  intros Hv Hcn Hc H. unfold argmax. destruct (Nat.eq_dec c 0) as [-> | Hne].
  - rewrite Hc. cbn [isnan]. apply argmax_scan_rest; [exact Hv |].
    intros k Hk. apply in_seq in Hk. apply H; lia.
  - rewrite (H 0%nat) by lia. cbn [isnan].
    apply (argmax_scan_peak row v c Hv Hc); [lia |]. intros k Hk Hkc. apply H; lia.
Qed.

End Labels.

(** X22.  Built from labels that all belong to the vocabulary, a
    prediction has one row per sample and one column per name; a
    sample's row holds [1 / k] in the columns its [k] labels are found at
    and [0] elsewhere; and the constructor returns that prediction if the
    dimension check accepts it. *)
Theorem labels_become_uniform_rows :
  forall (label_names : list string) (check : instance -> result unit)
         (self : instance) (y_pred_labels : list labels),
    label_names <> [] ->
    (forall entry, In entry y_pred_labels ->
       forall l, In l (label_list_of entry) -> In l label_names) ->
    exists a : array2,
      _init_from_pred_labels label_names self y_pred_labels
      = (mk_instance (Some (Array2 a)), Ok tt)
      /\ Predictions label_names check None (Some y_pred_labels) None
         = (check (mk_instance (Some (Array2 a))) ;;; Ok (mk_instance (Some (Array2 a))))
      /\ rows2 a = List.length y_pred_labels
      /\ cols2 a = List.length label_names
      /\ forall i c,
          (i < List.length y_pred_labels)%nat ->
          get2 a i c
          = if existsb (names_column label_names c)
                       (label_list_of (nth i y_pred_labels (Several [])))
            then fdiv (Fin 1)
                      (of_nat (List.length (label_list_of (nth i y_pred_labels (Several [])))))
            else Fin 0.
Proof.
  intros label_names check self y_pred_labels Hne Hknown.
  destruct (init_from_known_labels label_names self y_pred_labels Hne Hknown)
    as (a & Ha & Hr & Hc & Hval).
  exists a. split; [exact Ha |]. split; [| auto].
  assert (Hb : _init_from_pred_labels label_names blank y_pred_labels
               = _init_from_pred_labels label_names self y_pred_labels).
  { unfold _init_from_pred_labels. destruct label_names; [contradiction | reflexivity]. }
  unfold Predictions, _ranking_init. rewrite Hb, Ha. cbn [fst snd].
  destruct (check (mk_instance (Some (Array2 a)))) as [[] | e]; reflexivity.
Qed.

(** One sample with one label, one with both. *)
Lemma labels_become_uniform_rows_witness :
  two_labels <> []
  /\ exists a : array2,
      _init_from_pred_labels two_labels blank
                             [Single "a"%string; Several ["a"%string; "b"%string]]
      = (mk_instance (Some (Array2 a)), Ok tt)
      /\ Predictions two_labels accept None
                     (Some [Single "a"%string; Several ["a"%string; "b"%string]]) None
         = Ok (mk_instance (Some (Array2 a)))
      /\ rows2 a = 2%nat /\ cols2 a = 2%nat
      /\ get2 a 0 0 = fdiv (Fin 1) (of_nat 1) /\ get2 a 0 1 = Fin 0
      /\ get2 a 1 0 = fdiv (Fin 1) (of_nat 2) /\ get2 a 1 1 = fdiv (Fin 1) (of_nat 2).
Proof.
  assert (Hne : two_labels <> []) by discriminate.
  split; [exact Hne |].
  destruct (labels_become_uniform_rows two_labels accept blank
              [Single "a"%string; Several ["a"%string; "b"%string]] Hne)
    as (a & Ha & HP & Hr & Hc & Hval).
  { intros entry [<- | [<- | []]] l; simpl; intros Hl;
      repeat (destruct Hl as [<- | Hl]; [simpl; auto |]); contradiction. }
  exists a. split; [exact Ha |]. split; [exact HP |].
  split; [exact Hr |]. split; [exact Hc |].
  repeat split; rewrite Hval by (simpl; lia); reflexivity.
Defined.

(** X23.  One label outside the vocabulary, in any sample, and the
    initialisation fails with the [ValueError] of [list.index]; the
    constructor called with these labels raises it. *)
Theorem unknown_label_rejected :
  forall (label_names : list string) (check : instance -> result unit)
         (self : instance) (y_pred_labels : list labels) (entry : labels) (l : string),
    label_names <> [] ->
    In entry y_pred_labels -> In l (label_list_of entry) -> ~ In l label_names ->
    snd (_init_from_pred_labels label_names self y_pred_labels)
    = Raise (ValueError "is not in list")
    /\ Predictions label_names check None (Some y_pred_labels) None
       = Raise (ValueError "is not in list").
Proof.
  intros label_names check self y_pred_labels entry l Hne He Hl Hnot.
  assert (E : forall self', snd (_init_from_pred_labels label_names self' y_pred_labels)
                            = Raise (ValueError "is not in list")).
  { intros self'. unfold _init_from_pred_labels.
    destruct label_names as [| l0 names] eqn:En; [contradiction |]. rewrite <- En in *.
    pose proof (fill_rows_unknown label_names y_pred_labels
                  (ex_intro _ entry (ex_intro _ l (conj He (conj Hl Hnot))))
                  0%nat (fun _ _ => Fin 0)) as Hu.
    destruct (fill_rows label_names 0 y_pred_labels (fun _ _ => Fin 0)) as [a r].
    exact Hu. }
  split; [apply E |].
  unfold Predictions, _ranking_init. specialize (E blank).
  destruct (_init_from_pred_labels label_names blank y_pred_labels) as [st r].
  cbn [snd] in E. subst r. reflexivity.
Qed.

(** The label [c] is not of the vocabulary [a], [b]. *)
Lemma unknown_label_rejected_witness :
  ~ In "c"%string two_labels
  /\ snd (_init_from_pred_labels two_labels blank [Single "a"%string; Single "c"%string])
     = Raise (ValueError "is not in list")
  /\ Predictions two_labels accept None
                 (Some [Single "a"%string; Single "c"%string]) None
     = Raise (ValueError "is not in list").
Proof.
  assert (Hnot : ~ In "c"%string two_labels).
  { intros [H | [H | []]]; discriminate. }
  split; [exact Hnot |].
  apply (unknown_label_rejected two_labels accept blank
           [Single "a"%string; Single "c"%string] (Single "c"%string) "c"%string);
    [discriminate | right; left; reflexivity | left; reflexivity | exact Hnot].
Defined.

Lemma map_seq_nth {A B : Type} (f : A -> B) (d : A) (ls : list A) (s : nat) :
  map (fun i => f (nth (i - s) ls d)) (seq s (List.length ls)) = map f ls.
Proof.
  revert s. induction ls as [| x ls IH]; intros s; [reflexivity |].
  cbn [List.length seq map]. rewrite Nat.sub_diag. cbn [nth]. f_equal.
  rewrite <- (IH (S s)). apply map_ext_in. intros i Hi. apply in_seq in Hi.
  replace (i - s)%nat with (S (i - S s)) by lia. reflexivity.
Qed.

Lemma one_label_row (label_names : list string) (l : string) (c0 c : nat) :
  index label_names l = Ok c0 ->
  (if existsb (names_column label_names c) (label_list_of (Single l))
   then fdiv (Fin 1) (of_nat (List.length (label_list_of (Single l))))
   else Fin 0)
  = if (c =? c0)%nat then Fin 1 else Fin 0.
Proof.
  intros H. cbn [label_list_of existsb List.length]. unfold names_column. rewrite H.
  rewrite orb_false_r, (Nat.eqb_sym c0 c). destruct (c =? c0)%nat; [| reflexivity].
  unfold of_nat. cbn [INR fdiv]. destruct (Req_dec_T 1 0) as [E | _]; [lra |].
  f_equal. field.
Qed.

(** X24.  Labels survive the round trip: for single labels of the
    vocabulary, [y_pred_label_index] of the prediction built from them
    gives, sample by sample, a column that carries the sample's
    label. *)
Theorem label_round_trip :
  forall (label_names : list string) (self : instance) (ls : list string),
    label_names <> [] ->
    (forall l, In l ls -> In l label_names) ->
    exists cs,
      _y_pred_label_index (fst (_init_from_pred_labels label_names self (map Single ls)))
      = Ok cs
      /\ map (nth_error label_names) cs = map Some ls.
Proof.
  intros label_names self ls Hne Hin.
  destruct (init_from_known_labels label_names self (map Single ls) Hne)
    as (a & Ha & Hrows & Hcols & Hval).
  { intros entry He l Hl. apply in_map_iff in He. destruct He as (x & <- & Hx).
    destruct Hl as [<- | []]. apply Hin. exact Hx. }
  rewrite Ha. cbn [fst]. unfold _y_pred_label_index. cbn [y_pred].
  rewrite Hcols, Hrows, length_map.
  destruct (List.length label_names =? 0)%nat eqn:E.
  { apply Nat.eqb_eq in E. destruct label_names; [contradiction | discriminate]. }
  eexists. split; [reflexivity |]. rewrite map_map.
  rewrite <- (map_seq_nth Some EmptyString ls 0).
  apply map_ext_in. intros i Hi. apply in_seq in Hi. rewrite Nat.sub_0_r.
  assert (Hl : In (nth i ls EmptyString) label_names) by (apply Hin, nth_In; lia).
  destruct (index_In _ _ Hl) as [c0 Hc0].
  destruct (index_Ok _ _ _ Hc0) as [Hnth Hlt].
  assert (Hrow : forall c, get2 a i c = if (c =? c0)%nat then Fin 1 else Fin 0).
  { intros c. rewrite Hval by (rewrite length_map; lia).
    rewrite (nth_indep _ (Several []) (Single EmptyString)) by (rewrite length_map; lia).
    rewrite (map_nth Single). apply one_label_row. exact Hc0. }
  rewrite (argmax_one_positive (List.length label_names) (get2 a i) 1 c0);
    [exact Hnth | lra | exact Hlt | |].
  - rewrite Hrow, Nat.eqb_refl. reflexivity.
  - intros k _ Hk. rewrite Hrow. apply Nat.eqb_neq in Hk. rewrite Hk. reflexivity.
Qed.

(** The labels [b] then [a]. *)
Lemma label_round_trip_witness :
  exists cs,
    _y_pred_label_index
      (fst (_init_from_pred_labels two_labels blank (map Single ["b"%string; "a"%string])))
    = Ok cs
    /\ map (nth_error two_labels) cs = map Some ["b"%string; "a"%string].
Proof.
  apply (label_round_trip two_labels blank ["b"%string; "a"%string]); [discriminate |].
  intros l [<- | [<- | []]]; simpl; auto.
Defined.

Lemma sum_single_column (v : R) (c0 n s : nat) :
  (s <= c0 < s + n)%nat ->
  fold_right Rplus 0 (map (fun c => if (c =? c0)%nat then v else 0) (seq s n)) = v.
Proof.
  revert s. induction n as [| n IH]; intros s H; [lia |].
  cbn [seq map fold_right]. destruct (Nat.eq_dec s c0) as [-> | Hne].
  - rewrite Nat.eqb_refl.
    assert (Z0 : forall m t, (c0 < t)%nat ->
                   fold_right Rplus 0 (map (fun c => if (c =? c0)%nat then v else 0) (seq t m)) = 0).
    { induction m as [| m IHm]; intros t Ht; [reflexivity |].
      cbn [seq map fold_right]. replace (t =? c0)%nat with false
        by (symmetry; apply Nat.eqb_neq; lia).
      rewrite IHm by lia. ring. }
    rewrite Z0 by lia. ring.
  - replace (s =? c0)%nat with false by (symmetry; apply Nat.eqb_neq; lia).
    rewrite IH by lia. ring.
Qed.

Lemma sum_columns_plus (f g : nat -> R) (l : list nat) :
  fold_right Rplus 0 (map (fun c => f c + g c) l)
  = fold_right Rplus 0 (map f l) + fold_right Rplus 0 (map g l).
Proof. induction l as [| c l IH]; cbn [map fold_right]; [ring | rewrite IH; ring]. Qed.

Lemma sum_labelled_columns (label_names : list string) (v : R) (label_list : list string) :
  NoDup label_list -> (forall l, In l label_list -> In l label_names) ->
  fold_right Rplus 0
    (map (fun c => if existsb (names_column label_names c) label_list then v else 0)
         (seq 0 (List.length label_names)))
  = INR (List.length label_list) * v.
Proof.
  induction label_list as [| l rest IH]; intros Hnd Hin.
  - cbn [existsb List.length INR]. rewrite Rmult_0_l.
    induction (seq 0 (List.length label_names)) as [| c cs IHc];
      cbn [map fold_right]; [reflexivity | rewrite IHc; ring].
  - inversion Hnd as [| ? ? Hnot Hnd']; subst.
    destruct (index_In label_names l (Hin l (or_introl eq_refl))) as [c0 Hc0].
    destruct (index_Ok _ _ _ Hc0) as [Hnth Hlt].
    rewrite (map_ext_in _ (fun c => (if (c =? c0)%nat then v else 0)
                                    + (if existsb (names_column label_names c) rest
                                       then v else 0))).
    + rewrite sum_columns_plus, sum_single_column by lia.
      rewrite IH by (try assumption; intros l' Hl'; apply Hin; right; exact Hl').
      change (List.length (l :: rest)) with (S (List.length rest)). rewrite S_INR. ring.
    + intros c _. cbn [existsb]. unfold names_column at 1. rewrite Hc0.
      rewrite (Nat.eqb_sym c0 c). destruct (c =? c0)%nat eqn:Ec.
      * apply Nat.eqb_eq in Ec. subst c. cbn [orb].
        destruct (existsb (names_column label_names c0) rest) eqn:Ex; [| ring].
        exfalso. apply existsb_exists in Ex. destruct Ex as (l' & Hl' & Hn).
        unfold names_column in Hn. destruct (index label_names l') as [c' |] eqn:Ec';
          [| discriminate].
        apply Nat.eqb_eq in Hn. subst c'. apply index_Ok in Ec'. destruct Ec' as [Ec' _].
        rewrite Hnth in Ec'. injection Ec' as ->. contradiction.
      * cbn [orb]. destruct (existsb (names_column label_names c) rest); ring.
Qed.

Lemma count_as_sum (p : nat -> bool) (l : list nat) :
  INR (List.length (filter p l))
  = fold_right Rplus 0 (map (fun c => if p c then 1 else 0) l).
Proof.
  induction l as [| c l IH]; [reflexivity |]. cbn [filter map fold_right].
  destruct (p c); [| rewrite IH; ring].
  change (List.length (c :: filter p l)) with (S (List.length (filter p l))).
  rewrite S_INR, IH. ring.
Qed.

(** X25.  Rows are distributions: when every sample has at least one
    label, no label twice, all of the vocabulary, a row of the prediction
    built from the labels has as many positive entries as the sample has
    labels, and sums to [1] (in the arithmetic of the real numbers, where
    [k] times [1 / k] is [1]). *)
Theorem rows_sum_to_one :
  forall (label_names : list string) (self : instance) (y_pred_labels : list labels),
    (forall entry, In entry y_pred_labels ->
       label_list_of entry <> [] /\ NoDup (label_list_of entry)
       /\ forall l, In l (label_list_of entry) -> In l label_names) ->
    label_names <> [] ->
    exists a : array2,
      _init_from_pred_labels label_names self y_pred_labels
      = (mk_instance (Some (Array2 a)), Ok tt)
      /\ rows2 a = List.length y_pred_labels
      /\ forall i, (i < rows2 a)%nat ->
           List.length (filter (fun c => flt (Fin 0) (get2 a i c)) (seq 0 (cols2 a)))
           = List.length (label_list_of (nth i y_pred_labels (Several [])))
           /\ fsum (cols2 a) (get2 a i) = Fin 1.
Proof.
  intros label_names self y_pred_labels Hent Hne.
  destruct (init_from_known_labels label_names self y_pred_labels Hne)
    as (a & Ha & Hrows & Hcols & Hval).
  { intros entry He. apply (Hent entry He). }
  exists a. split; [exact Ha |]. split; [exact Hrows |].
  intros i Hi. rewrite Hrows in Hi.
  destruct (Hent (nth i y_pred_labels (Several [])) (nth_In _ _ Hi)) as (Hnil & Hnd & Hin).
  remember (label_list_of (nth i y_pred_labels (Several []))) as L eqn:EL.
  assert (Hk : 0 < INR (List.length L)).
  { apply lt_0_INR. destruct L; [contradiction | simpl; lia]. }
  assert (Hentry : forall c, get2 a i c
                             = Fin (if existsb (names_column label_names c) L
                                    then 1 / INR (List.length L) else 0)).
  { intros c. rewrite Hval by exact Hi. rewrite <- EL.
    destruct (existsb (names_column label_names c) L); [| reflexivity].
    unfold of_nat. cbn [fdiv]. destruct (Req_dec_T (INR (List.length L)) 0) as [E | _];
      [lra | reflexivity]. }
  split.
  - apply INR_eq.
    rewrite (filter_ext (fun c => flt (Fin 0) (get2 a i c))
                        (fun c => existsb (names_column label_names c) L)).
    + rewrite count_as_sum, Hcols, sum_labelled_columns by assumption. ring.
    + intros c. rewrite Hentry. cbn [flt].
      destruct (existsb (names_column label_names c) L).
      * apply Rltb_true. apply Rdiv_lt_0_compat; lra.
      * apply Rltb_false. lra.
  - rewrite (fsum_Fin (cols2 a) (get2 a i)
               (fun c => if existsb (names_column label_names c) L
                         then 1 / INR (List.length L) else 0))
      by (intros c _; apply Hentry).
    rewrite Hcols, sum_labelled_columns by assumption. f_equal. field. lra.
Qed.

(** One sample carrying both labels. *)
Lemma rows_sum_to_one_witness :
  exists a : array2,
    _init_from_pred_labels two_labels blank [Several ["a"%string; "b"%string]]
    = (mk_instance (Some (Array2 a)), Ok tt)
    /\ rows2 a = 1%nat
    /\ forall i, (i < rows2 a)%nat ->
         List.length (filter (fun c => flt (Fin 0) (get2 a i c)) (seq 0 (cols2 a)))
         = List.length (label_list_of (nth i [Several ["a"%string; "b"%string]] (Several [])))
         /\ fsum (cols2 a) (get2 a i) = Fin 1.
Proof.
  apply (rows_sum_to_one two_labels blank [Several ["a"%string; "b"%string]]);
    [| discriminate].
  intros entry [<- | []]. split; [discriminate |]. split.
  - constructor; [intros [H | []]; discriminate | constructor; [intros [] | constructor]].
  - intros l [<- | [<- | []]]; simpl; auto.
Defined.
